(** * Growatt solar power monitor: the session client and its retry policy

    A shallow embedding of [code.py]: [hash_password], the [GrowattApi]
    methods [login] and [get_plant_info] with their [try]/[except] retry
    loops, and the top-level orchestration loop.

    Python values are embedded as the inductive [pyval]; exceptions as the
    record [exn] (class and [str(error)]); a method that mutates [self] and
    talks to the board is a function in the monad [M], which threads a
    [world] (the [GrowattApi] object, the display, the radio, the log of
    effects and the number of network attempts made so far) and keeps every
    mutation made before an exception was raised. A call ends by returning,
    by raising, or not at all: [wifi.connect()] loops until the link is
    up. *)

From Stdlib Require Import ZArith List String Ascii Bool Lia Arith.
From Stdlib Require Import QArith Qround Qpower Qabs.
From Stdlib Require Import Floats.SpecFloat DecimalString.
Import ListNotations.

Local Open Scope string_scope.
Local Open Scope list_scope.
Local Open Scope Z_scope.

(** ** Exceptions *)

(** The exception classes that matter to the control flow. The first two
    groups are what the [except (RuntimeError, ValueError,
    requests.OutOfRetries, WiFiNotConnected)] clauses catch (with the
    subclasses [NotImplementedError] of [RuntimeError] and [UnicodeError] of
    [ValueError]); the rest pass through them. *)
Inductive exn_class : Type :=
| RuntimeError
| NotImplementedError
| ValueError
| UnicodeError
| OutOfRetries
| WiFiNotConnected
| NotLoggedIn
| SerialLoginErrors
| KeyError
| IndexError
| TypeError
| OverflowError
| OSError
| MemoryError.

(** An exception object: its class and the text [str(error)] gives. *)
Record exn : Type := mkExn { exn_cls : exn_class; exn_str : string }.

Inductive result (A : Type) : Type :=
| Ok (a : A)
| Raise (e : exn).
Arguments Ok {A} a.
Arguments Raise {A} e.

(** How a call that may loop for ever ends: with a result, or not at all. *)
Inductive outcome (A : Type) : Type :=
| Done (r : result A)
| Hang.
Arguments Done {A} r.
Arguments Hang {A}.

(** A result is read as the outcome of a call that ended, also inside a
    pair of a world and an outcome. *)
Coercion Done : result >-> outcome.
Arguments pair {A B} & a b.

(** [isinstance(error, (RuntimeError, ValueError, requests.OutOfRetries,
    WiFiNotConnected))]. *)
Definition caught_by_retry (e : exn) : bool :=
  match exn_cls e with
  | RuntimeError | NotImplementedError | ValueError | UnicodeError
  | OutOfRetries | WiFiNotConnected => true
  | _ => false
  end.

Definition is_NotLoggedIn (e : exn) : bool :=
  match exn_cls e with NotLoggedIn => true | _ => false end.

Definition is_SerialLoginErrors (e : exn) : bool :=
  match exn_cls e with SerialLoginErrors => true | _ => false end.

(** ** Python values *)

#[local] Set Warnings "-register-all".

Inductive pyval : Type :=
| PNone
| PBool (b : bool)
| PInt (z : Z)
| PFloat (f : spec_float)
| PStr (s : string)
| PList (l : list pyval)
| PDict (d : list (string * pyval)).

Definition dict : Type := list (string * pyval).

Definition is_None (v : pyval) : bool :=
  match v with PNone => true | _ => false end.

(** Truth value of an object, as [if data['success']:] tests it. *)
Definition py_truth (v : pyval) : bool :=
  match v with
  | PNone => false
  | PBool b => b
  | PInt z => negb (z =? 0)
  | PFloat (S754_zero _) => false
  | PFloat _ => true
  | PStr s => negb (String.eqb s "")
  | PList l => match l with [] => false | _ => true end
  | PDict d => match d with [] => false | _ => true end
  end.

Fixpoint dict_get (d : dict) (k : string) : option pyval :=
  match d with
  | [] => None
  | (k', v) :: d' => if String.eqb k k' then Some v else dict_get d' k
  end.

(** [d[k] = v]: replaces the value of an existing key, appends a new one. *)
Fixpoint dict_set (d : dict) (k : string) (v : pyval) : dict :=
  match d with
  | [] => [(k, v)]
  | (k', v') :: d' =>
      if String.eqb k k' then (k', v) :: d' else (k', v') :: dict_set d' k v
  end.

(** [d.update(u)]. *)
Definition dict_update (d u : dict) : dict :=
  fold_left (fun acc kv => dict_set acc (fst kv) (snd kv)) u d.

(** [v[k]] for a string key [k]. *)
Definition getitem_key (v : pyval) (k : string) : result pyval :=
  match v with
  | PDict d =>
      match dict_get d k with
      | Some x => Ok x
      | None => Raise (mkExn KeyError k)
      end
  | PList _ => Raise (mkExn TypeError "list indices must be integers")
  | PStr _ => Raise (mkExn TypeError "string indices must be integers")
  | _ => Raise (mkExn TypeError "object is not subscriptable")
  end.

(** [l[i]] on a list, negative indices counting from the end. *)
Definition list_index (l : list pyval) (i : Z) : option pyval :=
  let n := Z.of_nat (List.length l) in
  let j := if i <? 0 then i + n else i in
  if (0 <=? j) && (j <? n) then nth_error l (Z.to_nat j) else None.

Definition str_index (s : string) (i : Z) : option ascii :=
  let n := Z.of_nat (String.length s) in
  let j := if i <? 0 then i + n else i in
  if (0 <=? j) && (j <? n) then String.get (Z.to_nat j) s else None.

(** [v[i]] for an integer index [i]. A dict decoded from JSON has string
    keys only, so an integer is never one of its keys. *)
Definition getitem_idx (v : pyval) (i : Z) : result pyval :=
  match v with
  | PList l =>
      match list_index l i with
      | Some x => Ok x
      | None => Raise (mkExn IndexError "list index out of range")
      end
  | PStr s =>
      match str_index s i with
      | Some c => Ok (PStr (String c EmptyString))
      | None => Raise (mkExn IndexError "string index out of range")
      end
  | PDict _ => Raise (mkExn KeyError "0")
  | _ => Raise (mkExn TypeError "object is not subscriptable")
  end.

(** ** [range] and string slices *)

Fixpoint range_count (start step : nat) (count : nat) : list nat :=
  match count with
  | O => []
  | S c => start :: range_count (start + step) step c
  end.

(** [range(start, stop, step)] for a positive [step]. *)
Definition py_range (start stop step : nat) : list nat :=
  range_count start step (Nat.div (stop - start + (step - 1)) step).

(** [s[i]] for an index [0 <= i]: [IndexError] past the end. *)
Definition str_at (s : string) (i : nat) : result ascii :=
  match String.get i s with
  | Some c => Ok c
  | None => Raise (mkExn IndexError "string index out of range")
  end.

(** [s[0:i] + c + s[i + 1:]]. *)
Definition splice (s : string) (i : nat) (c : ascii) : string :=
  (substring 0 i s
   ++ String c EmptyString
   ++ substring (i + 1) (String.length s - (i + 1)) s)%string.

(** ** [hash_password] *)

Section HashPassword.

(** [md5(password.encode('utf-8')).hexdigest()], from [adafruit_hashlib]. *)
Variable md5_hexdigest : string -> string.

(** One iteration of the [for i in range(0, len(password_md5), 2)] loop. *)
Definition hash_password_step (acc : result string) (i : nat) : result string :=
  match acc with
  | Raise e => Raise e
  | Ok password_md5 =>
      match str_at password_md5 i with
      | Raise e => Raise e
      | Ok c =>
          if Ascii.eqb c "0"
          then Ok (splice password_md5 i "c")
          else Ok password_md5
      end
  end.

Definition hash_password (password : string) : result string :=
  let password_md5 := md5_hexdigest password in
  fold_left hash_password_step
    (py_range 0 (String.length password_md5) 2) (Ok password_md5).

(** The spec's wording: every ['0'] at an even offset becomes ['c'], every
    other position is unchanged. [even_pos] tells whether the head of [s] sits
    at an even offset. *)
Fixpoint replace_even_zeros_from (even_pos : bool) (s : string) : string :=
  match s with
  | EmptyString => EmptyString
  | String c rest =>
      String (if even_pos && Ascii.eqb c "0" then "c"%char else c)
             (replace_even_zeros_from (negb even_pos) rest)
  end.

Definition replace_even_zeros (s : string) : string :=
  replace_even_zeros_from true s.

End HashPassword.

(** ** Numbers *)

(** [str(n)] for an integer. *)
Definition str_of_Z (z : Z) : string := NilZero.string_of_int (Z.to_int z).

Definition str_of_nat (n : nat) : string := str_of_Z (Z.of_nat n).

(** [int(f)] for a float [f]: the integer part, towards zero; [inf] raises
    [OverflowError] and [nan] raises [ValueError]. *)
Definition py_int_of_float (f : spec_float) : result Z :=
  match f with
  | S754_zero _ => Ok 0
  | S754_infinity _ =>
      Raise (mkExn OverflowError "can't convert inf to int")
  | S754_nan => Raise (mkExn ValueError "can't convert NaN to int")
  | S754_finite s m e =>
      let magnitude :=
        if 0 <=? e then Z.pos m * 2 ^ e else Z.pos m / 2 ^ (- e) in
      Ok (if s then - magnitude else magnitude)
  end.

(** The number a finite float stands for, [(-1)^s * m * 2^e]. *)
Definition float_value (s : bool) (m : positive) (e : Z) : Q :=
  let magnitude :=
    if 0 <=? e then inject_Z (Z.pos m * 2 ^ e)
    else Z.pos m # (2 ^ Z.to_pos (- e)) in
  if s then Qopp magnitude else magnitude.

(** The spec's wording: truncation towards zero of a rational. *)
Definition truncate_toward_zero (q : Q) : Z :=
  if Qle_bool 0 q then Qfloor q else Qceiling q.

(** Rounding to the nearest integer (halves upwards), to compare with. *)
Definition round_to_nearest (q : Q) : Z := Qfloor (q + (1 # 2)).

(** ** [WiFiControl], lines 125-163

    What a call of [wifi.connect()] or [wifi.reset()] does, on the state of
    the radio: the log of what was done to it and the number of times
    [self.esp.is_connected] has been read in the loop of [connect]. *)

Inductive radio_event : Type :=
| RPrint (args : list string)            (** [print(...)] *)
| RConnectAP (ssid wifi_password : string)
                                         (** [self.esp.connect_AP(...)] *)
| RSetInterface                          (** [socket.set_interface(self.esp)] *)
| RSetSocket                             (** [requests.set_socket(socket, self.esp)] *)
| REspReset.                             (** [self.esp.reset()] *)

(** What one round of the [while] loop of [connect] observes:
    [self.esp.is_connected], and, when that is false, what the call of
    [connect_AP] gives. *)
Record radio_obs : Type := mkRadioObs {
  link_up : bool;
  connect_AP : result unit
}.

(** The ESP32 as [connect] sees it: the observation of each reading of
    [is_connected], and the values of [esp.ssid] and [esp.rssi]. *)
Record esp32 : Type := mkEsp {
  air : nat -> radio_obs;
  esp_ssid : string;
  esp_rssi : Z
}.

Record radio : Type := mkRadio {
  radio_log : list radio_event;
  radio_checks : nat
}.

(** [isinstance(error, RuntimeError)]. *)
Definition is_RuntimeError (e : exn) : bool :=
  match exn_cls e with
  | RuntimeError | NotImplementedError => true
  | _ => false
  end.

Definition radio_did (ev : radio_event) (r : radio) : radio :=
  mkRadio (ev :: radio_log r) (radio_checks r).

(** The [while not self.esp.is_connected] loop of [connect], lines 149-154,
    for at most [fuel] readings of [is_connected]; [None] when the loop is
    still running after them. *)
Fixpoint connect_loop (E : esp32) (ssid wifi_password : string) (fuel : nat)
  (r : radio) : option (radio * result unit) :=
  match fuel with
  | O => None
  | S fuel' =>
      let o := air E (radio_checks r) in
      let r1 := mkRadio (radio_log r) (S (radio_checks r)) in
      if link_up o then Some (r1, Ok tt)
      else
        let r2 := radio_did (RConnectAP ssid wifi_password) r1 in
        match connect_AP o with
        | Ok _ => connect_loop E ssid wifi_password fuel' r2
        | Raise error =>
            if is_RuntimeError error then
              connect_loop E ssid wifi_password fuel'
                (radio_did (RPrint ["Could not connect to AP, retrying: ";
                                    exn_str error]) r2)
            else Some (r2, Raise error)
        end
  end.

(** [WiFiControl.connect], lines 147-157. *)
Definition connect (E : esp32) (ssid wifi_password : string) (fuel : nat)
  (r : radio) : option (radio * result unit) :=
  match connect_loop E ssid wifi_password fuel
          (radio_did (RPrint ["Connecting to AP..."]) r) with
  | None => None
  | Some (r1, Raise error) => Some (r1, Raise error)
  | Some (r1, Ok _) =>
      Some (radio_did RSetSocket
              (radio_did RSetInterface
                 (radio_did (RPrint ["Connected to"; esp_ssid E;
                                     String (ascii_of_nat 9) "RSSI:";
                                     str_of_Z (esp_rssi E)]) r1)),
            Ok tt)
  end.

(** [WiFiControl.reset], lines 159-163. *)
Definition reset (E : esp32) (ssid wifi_password : string) (fuel : nat)
  (r : radio) : option (radio * result unit) :=
  connect E ssid wifi_password fuel
    (radio_did REspReset (radio_did (RPrint ["Initiated Wi-Fi reset."]) r)).

(** A round of the loop after which the loop goes on: the link is down, and
    [connect_AP] returns or raises a [RuntimeError]. *)
Definition round_fails (o : radio_obs) : bool :=
  negb (link_up o)
  && match connect_AP o with
     | Ok _ => true
     | Raise error => is_RuntimeError error
     end.

Definition is_connect_AP (ev : radio_event) : bool :=
  match ev with RConnectAP _ _ => true | _ => false end.

Definition is_set_socket (ev : radio_event) : bool :=
  match ev with RSetInterface | RSetSocket => true | _ => false end.

Definition is_esp_reset (ev : radio_event) : bool :=
  match ev with REspReset => true | _ => false end.

Definition count_radio (p : radio_event -> bool) (l : list radio_event) : nat :=
  List.length (filter p l).

Definition radio_init : radio := mkRadio [] 0.

(** An access point that answers at the third try: one [RuntimeError], one
    call that returns with the link still down, then the link is up. *)
Definition third_time_lucky : esp32 :=
  mkEsp (fun n =>
           match n with
           | O => mkRadioObs false (Raise (mkExn RuntimeError "No such ssid"))
           | S O => mkRadioObs false (Ok tt)
           | _ => mkRadioObs true (Ok tt)
           end)
    "home" (-60).

(** An access point that is never there. *)
Definition no_access_point : esp32 :=
  mkEsp (fun _ => mkRadioObs false (Raise (mkExn RuntimeError "No such ssid")))
    EmptyString 0.

(** A radio whose second call of [connect_AP] fails with an [OSError]. *)
Definition broken_radio : esp32 :=
  mkEsp (fun n =>
           match n with
           | O => mkRadioObs false (Raise (mkExn RuntimeError "No such ssid"))
           | _ => mkRadioObs false (Raise (mkExn OSError "SPI failure"))
           end)
    EmptyString 0.

(** ** The platform

    What the program gets from outside the repository: library functions
    and built-ins that are not modelled further, and the behaviour of the
    board and the network during a run. *)

Record response : Type := mkResponse {
  (** [response.status_code] *)
  status_code : Z;
  (** [json.loads(response.content.decode('utf-8'))] *)
  json_body : result pyval;
  (** [response.headers] *)
  resp_headers : list (string * string)
}.

(** What one attempt observes: [wifi.esp.is_connected], and what
    [requests.post] or [requests.get] gives when it is called. *)
Record attempt_obs : Type := mkObs {
  is_connected : bool;
  http_reply : result response
}.

Record platform : Type := mkPlatform {
  (** [md5(s.encode('utf-8')).hexdigest()] *)
  md5_hexdigest : string -> string;
  (** [float(s)] for a string; [None] where Python raises [ValueError] *)
  float_of_str : string -> option spec_float;
  (** [float(n)] for an integer; [None] where Python raises
      [OverflowError] *)
  float_of_int : Z -> option spec_float;
  (** [str(v)] for floats, lists and dicts *)
  repr_other : pyval -> string;
  (** the observation of the [n]-th network attempt of the run *)
  network : nat -> attempt_obs;
  (** the ESP32 as the loop of [WiFiControl.connect] sees it *)
  esp : esp32;
  (** [secrets["ssid"]] and [secrets["password"]], which [WiFiControl] is
      built with *)
  ap_ssid : string;
  ap_password : string;
  (** how many readings of [is_connected] one call of [connect] is
      followed for; a call still in its loop after them is given up as
      not returning *)
  radio_rounds : nat
}.

(** [str(v)]. *)
Definition py_str (P : platform) (v : pyval) : string :=
  match v with
  | PStr s => s
  | PInt z => str_of_Z z
  | PNone => "None"
  | PBool true => "True"
  | PBool false => "False"
  | _ => repr_other P v
  end.

(** [float(v)]. *)
Definition py_float (P : platform) (v : pyval) : result spec_float :=
  match v with
  | PFloat f => Ok f
  | PInt z =>
      match float_of_int P z with
      | Some f => Ok f
      | None => Raise (mkExn OverflowError "int too large to convert to float")
      end
  | PBool b => Ok (if b then S754_finite false 1 0 else S754_zero false)
  | PStr s =>
      match float_of_str P s with
      | Some f => Ok f
      | None => Raise (mkExn ValueError "invalid syntax for number")
      end
  | _ => Raise (mkExn TypeError "can't convert to float")
  end.

(** ** The world and the monad of effects *)

Inductive event : Type :=
| EvFill (c : nat)                    (** [status_neopixel.fill(color[c])] *)
| EvPrint (args : list string)        (** [print(...)] *)
| EvGcCollect                         (** [gc.collect()] *)
| EvPost (url : string) (hdrs : dict) (data : list (string * string))
| EvGet (url : string) (hdrs : dict)
| EvClose                             (** [response.close()] *)
| EvSleep (seconds : Z)               (** [time.sleep(seconds)] *)
| EvWifiConnect                       (** [wifi.connect()] *)
| EvWifiReset                         (** [wifi.reset()] *)
| EvReadout (text : string)           (** assignment to [readout.text] *)
| EvExit (code : Z).                  (** [exit(code)] *)

Record GrowattApi : Type := mkApi {
  plant_id : pyval;
  cookies : pyval;
  power : option Z;
  headers : dict
}.

Record SolarPowerDisplay : Type := mkDisplay {
  minimum_power_threshold : Z;
  title_text : string;
  title_color : nat;
  readout_text : string;
  readout_color : nat
}.

(** [log] holds the effects performed so far, the most recent first;
    [attempts] counts the network attempts started so far; [wifi] is the
    state of the radio that the [wifi] object drives. *)
Record world : Type := mkWorld {
  api : GrowattApi;
  display : SolarPowerDisplay;
  log : list event;
  attempts : nat;
  wifi : radio
}.

Definition M (A : Type) : Type := world -> world * outcome A.

Definition ret {A : Type} (a : A) : M A := fun w => (w, Ok a).

(** A call that does not return is not followed by anything. *)
Definition bind {A B : Type} (m : M A) (k : A -> M B) : M B :=
  fun w =>
    match m w with
    | (w', Done (Ok a)) => k a w'
    | (w', Done (Raise e)) => (w', Raise e)
    | (w', Hang) => (w', Hang)
    end.

Definition raise {A : Type} (e : exn) : M A := fun w => (w, Raise e).

Definition lift {A : Type} (r : result A) : M A := fun w => (w, r).

(** [try: body except <catches> as error: handler(error)]. An exception
    raised by the handler is not caught by the same [try] statement. *)
Definition try_except {A : Type} (body : M A) (catches : exn -> bool)
  (handler : exn -> M A) : M A :=
  fun w =>
    match body w with
    | (w', Done (Ok a)) => (w', Ok a)
    | (w', Done (Raise e)) => if catches e then handler e w' else (w', Raise e)
    | (w', Hang) => (w', Hang)
    end.

Declare Scope py_scope.
Delimit Scope py_scope with py.
Notation "x <- m ;; k" := (bind m (fun x => k))
  (at level 61, m at next level, right associativity) : py_scope.
Notation "m ;; k" := (bind m (fun _ => k))
  (at level 61, right associativity) : py_scope.
Local Open Scope py_scope.

Definition emit (ev : event) : M unit :=
  fun w =>
    (mkWorld (api w) (display w) (ev :: log w) (attempts w) (wifi w), Ok tt).

Definition get_api : M GrowattApi := fun w => (w, Ok (api w)).

Definition put_api (a : GrowattApi) : M unit :=
  fun w => (mkWorld a (display w) (log w) (attempts w) (wifi w), Ok tt).

Definition get_display : M SolarPowerDisplay := fun w => (w, Ok (display w)).

Definition put_display (d : SolarPowerDisplay) : M unit :=
  fun w => (mkWorld (api w) d (log w) (attempts w) (wifi w), Ok tt).

(** Starts a network attempt: the next observation of the run. *)
Definition next_attempt (P : platform) : M attempt_obs :=
  fun w =>
    (mkWorld (api w) (display w) (log w) (S (attempts w)) (wifi w),
     Ok (network P (attempts w))).

Definition fill (c : nat) : M unit := emit (EvFill c).
Definition print (args : list string) : M unit := emit (EvPrint args).
Definition gc_collect : M unit := emit EvGcCollect.
Definition sleep (seconds : Z) : M unit := emit (EvSleep seconds).

(** The world with the radio in state [r]. *)
Definition with_wifi (r : radio) (w : world) : world :=
  mkWorld (api w) (display w) (log w) (attempts w) r.

(** A call of a method of the [wifi] object, [connect] or [reset]: it acts
    on the radio, and ends as the method does. The method is followed for
    [radio_rounds P] rounds of its loop. *)
Definition radio_call (P : platform)
  (method : esp32 -> string -> string -> nat -> radio
            -> option (radio * result unit))
  : M unit :=
  fun w =>
    match method (esp P) (ap_ssid P) (ap_password P) (radio_rounds P) (wifi w)
    with
    | Some (r, res) => (with_wifi r w, Done res)
    | None => (w, Hang)
    end.

(** [wifi.connect()] and [wifi.reset()]: the call is recorded in the log,
    and what it does to the radio in the radio's own log. *)
Definition wifi_connect (P : platform) : M unit :=
  emit EvWifiConnect ;; radio_call P connect.

Definition wifi_reset (P : platform) : M unit :=
  emit EvWifiReset ;; radio_call P reset.

(** ** [SolarPowerDisplay] *)

(** The display after [SolarPowerDisplay.__init__] and the assignment
    [display.readout.text = "Logging in"]. *)
Definition display_init : SolarPowerDisplay :=
  mkDisplay 10 "Growatt" 3 "Logging in" 2.

Definition set_readout_text (text : string) : M unit :=
  d <- get_display ;;
  put_display (mkDisplay (minimum_power_threshold d) (title_text d)
                 (title_color d) text (readout_color d)) ;;
  emit (EvReadout text).

Definition show_readout_placeholder : M unit := set_readout_text ". . .".

(** [s.replace("0", "O")]. *)
Fixpoint replace_zero_with_O (s : string) : string :=
  match s with
  | EmptyString => EmptyString
  | String c rest =>
      String (if Ascii.eqb c "0" then "O"%char else c) (replace_zero_with_O rest)
  end.

Definition update_display (p : option Z) : M unit :=
  match p with
  | None => ret tt
  | Some p =>
      gc_collect ;;
      d <- get_display ;;
      (if p <? minimum_power_threshold d then
         put_display (mkDisplay (minimum_power_threshold d) (title_text d)
                        0 (readout_text d) 0)
       else
         put_display (mkDisplay (minimum_power_threshold d) "Solar power" 3
                        (readout_text d)
                        (if p <? 1500 then 1%nat
                         else if p <? 2500 then 2%nat else 3%nat))) ;;
      set_readout_text (replace_zero_with_O (str_of_Z p) ++ " W")
  end.

(** ** [GrowattApi] *)

Definition server_url : string := "https://server-api.growatt.com/".

(** The class attributes of [GrowattApi]. *)
Definition api_init : GrowattApi :=
  mkApi PNone PNone None
    [("User-Agent", PStr "Adafruit CircuitPython");
     ("Accept-Encoding", PStr "gzip, deflate");
     ("Accept", PStr "*/*");
     ("Connection", PStr "keep-alive");
     ("Content-Type", PStr "application/x-www-form-urlencoded")].

Definition world_init : world :=
  mkWorld api_init display_init [] 0 radio_init.

Definition get_url (page : string) : string := server_url ++ page.

Definition set_plant_id (v : pyval) : M unit :=
  a <- get_api ;; put_api (mkApi v (cookies a) (power a) (headers a)).

Definition set_cookies (v : pyval) : M unit :=
  a <- get_api ;; put_api (mkApi (plant_id a) v (power a) (headers a)).

Definition set_power (p : Z) : M unit :=
  a <- get_api ;; put_api (mkApi (plant_id a) (cookies a) (Some p) (headers a)).

Definition set_header (k : string) (v : pyval) : M unit :=
  a <- get_api ;;
  put_api (mkApi (plant_id a) (cookies a) (power a) (dict_set (headers a) k v)).

(** [response.headers[k]]. *)
Fixpoint header_get (h : list (string * string)) (k : string) : result string :=
  match h with
  | [] => Raise (mkExn KeyError k)
  | (k', v) :: h' => if String.eqb k k' then Ok v else header_get h' k
  end.

(** How an iteration of a [for] loop ends: with [return], or by falling
    through to the next iteration. *)
Inductive flow : Type := Returned | Next.

(** The [raise WiFiNotConnected(...)] both methods share. *)
Definition wifi_not_connected : exn := mkExn WiFiNotConnected "Wifi not connected".

(** The [try] block of [login], lines 227-254. *)
Definition login_try (P : platform) (username password : string) (i : nat)
  : M flow :=
  fill 2 ;;
  print ["Trying login, attempt "; str_of_nat i] ;;
  gc_collect ;;
  o <- next_attempt P ;;
  (if negb (is_connected o) then raise wifi_not_connected else ret tt) ;;
  a <- get_api ;;
  emit (EvPost (get_url "newTwoLoginAPI.do") (headers a)
          [("userName", username); ("password", password)]) ;;
  response <- lift (http_reply o) ;;
  body <- lift (json_body response) ;;
  data <- lift (getitem_key body "back") ;;
  success <- lift (getitem_key data "success") ;;
  data <- (if py_truth success then
             user <- lift (getitem_key data "user") ;;
             user_id <- lift (getitem_key user "id") ;;
             user' <- lift (getitem_key data "user") ;;
             user_level <- lift (getitem_key user' "rightlevel") ;;
             match data with
             | PDict d =>
                 ret (PDict (dict_update d [("userId", user_id);
                                            ("userLevel", user_level)]))
             | _ => ret data
             end
           else
             print ["Received response: login unsuccessful"] ;;
             emit EvClose ;;
             raise (mkExn NotLoggedIn "")) ;;
  a <- get_api ;;
  (if is_None (plant_id a) then
     plants <- lift (getitem_key data "data") ;;
     first <- lift (getitem_idx plants 0) ;;
     pid <- lift (getitem_key first "plantId") ;;
     set_plant_id pid ;;
     print ["No plant_id specified up front. Defaulting to"; py_str P pid]
   else ret tt) ;;
  cookie <- lift (header_get (resp_headers response) "set-cookie") ;;
  set_cookies (PStr cookie) ;;
  emit EvClose ;;
  ret Returned.

(** The [except] block of [login], lines 256-268. *)
Definition login_except (P : platform) (i : nat) (error : exn) : M flow :=
  print ["Request failed:"; exn_str error] ;;
  gc_collect ;;
  fill 1 ;;
  (if (2 <=? i)%nat then
     raise (mkExn SerialLoginErrors
              "Serial login errors. Let's try something else!")
   else ret tt) ;;
  (if negb (String.eqb (exn_str error) "WiFi not connected") then
     if negb (String.eqb (exn_str error) "Error response to command") then
       sleep 20
     else wifi_reset P
   else wifi_connect P) ;;
  ret Next.

(** The [for i in ...] loop of [login] over the remaining values of [i]. A
    loop that runs out of values falls off the end of the method. *)
Fixpoint login_loop (P : platform) (username password : string)
  (range : list nat) : M unit :=
  match range with
  | [] => ret tt
  | i :: rest =>
      f <- try_except (login_try P username password i) caught_by_retry
             (login_except P i) ;;
      match f with
      | Returned => ret tt
      | Next => login_loop P username password rest
      end
  end.

Definition login (P : platform) (username password : string)
  (configured_plant_id : pyval) : M unit :=
  password <- lift (hash_password (md5_hexdigest P) password) ;;
  (if negb (is_None configured_plant_id) then
     set_plant_id configured_plant_id ;;
     print ["A plant_id has been specified up front:";
            py_str P configured_plant_id]
   else ret tt) ;;
  login_loop P username password (py_range 1 3 1).

(** The URL [get_plant_info] requests for a plant id. *)
Definition plant_info_url (P : platform) (pid : pyval) : string :=
  get_url "newTwoPlantAPI.do" ++ "?op=getAllDeviceList&plantId="
  ++ py_str P pid ++ "&pageNum=1&pageSize=1".

(** The [try] block of [get_plant_info], lines 273-297. *)
Definition get_plant_info_try (P : platform) (i : nat) : M flow :=
  fill 2 ;;
  print ["Trying to get plant info, attempt "; str_of_nat i] ;;
  gc_collect ;;
  o <- next_attempt P ;;
  (if negb (is_connected o) then raise wifi_not_connected else ret tt) ;;
  a <- get_api ;;
  set_header "Cookie" (cookies a) ;;
  a <- get_api ;;
  let url := plant_info_url P (plant_id a) in
  fill 4 ;;
  emit (EvGet url (headers a)) ;;
  response <- lift (http_reply o) ;;
  fill 2 ;;
  (if negb (status_code response =? 200) then
     print ["Response didn't have plant info. HTTP status code: ";
            str_of_Z (status_code response)] ;;
     emit EvClose ;;
     raise (mkExn NotLoggedIn "Apparently not logged in")
   else ret tt) ;;
  data <- lift (json_body response) ;;
  device_list <- lift (getitem_key data "deviceList") ;;
  device <- lift (getitem_idx device_list 0) ;;
  current_reading <- lift (getitem_key device "power") ;;
  emit EvClose ;;
  f <- lift (py_float P current_reading) ;;
  n <- lift (py_int_of_float f) ;;
  set_power n ;;
  ret Returned.

(** The [except] block of [get_plant_info], lines 299-312. *)
Definition get_plant_info_except (P : platform) (i : nat) (error : exn)
  : M flow :=
  print ["Request failed:"; exn_str error] ;;
  gc_collect ;;
  fill 1 ;;
  (if (3 <=? i)%nat then
     print ["Giving up requesting"] ;;
     raise (mkExn NotLoggedIn "Serial errors. Trying login again.")
   else ret tt) ;;
  (if negb (String.eqb (exn_str error) "WiFi not connected") then
     if negb (String.eqb (exn_str error) "Error response to command") then
       sleep 20
     else wifi_reset P
   else wifi_connect P) ;;
  ret Next.

Fixpoint get_plant_info_loop (P : platform) (range : list nat) : M unit :=
  match range with
  | [] => ret tt
  | i :: rest =>
      f <- try_except (get_plant_info_try P i) caught_by_retry
             (get_plant_info_except P i) ;;
      match f with
      | Returned => ret tt
      | Next => get_plant_info_loop P rest
      end
  end.

Definition get_plant_info (P : platform) : M unit :=
  get_plant_info_loop P (py_range 1 4 1).

(** ** The orchestration loop, lines 320-363 *)

Definition always_retry_after_any_exception : bool := false.

(** Where the top-level loop stands: about to call [api.login], inside the
    inner polling loop, or ended by [exit(code)]. *)
Inductive stage : Type :=
| LoggingIn
| Polling
| Exited (code : Z).

(** The body of the inner [try], lines 325-334. *)
Definition poll_once (P : platform) : M unit :=
  show_readout_placeholder ;;
  get_plant_info P ;;
  a <- get_api ;;
  update_display (power a) ;;
  fill 0 ;;
  gc_collect ;;
  a <- get_api ;;
  match power a with
  | None => ret tt
  | Some p =>
      d <- get_display ;;
      if minimum_power_threshold d <=? p then sleep (60 * 2)
      else sleep (60 * 20)
  end.

(** The inner [except NotLoggedIn], lines 338-342: [break] leaves the
    polling loop, and the outer loop calls [api.login] again. *)
Definition inner_except (_ : exn) : M stage :=
  fill 1 ;;
  print ["Seems like we might not be logged in. Logging in again."] ;;
  gc_collect ;;
  ret LoggingIn.

(** The [except] clauses of the outer [try], lines 343-363. *)
Definition outer_except (P : platform) (e : exn) : M stage :=
  if is_NotLoggedIn e then
    fill 1 ;;
    print ["Received response: login unsuccessful. Your account details might be wrong."] ;;
    emit (EvExit 1) ;;
    ret (Exited 1)
  else if is_SerialLoginErrors e then
    fill 1 ;;
    print ["Caught error for multiple failed logins. Let's try resetting the Wi-Fi."] ;;
    gc_collect ;;
    wifi_reset P ;;
    ret LoggingIn
  else
    print ["Unknown exception."] ;;
    if always_retry_after_any_exception then
      fill 1 ;;
      gc_collect ;;
      sleep 10 ;;
      wifi_reset P ;;
      ret LoggingIn
    else
      emit (EvExit 1) ;;
      ret (Exited 1).

(** One step of the loop: a call of [api.login], or one iteration of the
    polling loop, with the handlers that apply to it. *)
Definition main_step (P : platform) (username password : string)
  (configured_plant_id : pyval) (s : stage) : M stage :=
  match s with
  | LoggingIn =>
      try_except
        (login P username password configured_plant_id ;; ret Polling)
        (fun _ => true) (outer_except P)
  | Polling =>
      try_except
        (try_except (poll_once P ;; ret Polling) is_NotLoggedIn inner_except)
        (fun _ => true) (outer_except P)
  | Exited code => ret (Exited code)
  end.

(** [n] steps of the loop from stage [s]. *)
Fixpoint main_run (P : platform) (username password : string)
  (configured_plant_id : pyval) (n : nat) (s : stage) : M stage :=
  match n with
  | O => ret s
  | S n' =>
      s' <- main_step P username password configured_plant_id s ;;
      main_run P username password configured_plant_id n' s'
  end.

(** ** Reading a log *)

Definition is_sleep (ev : event) : bool :=
  match ev with EvSleep _ => true | _ => false end.

Definition is_wifi_connect (ev : event) : bool :=
  match ev with EvWifiConnect => true | _ => false end.

Definition is_wifi_reset (ev : event) : bool :=
  match ev with EvWifiReset => true | _ => false end.

Definition is_readout (ev : event) : bool :=
  match ev with EvReadout _ => true | _ => false end.

Definition count_events (p : event -> bool) (l : list event) : nat :=
  List.length (filter p l).

(** ** Sample platforms, for the concrete runs below *)

(** Values of the library functions on the few inputs the sample runs use:
    the MD5 digests of the empty string and of ["password"], and decimal
    strings that are exact in binary. *)
Definition sample_md5 (s : string) : string :=
  if String.eqb s "password" then "5f4dcc3b5aa765d61d8327deb882cf99"
  else "d41d8cd98f00b204e9800998ecf8427e".

Definition sample_float_of_str (s : string) : option spec_float :=
  if String.eqb s "2.75" then Some (S754_finite false 11 (-2))
  else if String.eqb s "-2.75" then Some (S754_finite true 11 (-2))
  else if String.eqb s "1523.5" then Some (S754_finite false 3047 (-1))
  else if String.eqb s "0" then Some (S754_zero false)
  else None.

Definition sample_float_of_int (z : Z) : option spec_float :=
  match z with
  | Z0 => Some (S754_zero false)
  | Z.pos p => Some (S754_finite false p 0)
  | Z.neg p => Some (S754_finite true p 0)
  end.

(** A radio whose link is up whenever it is looked at. *)
Definition steady_radio : esp32 :=
  mkEsp (fun _ => mkRadioObs true (Ok tt)) "home" (-60).

Definition sample_platform (net : nat -> attempt_obs) : platform :=
  mkPlatform sample_md5 sample_float_of_str sample_float_of_int
    (fun _ => "?") net steady_radio "home" "wifi-secret" 8.



(** The platform [P] with the radio [E] in place of its own. *)
Definition with_esp (E : esp32) (P : platform) : platform :=
  mkPlatform (md5_hexdigest P) (float_of_str P) (float_of_int P)
    (repr_other P) (network P) E (ap_ssid P) (ap_password P) (radio_rounds P).

(** A network script: the observations of the first attempts in order,
    then link-down for ever. *)
Definition script (l : list attempt_obs) (n : nat) : attempt_obs :=
  nth n l (mkObs false (Raise (mkExn RuntimeError "no reply"))).

Definition reply_json (status : Z) (body : pyval) (h : list (string * string))
  : attempt_obs :=
  mkObs true (Ok (mkResponse status (Ok body) h)).

Definition transport_failure (msg : string) : attempt_obs :=
  mkObs true (Raise (mkExn RuntimeError msg)).

Definition link_down : attempt_obs :=
  mkObs false (Raise (mkExn RuntimeError "not reached")).

(** A login reply that accepts the credentials and lists one plant. *)
Definition login_ok (pid : string) : attempt_obs :=
  reply_json 200
    (PDict [("back", PDict [("success", PBool true);
                            ("user", PDict [("id", PInt 7);
                                            ("rightlevel", PInt 1)]);
                            ("data", PList [PDict [("plantId", PStr pid)]])])])
    [("set-cookie", "JSESSIONID=abc")].

(** A login reply that rejects the credentials. *)
Definition login_rejected : attempt_obs :=
  reply_json 200 (PDict [("back", PDict [("success", PBool false)])]) [].

(** A poll reply with the given power field. *)
Definition poll_ok (reading : pyval) : attempt_obs :=
  reply_json 200 (PDict [("deviceList", PList [PDict [("power", reading)]])]) [].

(** ** Reading an observation

    What an attempt will run into can be read off its observation alone.
    The two functions below give the exception of the caught classes, if
    any, that an attempt with observation [o] raises; the lemmas
    [caught_login_try] and [caught_get_plant_info_try] show that they agree
    with the [try] blocks. *)

Definition caught_exn {A : Type} (r : outcome A) : option exn :=
  match r with
  | Done (Raise e) => if caught_by_retry e then Some e else None
  | _ => None
  end.

Definition login_transport_error (o : attempt_obs) : option exn :=
  if negb (is_connected o) then Some wifi_not_connected
  else
    match http_reply o with
    | Raise e => caught_exn (@Raise unit e)
    | Ok r => caught_exn (json_body r)
    end.

(** [data['deviceList'][0]['power']]. *)
Definition power_field (data : pyval) : result pyval :=
  match getitem_key data "deviceList" with
  | Raise e => Raise e
  | Ok device_list =>
      match getitem_idx device_list 0 with
      | Raise e => Raise e
      | Ok device => getitem_key device "power"
      end
  end.

(** [int(float(current_reading))]. *)
Definition int_float (P : platform) (current_reading : pyval) : result Z :=
  match py_float P current_reading with
  | Raise e => Raise e
  | Ok f => py_int_of_float f
  end.

Definition get_plant_info_transport_error (P : platform) (o : attempt_obs)
  : option exn :=
  if negb (is_connected o) then Some wifi_not_connected
  else
    match http_reply o with
    | Raise e => caught_exn (@Raise unit e)
    | Ok r =>
        if negb (status_code r =? 200) then None
        else
          match json_body r with
          | Raise e => caught_exn (@Raise unit e)
          | Ok data =>
              match power_field data with
              | Raise e => caught_exn (@Raise unit e)
              | Ok current_reading => caught_exn (int_float P current_reading)
              end
          end
    end.

(** The rational a float stands for; infinities and NaN stand for none. *)
Definition float_to_Q (f : spec_float) : option Q :=
  match f with
  | S754_zero _ => Some 0%Q
  | S754_finite s m e => Some (float_value s m e)
  | _ => None
  end.

(** A log grows at its head: [log_extends allowed old new] says that [new]
    is [old] with events put in front of it, each of them [allowed]. *)
Inductive log_extends (allowed : event -> Prop) (old : list event)
  : list event -> Prop :=
| log_same : log_extends allowed old old
| log_more (ev : event) (new : list event) :
    allowed ev -> log_extends allowed old new ->
    log_extends allowed old (ev :: new).

(** The effects a call of [get_plant_info] may have on a session with plant
    id [pid]: requests go to that plant's URL, and nothing is posted, shown
    on the display or exited. *)
Definition poll_event (P : platform) (pid : pyval) (ev : event) : Prop :=
  match ev with
  | EvGet url _ => url = plant_info_url P pid
  | EvPost _ _ _ | EvReadout _ | EvExit _ => False
  | _ => True
  end.

(** [data['back']['data'][0]['plantId']] of a decoded login reply. *)
Definition first_plant_id (body : pyval) : result pyval :=
  match getitem_key body "back" with
  | Raise e => Raise e
  | Ok data =>
      match getitem_key data "data" with
      | Raise e => Raise e
      | Ok plants =>
          match getitem_idx plants 0 with
          | Raise e => Raise e
          | Ok first => getitem_key first "plantId"
          end
      end
  end.

(** [data['back']['success']] of a decoded login reply. *)
Definition success_flag (body : pyval) : result pyval :=
  match getitem_key body "back" with
  | Raise e => Raise e
  | Ok data => getitem_key data "success"
  end.

(** The world with the events [evs] (most recent first) added to its log. *)
Definition push (evs : list event) (w : world) : world :=
  mkWorld (api w) (display w) (evs ++ log w) (attempts w) (wifi w).

(** What both [except] blocks do with an error while attempts remain:
    lines 262-268 and 306-312. *)
Definition retry_action (error : exn) : event :=
  if negb (String.eqb (exn_str error) "WiFi not connected") then
    if negb (String.eqb (exn_str error) "Error response to command") then
      EvSleep 20
    else EvWifiReset
  else EvWifiConnect.

Definition request_failed (error : exn) : list event :=
  [EvFill 1; EvGcCollect; EvPrint ["Request failed:"; exn_str error]].

(** What that action does to the radio in state [r]: [wifi.reset()] and
    [wifi.connect()] run on it, [time.sleep] leaves it alone. [None] when
    the call has not returned. *)
Definition retry_radio (P : platform) (error : exn) (r : radio)
  : option (radio * result unit) :=
  match retry_action error with
  | EvWifiReset =>
      reset (esp P) (ap_ssid P) (ap_password P) (radio_rounds P) r
  | EvWifiConnect =>
      connect (esp P) (ap_ssid P) (ap_password P) (radio_rounds P) r
  | _ => Some (r, Ok tt)
  end.

(** An exception that a call of [connect_AP] raised and the loop of
    [connect] let through. *)
Definition from_connect_AP (P : platform) (e : exn) : Prop :=
  exists j : nat,
    connect_AP (air (esp P) j) = Raise e /\ is_RuntimeError e = false.

(** A call that ended inside the radio: it did not return, or it raised
    what [connect_AP] raised. *)
Definition ended_in_retry {A : Type} (P : platform) (r : outcome A) : Prop :=
  match r with
  | Done (Ok _) => False
  | Done (Raise e) => from_connect_AP P e
  | Hang => True
  end.

(** What the handler for [SerialLoginErrors] of the orchestration loop
    adds to the log, lines 348-351. *)
Definition serial_login_handled : list event :=
  [EvWifiReset; EvGcCollect;
   EvPrint ["Caught error for multiple failed logins. Let's try resetting the Wi-Fi."];
   EvFill 1].

(** How an [except] block ends after its retry action, in the world [w] in
    which the action starts. *)
Definition after_retry (P : platform) (error : exn) (w : world)
  : world * outcome flow :=
  match retry_radio P error (wifi w) with
  | Some (r, Ok _) => (with_wifi r (push [retry_action error] w), Done (Ok Next))
  | Some (r, Raise e) => (with_wifi r (push [retry_action error] w), Done (Raise e))
  | None => (push [retry_action error] w, Hang)
  end.

(** The effects a call of [login] may have: it neither requests plant
    data, nor touches the display, nor exits. *)
Definition login_event (ev : event) : Prop :=
  match ev with
  | EvGet _ _ | EvReadout _ | EvExit _ => False
  | _ => True
  end.

(** The world in which the loop of [login] starts. *)
Definition login_start (P : platform) (configured_plant_id : pyval) (w : world)
  : world :=
  if negb (is_None configured_plant_id) then
    mkWorld (mkApi configured_plant_id (cookies (api w)) (power (api w))
               (headers (api w)))
      (display w)
      (EvPrint ["A plant_id has been specified up front:";
                py_str P configured_plant_id] :: log w)
      (attempts w) (wifi w)
  else w.

(** Every request for plant data in the log asks for the plant [pid]. *)
Definition asks_for (P : platform) (pid : pyval) (ev : event) : Prop :=
  match ev with
  | EvGet url _ => url = plant_info_url P pid
  | _ => True
  end.

(** [needle] occurs in [s]. *)
Definition contains (s needle : string) : Prop :=
  exists before after : string, s = (before ++ needle ++ after)%string.

(** ** Sample runs *)

(** Three replies that each fail with [RuntimeError]. *)
Definition three_failures : platform :=
  sample_platform
    (script [transport_failure "timed out"; transport_failure "timed out";
             transport_failure "timed out"]).

(** The link is down at the first attempt of [login], and the second
    attempt is accepted. *)
Definition link_down_once : platform :=
  sample_platform (script [link_down; login_ok "PLANT123"]).

(** The first reply to [login] fails with the ESP32's "Error response to
    command", the second is accepted. *)
Definition command_error_once : platform :=
  sample_platform
    (script [transport_failure "Error response to command";
             login_ok "PLANT123"]).

(** The same at the first attempt of [get_plant_info], followed by a good
    reply. *)
Definition command_error_once_poll : platform :=
  sample_platform
    (script [transport_failure "Error response to command";
             poll_ok (PStr "1523.5")]).

(** A radio whose [connect_AP] raises a [ValueError] whenever it is
    called. *)
Definition picky_radio : esp32 :=
  mkEsp (fun _ => mkRadioObs false (Raise (mkExn ValueError "Invalid SSID")))
    EmptyString 0.

(** An ordinary transport error at the first attempt of [login]. *)
Definition timeout_once : platform :=
  sample_platform (script [transport_failure "timed out"; login_ok "PLANT123"]).

(** An ordinary transport error at the first attempt of [get_plant_info]. *)
Definition timeout_once_poll : platform :=
  sample_platform
    (script [transport_failure "timed out"; poll_ok (PStr "1523.5")]).

(** The first reply rejects the credentials. *)
Definition rejected_at_once : platform :=
  sample_platform (script [login_rejected; login_ok "PLANT123"]).

(** Two replies that fail with [RuntimeError], then an accepted login. *)
Definition two_failures : platform :=
  sample_platform
    (script [transport_failure "timed out"; transport_failure "timed out";
             login_ok "PLANT123"]).

(** The same replies, on a board whose radio fails at the second call of
    [connect_AP]. *)
Definition two_failures_broken_radio : platform :=
  with_esp broken_radio two_failures.

(** A poll that is answered with status 401, then a login that is
    accepted. *)
Definition session_expired : platform :=
  sample_platform
    (script [reply_json 401 PNone []; login_ok "PLANT123"]).

(** One good poll reply with the reading "2.75". *)
Definition reading_2_75 : platform :=
  sample_platform (script [poll_ok (PStr "2.75")]).

(** A poll reply whose power field is not a number. *)
Definition reading_garbled : platform :=
  sample_platform (script [poll_ok (PStr "n/a"); poll_ok (PStr "2.75")]).

(** A poll reply with an empty device list. *)
Definition reading_missing : platform :=
  sample_platform
    (script [reply_json 200 (PDict [("deviceList", PList [])]) [];
             poll_ok (PStr "2.75")]).

(** A poll reply whose power field is [null], then a good one. *)
Definition reading_null : platform :=
  sample_platform (script [poll_ok PNone; poll_ok (PStr "2.75")]).

(** A session with a last good reading of 1523 W. *)
Definition world_with_reading : world :=
  mkWorld
    (mkApi (PStr "PLANT123") (PStr "JSESSIONID=abc") (Some 1523)
       (headers api_init))
    (mkDisplay 10 "Solar power" 3 "1523 W" 2) [] 0 radio_init.

(** A first login, a poll answered with status 401, and a second login
    whose plant list now starts with another plant. *)
Definition plant_list_changed : platform :=
  sample_platform
    (script [login_ok "PLANT123"; reply_json 401 PNone [];
             login_ok "PLANT999"; poll_ok (PStr "1523.5")]).

(** The world of that run after the first login and the failed poll. *)
Definition before_second_login : world :=
  fst (main_run plant_list_changed "user" "password" PNone 2 LoggingIn
         world_init).

(** ** The shape the two retry loops share *)

(** Both [for] loops run a [try] block per value of [i], hand a caught
    exception to the [except] block, and go on with the next value when
    that block falls through. *)
Section RetryLoop.

Variable try_block : nat -> M flow.
Variable except_block : nat -> exn -> M flow.

Fixpoint retry_loop (range : list nat) : M unit :=
  match range with
  | [] => ret tt
  | i :: rest =>
      f <- try_except (try_block i) caught_by_retry (except_block i) ;;
      match f with
      | Returned => ret tt
      | Next => retry_loop rest
      end
  end.

End RetryLoop.

(** ** More ways to read a log *)

(** The three things an [except] block does before the next attempt. *)
Definition is_retry_action (ev : event) : bool :=
  match ev with
  | EvSleep _ | EvWifiReset | EvWifiConnect => true
  | _ => false
  end.

Definition is_exit (ev : event) : bool :=
  match ev with EvExit _ => true | _ => false end.

(** The effects of the [try] block of [login] for the given form fields and
    headers: one kind of request, and none of the retry actions. *)
Definition login_try_event (username password : string) (hdrs : dict)
  (ev : event) : Prop :=
  match ev with
  | EvPost url h data =>
      url = get_url "newTwoLoginAPI.do"
      /\ h = hdrs
      /\ data = [("userName", username); ("password", password)]
  | EvSleep _ | EvWifiReset | EvWifiConnect
  | EvGet _ _ | EvReadout _ | EvExit _ => False
  | _ => True
  end.

(** The effects of the [try] block of [get_plant_info] for the given URL
    and headers. *)
Definition get_plant_info_try_event (url0 : string) (hdrs : dict) (ev : event)
  : Prop :=
  match ev with
  | EvGet url h => url = url0 /\ h = hdrs
  | EvSleep _ | EvWifiReset | EvWifiConnect
  | EvPost _ _ _ | EvReadout _ | EvExit _ => False
  | _ => True
  end.

(** The effects of a whole call: the [try] block's, and between attempts
    [time.sleep(20)], [wifi.reset()] or [wifi.connect()]. *)
Definition login_call_event (username password : string) (hdrs : dict)
  (ev : event) : Prop :=
  match ev with
  | EvSleep s => s = 20
  | EvWifiReset | EvWifiConnect => True
  | _ => login_try_event username password hdrs ev
  end.

Definition get_plant_info_call_event (url0 : string) (hdrs : dict) (ev : event)
  : Prop :=
  match ev with
  | EvSleep s => s = 20
  | EvWifiReset | EvWifiConnect => True
  | _ => get_plant_info_try_event url0 hdrs ev
  end.

(** The headers [get_plant_info] sends for a session. *)
Definition poll_headers (a : GrowattApi) : dict :=
  dict_set (headers a) "Cookie" (cookies a).

(** [data['user']['id']] and [data['user']['rightlevel']] of a decoded
    login reply, in the order [login] reads them. *)
Definition user_fields (body : pyval) : result (pyval * pyval) :=
  match getitem_key body "back" with
  | Raise e => Raise e
  | Ok data =>
      match getitem_key data "user" with
      | Raise e => Raise e
      | Ok user =>
          match getitem_key user "id" with
          | Raise e => Raise e
          | Ok user_id =>
              match getitem_key user "rightlevel" with
              | Raise e => Raise e
              | Ok user_level => Ok (user_id, user_level)
              end
          end
      end
  end.

(** A login reply that is accepted and lists a plant, without a
    [set-cookie] header. *)
Definition login_ok_without_cookie : platform :=
  sample_platform
    (script [reply_json 200
               (PDict [("back",
                        PDict [("success", PBool true);
                               ("user", PDict [("id", PInt 7);
                                               ("rightlevel", PInt 1)]);
                               ("data",
                                PList [PDict [("plantId", PStr "PLANT123")]])])])
               []]).

(** ** Reading [secrets.py], lines 103-112 *)

Record account : Type := mkAccount {
  account_ssid : pyval;
  account_wifi_password : pyval;
  account_username : pyval;
  account_password : pyval;
  account_plant_id : pyval
}.

(** The assignments from the [secrets] dict: what is printed, and the five
    values or the exception. *)
Definition read_secrets (secrets : dict)
  : list (list string) * result account :=
  match getitem_key (PDict secrets) "ssid" with
  | Raise e => ([], Raise e)
  | Ok ssid =>
      match getitem_key (PDict secrets) "password" with
      | Raise e => ([], Raise e)
      | Ok wifi_password =>
          match getitem_key (PDict secrets) "growatt_username" with
          | Raise e => ([], Raise e)
          | Ok username =>
              match getitem_key (PDict secrets) "growatt_password" with
              | Raise e => ([], Raise e)
              | Ok password =>
                  match getitem_key (PDict secrets) "growatt_plant_id" with
                  | Ok plant_id =>
                      ([], Ok (mkAccount ssid wifi_password username password
                                 plant_id))
                  | Raise e =>
                      match exn_cls e with
                      | KeyError =>
                          ([["secrets.py did not specify a Growatt plant ID"]],
                           Ok (mkAccount ssid wifi_password username password
                                 PNone))
                      | _ => ([], Raise e)
                      end
                  end
              end
          end
      end
  end.

(** The keys [secrets.py] must have, in the order they are read. *)
Definition required_secrets : list string :=
  ["ssid"; "password"; "growatt_username"; "growatt_password"].

(** The first key of [keys] that [d] lacks. *)
Fixpoint first_missing (d : dict) (keys : list string) : option string :=
  match keys with
  | [] => None
  | k :: rest =>
      match dict_get d k with
      | None => Some k
      | Some _ => first_missing d rest
      end
  end.

(** * Properties *)

(** ** Running the monad *)

Ltac unfold_m :=
  unfold wifi_connect, wifi_reset, radio_call in *;
  unfold bind, ret, raise, lift, emit, fill, print, gc_collect, sleep,
    get_api, put_api, get_display, put_display,
    next_attempt, set_plant_id, set_cookies, set_power, set_header,
    try_except in *.

Ltac case_step :=
  match goal with
  | |- context [match ?x with _ => _ end] =>
      lazymatch x with
      | context [match _ with _ => _ end] => fail
      | _ => destruct x eqn:?
      end
  end.

Lemma getitem_key_uncaught (v : pyval) (k : string) (e : exn) :
  getitem_key v k = Raise e -> caught_by_retry e = false.
Proof.
  unfold getitem_key. destruct v; try destruct (dict_get d k);
    intro H; inversion H; reflexivity.
Qed.

Lemma getitem_idx_uncaught (v : pyval) (i : Z) (e : exn) :
  getitem_idx v i = Raise e -> caught_by_retry e = false.
Proof.
  unfold getitem_idx.
  destruct v; try destruct (list_index l i); try destruct (str_index s i);
    intro H; inversion H; reflexivity.
Qed.

Lemma header_get_uncaught (h : list (string * string)) (k : string) (e : exn) :
  header_get h k = Raise e -> caught_by_retry e = false.
Proof.
  induction h as [|[k' v] h IH]; simpl.
  - intro H. inversion H. reflexivity.
  - destruct (String.eqb k k'); [discriminate | exact IH].
Qed.

Ltac uncaught :=
  match goal with
  | H : getitem_key _ _ = Raise ?e, H' : caught_by_retry ?e = true |- _ =>
      rewrite (getitem_key_uncaught _ _ _ H) in H'; discriminate H'
  | H : getitem_idx _ _ = Raise ?e, H' : caught_by_retry ?e = true |- _ =>
      rewrite (getitem_idx_uncaught _ _ _ H) in H'; discriminate H'
  | H : header_get _ _ = Raise ?e, H' : caught_by_retry ?e = true |- _ =>
      rewrite (header_get_uncaught _ _ _ H) in H'; discriminate H'
  end.

Lemma with_wifi_same (w : world) : with_wifi (wifi w) w = w.
Proof. now destruct w. Qed.

Lemma with_wifi_push (evs : list event) (w : world) :
  with_wifi (wifi w) (push evs w) = push evs w.
Proof. reflexivity. Qed.

(** The retry action of an [except] block, as [after_retry] tells it. *)
Lemma retry_eq P (e : exn) (w : world) :
  ((if negb (String.eqb (exn_str e) "WiFi not connected") then
      if negb (String.eqb (exn_str e) "Error response to command") then
        sleep 20
      else wifi_reset P
    else wifi_connect P) ;;
   ret Next) w
  = after_retry P e w.
Proof.
  unfold after_retry, retry_radio, retry_action. unfold_m.
  destruct (String.eqb (exn_str e) "WiFi not connected");
    [|destruct (String.eqb (exn_str e) "Error response to command")];
    cbn [negb wifi with_wifi push api display log attempts app].
  - destruct (connect _ _ _ _ _) as [[r [[]|e']]|]; reflexivity.
  - destruct (reset _ _ _ _ _) as [[r [[]|e']]|]; reflexivity.
  - reflexivity.
Qed.

Lemma login_except_eq P (i : nat) (e : exn) (w : world) :
  login_except P i e w
  = if (2 <=? i)%nat then
      (push (request_failed e) w,
       Raise (mkExn SerialLoginErrors
                "Serial login errors. Let's try something else!"))
    else after_retry P e (push (request_failed e) w).
Proof.
  unfold login_except. rewrite <- retry_eq.
  destruct (2 <=? i)%nat; reflexivity.
Qed.

Lemma get_plant_info_except_eq P (i : nat) (e : exn) (w : world) :
  get_plant_info_except P i e w
  = if (3 <=? i)%nat then
      (push (EvPrint ["Giving up requesting"] :: request_failed e) w,
       Raise (mkExn NotLoggedIn "Serial errors. Trying login again."))
    else after_retry P e (push (request_failed e) w).
Proof.
  unfold get_plant_info_except. rewrite <- retry_eq.
  destruct (3 <=? i)%nat; reflexivity.
Qed.

(** An [except] block whose retry action returns: the world has the action
    in its log and the radio as the action left it. *)
Lemma after_retry_returns P (e : exn) (w : world) (r : radio) :
  retry_radio P e (wifi w) = Some (r, Ok tt) ->
  after_retry P e w = (with_wifi r (push [retry_action e] w), Ok Next).
Proof. unfold after_retry. now intros ->. Qed.

(** [time.sleep(20)] returns, and leaves the radio alone. *)
Lemma retry_radio_sleep P (e : exn) (r : radio) :
  exn_str e <> "Error response to command" ->
  exn_str e <> "WiFi not connected" ->
  retry_action e = EvSleep 20 /\ retry_radio P e r = Some (r, Ok tt).
Proof.
  intros Hr Hc. unfold retry_radio, retry_action.
  apply String.eqb_neq in Hr, Hc. now rewrite Hr, Hc.
Qed.

(** What an [except] block's retry action leaves alone, however it ends. *)
Lemma after_retry_frame P (e : exn) (w : world) :
  api (fst (after_retry P e w)) = api w
  /\ display (fst (after_retry P e w)) = display w
  /\ attempts (fst (after_retry P e w)) = attempts w
  /\ log (fst (after_retry P e w)) = retry_action e :: log w.
Proof.
  unfold after_retry.
  destruct (retry_radio P e (wifi w)) as [[r [[]|e']]|]; repeat split.
Qed.

Ltac open_obs P w :=
  let conn := fresh "conn" in
  let reply := fresh "reply" in
  destruct (network P (attempts w)) as [conn reply]; cbn;
  destruct conn; cbn.

Lemma caught_login_try P u pw i w :
  caught_exn (snd (login_try P u pw i w))
  = login_transport_error (network P (attempts w)).
Proof.
  unfold login_try, login_transport_error. unfold_m. cbn.
  open_obs P w; [|reflexivity].
  destruct reply as [r|e]; cbn; [|reflexivity].
  destruct (json_body r) as [body|e]; cbn; [|reflexivity].
  repeat (case_step; cbn; try reflexivity; try uncaught).
Qed.

(** Closes a conjunction of closed equations by evaluation. *)
Ltac run_all :=
  repeat match goal with |- _ /\ _ => split end; vm_compute; reflexivity.

Ltac leaf :=
  repeat split; try reflexivity; try (intros; discriminate);
  try (repeat constructor); try uncaught.

Lemma login_try_frame P u pw i w :
  attempts (fst (login_try P u pw i w)) = S (attempts w)
  /\ display (fst (login_try P u pw i w)) = display w
  /\ power (api (fst (login_try P u pw i w))) = power (api w)
  /\ headers (api (fst (login_try P u pw i w))) = headers (api w)
  /\ log_extends login_event (log w) (log (fst (login_try P u pw i w)))
  /\ (is_None (plant_id (api w)) = false ->
      plant_id (api (fst (login_try P u pw i w))) = plant_id (api w))
  /\ (forall e, caught_exn (snd (login_try P u pw i w)) = Some e ->
      api (fst (login_try P u pw i w)) = api w).
Proof.
  unfold login_try. unfold_m. cbn.
  open_obs P w; [|leaf].
  repeat (case_step; cbn); leaf.
Qed.

(** The [try] blocks do not touch the radio, and they end. *)
Lemma login_try_done P u pw i w :
  wifi (fst (login_try P u pw i w)) = wifi w
  /\ exists r, snd (login_try P u pw i w) = Done r.
Proof.
  unfold login_try. unfold_m. cbn.
  open_obs P w; [|split; [reflexivity | eexists; reflexivity]].
  repeat (case_step; cbn); (split; [reflexivity | eexists; reflexivity]).
Qed.

Lemma dict_get_set_other (d : dict) (k k' : string) (v : pyval) :
  String.eqb k k' = false -> dict_get (dict_set d k' v) k = dict_get d k.
Proof.
  intro Hk. induction d as [|[k0 v0] d IH]; simpl.
  - now rewrite Hk.
  - destruct (String.eqb k' k0) eqn:E; simpl.
    + apply String.eqb_eq in E. subst k0. now rewrite Hk.
    + now rewrite IH.
Qed.

Lemma login_try_ok P u pw i w f :
  snd (login_try P u pw i w) = Ok f ->
  f = Returned
  /\ exists r body s cookie,
       is_connected (network P (attempts w)) = true
       /\ http_reply (network P (attempts w)) = Ok r
       /\ json_body r = Ok body
       /\ success_flag body = Ok s /\ py_truth s = true
       /\ header_get (resp_headers r) "set-cookie" = Ok cookie
       /\ cookies (api (fst (login_try P u pw i w))) = PStr cookie
       /\ (is_None (plant_id (api w)) = true ->
           first_plant_id body = Ok (plant_id (api (fst (login_try P u pw i w))))).
Proof.
  unfold login_try, success_flag, first_plant_id. unfold_m. cbn.
  open_obs P w; [|discriminate].
  repeat (case_step; cbn; try discriminate).
  all: intro H; inversion H; split; [reflexivity|].
  all: do 4 eexists; repeat split; try eassumption; try reflexivity.
  all: try (intros; discriminate).
  all: match goal with H : getitem_key _ "back" = Ok _ |- _ => rewrite H end.
  all: try assumption.
  intros _. cbn.
  repeat match goal with
         | H : dict_get (dict_set _ _ _) _ = _ |- _ =>
             rewrite dict_get_set_other in H by reflexivity
         end.
  match goal with H : dict_get _ "data" = Some _ |- _ => rewrite H end.
  match goal with H : getitem_idx _ 0 = Ok _ |- _ => rewrite H end.
  assumption.
Qed.

Lemma login_try_rejected P u pw i w r body s :
  is_connected (network P (attempts w)) = true ->
  http_reply (network P (attempts w)) = Ok r ->
  json_body r = Ok body ->
  success_flag body = Ok s ->
  py_truth s = false ->
  login_try P u pw i w
  = (mkWorld (api w) (display w)
       (EvClose :: EvPrint ["Received response: login unsuccessful"]
        :: EvPost (get_url "newTwoLoginAPI.do") (headers (api w))
             [("userName", u); ("password", pw)]
        :: EvGcCollect :: EvPrint ["Trying login, attempt "; str_of_nat i]
        :: EvFill 2 :: log w)
       (S (attempts w)) (wifi w),
     Raise (mkExn NotLoggedIn "")).
Proof.
  unfold login_try, success_flag. unfold_m. cbn.
  intros Hc Hr Hb Hs Ht. rewrite Hc, Hr. cbn. rewrite Hb.
  destruct (getitem_key body "back") as [data|e]; [|discriminate].
  rewrite Hs, Ht. reflexivity.
Qed.

Lemma caught_get_plant_info_try P i w :
  caught_exn (snd (get_plant_info_try P i w))
  = get_plant_info_transport_error P (network P (attempts w)).
Proof.
  unfold get_plant_info_try, get_plant_info_transport_error, power_field,
    int_float.
  unfold_m. cbn.
  open_obs P w; [|reflexivity].
  destruct reply as [r|e]; cbn; [|reflexivity].
  destruct (negb (status_code r =? 200)); cbn; [reflexivity|].
  destruct (json_body r) as [body|e]; cbn; [|reflexivity].
  destruct (getitem_key body "deviceList") as [dl|e]; cbn; [|reflexivity].
  destruct (getitem_idx dl 0) as [dev|e]; cbn; [|reflexivity].
  destruct (getitem_key dev "power") as [reading|e]; cbn; [|reflexivity].
  destruct (py_float P reading) as [f|e]; cbn; [|reflexivity].
  destruct (py_int_of_float f) as [n|e]; cbn; reflexivity.
Qed.

Lemma get_plant_info_try_frame P i w :
  attempts (fst (get_plant_info_try P i w)) = S (attempts w)
  /\ display (fst (get_plant_info_try P i w)) = display w
  /\ plant_id (api (fst (get_plant_info_try P i w))) = plant_id (api w)
  /\ cookies (api (fst (get_plant_info_try P i w))) = cookies (api w)
  /\ log_extends (poll_event P (plant_id (api w))) (log w)
       (log (fst (get_plant_info_try P i w)))
  /\ (forall e, snd (get_plant_info_try P i w) = Raise e ->
      power (api (fst (get_plant_info_try P i w))) = power (api w)).
Proof.
  unfold get_plant_info_try. unfold_m. cbn.
  open_obs P w; [|leaf].
  repeat (case_step; cbn); leaf.
Qed.

Lemma get_plant_info_try_done P i w :
  wifi (fst (get_plant_info_try P i w)) = wifi w
  /\ exists r, snd (get_plant_info_try P i w) = Done r.
Proof.
  unfold get_plant_info_try. unfold_m. cbn.
  open_obs P w; [|split; [reflexivity | eexists; reflexivity]].
  repeat (case_step; cbn); (split; [reflexivity | eexists; reflexivity]).
Qed.

Lemma get_plant_info_try_ok P i w f :
  snd (get_plant_info_try P i w) = Ok f ->
  f = Returned
  /\ exists r body reading n,
       is_connected (network P (attempts w)) = true
       /\ http_reply (network P (attempts w)) = Ok r
       /\ status_code r = 200
       /\ json_body r = Ok body
       /\ power_field body = Ok reading
       /\ int_float P reading = Ok n
       /\ power (api (fst (get_plant_info_try P i w))) = Some n.
Proof.
  unfold get_plant_info_try, power_field, int_float. unfold_m. cbn.
  open_obs P w; [|discriminate].
  destruct reply as [r|e]; cbn; [|discriminate].
  destruct (status_code r =? 200) eqn:Hst; cbn; [|discriminate].
  destruct (json_body r) as [body|e] eqn:Hb; cbn; [|discriminate].
  destruct (getitem_key body "deviceList") as [dl|e] eqn:Hdl; cbn;
    [|discriminate].
  destruct (getitem_idx dl 0) as [dev|e] eqn:Hdev; cbn; [|discriminate].
  destruct (getitem_key dev "power") as [reading|e] eqn:Hp; cbn;
    [|discriminate].
  destruct (py_float P reading) as [x|e] eqn:Hf; cbn; [|discriminate].
  destruct (py_int_of_float x) as [n|e] eqn:Hn; cbn; [|discriminate].
  intro H. inversion H. split; [reflexivity|].
  exists r, body, reading, n. rewrite Hdl, Hdev, Hf.
  repeat split; try reflexivity; try assumption.
  now apply Z.eqb_eq.
Qed.

Lemma get_plant_info_try_not_200 P i w r :
  is_connected (network P (attempts w)) = true ->
  http_reply (network P (attempts w)) = Ok r ->
  status_code r <> 200 ->
  snd (get_plant_info_try P i w)
  = Raise (mkExn NotLoggedIn "Apparently not logged in").
Proof.
  unfold get_plant_info_try. unfold_m. cbn.
  intros Hc Hr Hs. rewrite Hc, Hr. cbn.
  apply Z.eqb_neq in Hs. rewrite Hs. reflexivity.
Qed.

(** ** [hash_password] *)

Lemma substring_all (s : string) : substring 0 (String.length s) s = s.
Proof. induction s as [|a s IH]; simpl; [reflexivity | now rewrite IH]. Qed.

Lemma splice_zero (a c : ascii) (s : string) :
  splice (String a s) 0 c = String c s.
Proof. unfold splice. simpl. now rewrite Nat.sub_0_r, substring_all. Qed.

Lemma splice_succ (a c : ascii) (s : string) (i : nat) :
  splice (String a s) (S i) c = String a (splice s i c).
Proof. reflexivity. Qed.

Lemma splice_after_prefix (pre : string) (a c : ascii) (rest : string) :
  splice (pre ++ String a rest) (String.length pre) c
  = (pre ++ String c rest)%string.
Proof.
  induction pre as [|b pre IH]; simpl.
  - apply splice_zero.
  - rewrite splice_succ. now rewrite IH.
Qed.

Lemma str_at_after_prefix (pre : string) (a : ascii) (rest : string) :
  str_at (pre ++ String a rest) (String.length pre) = Ok a.
Proof.
  unfold str_at. induction pre as [|b pre IH]; simpl; [reflexivity | exact IH].
Qed.

Lemma append_assoc (s1 s2 s3 : string) :
  ((s1 ++ s2) ++ s3 = s1 ++ (s2 ++ s3))%string.
Proof. induction s1 as [|a s1 IH]; simpl; [reflexivity | now rewrite IH]. Qed.

Lemma append_length (s1 s2 : string) :
  String.length (s1 ++ s2) = (String.length s1 + String.length s2)%nat.
Proof. induction s1 as [|a s1 IH]; simpl; [reflexivity | now rewrite IH]. Qed.

Lemma half_succ_succ (n : nat) :
  Nat.div (S (S n) + 1) 2 = S (Nat.div (n + 1) 2).
Proof.
  replace (S (S n) + 1)%nat with ((n + 1) + 1 * 2)%nat by lia.
  rewrite Nat.div_add by discriminate. lia.
Qed.

(** The loop, started at offset [length pre] of [pre ++ rest] with everything
    before it already done, rewrites [rest] as the spec's function does. *)
Lemma hash_password_loop (n : nat) :
  forall (pre rest : string),
    (String.length rest <= n)%nat ->
    fold_left hash_password_step
      (range_count (String.length pre) 2 (Nat.div (String.length rest + 1) 2))
      (Ok (pre ++ rest)%string)
    = Ok (pre ++ replace_even_zeros_from true rest)%string.
Proof.
  induction n as [|n IH]; intros pre rest Hlen.
  - destruct rest; [reflexivity | simpl in Hlen; lia].
  - destruct rest as [|a [|b rest]].
    + reflexivity.
    + simpl. rewrite str_at_after_prefix.
      destruct (Ascii.eqb a "0"); [now rewrite splice_after_prefix | reflexivity].
    + change (String.length (String a (String b rest)))
        with (S (S (String.length rest))).
      rewrite half_succ_succ. cbn [range_count fold_left hash_password_step].
      rewrite str_at_after_prefix.
      assert (Hpre : forall c : ascii,
                 (pre ++ String c (String b rest))%string
                 = ((pre ++ String c (String b EmptyString)) ++ rest)%string).
      { intro c. now rewrite append_assoc. }
      assert (Hidx : forall c : ascii,
                 (String.length pre + 2)%nat
                 = String.length (pre ++ String c (String b EmptyString))).
      { intro c. rewrite append_length. simpl. lia. }
      simpl in Hlen.
      destruct (Ascii.eqb a "0") eqn:Ha; cbn [replace_even_zeros_from andb negb].
      * rewrite splice_after_prefix, Hpre, (Hidx "c"%char), IH by lia.
        rewrite Ha. now rewrite append_assoc.
      * rewrite Hpre, (Hidx a), IH by lia.
        rewrite Ha. now rewrite append_assoc.
Qed.

(** The loop of [hash_password] on any digest, without the MD5 step. *)
Lemma hash_password_fold (digest : string) :
  fold_left hash_password_step (py_range 0 (String.length digest) 2) (Ok digest)
  = Ok (replace_even_zeros digest).
Proof.
  unfold py_range, replace_even_zeros.
  replace (String.length digest - 0 + (2 - 1))%nat
    with (String.length digest + 1)%nat by lia.
  exact (hash_password_loop (String.length digest) EmptyString digest (le_n _)).
Qed.

(** [replace_even_zeros_from], position by position. *)
Lemma replace_even_zeros_from_get (s : string) :
  forall (even_pos : bool) (n : nat),
    String.get n (replace_even_zeros_from even_pos s)
    = option_map
        (fun c => if Bool.eqb (Nat.even n) even_pos && Ascii.eqb c "0"
                  then "c"%char else c)
        (String.get n s).
Proof.
  induction s as [|a s IH]; intros even_pos n; [reflexivity|].
  destruct n as [|n].
  - simpl. now destruct even_pos.
  - cbn [replace_even_zeros_from String.get]. rewrite IH.
    destruct (String.get n s); [|reflexivity]. cbn [option_map].
    rewrite Nat.even_succ, <- Nat.negb_even.
    now destruct (Nat.even n), even_pos.
Qed.

(** C4. [hash_password] returns (it raises nothing), its result is a function
    of the MD5 hex digest of the password alone, and it is that digest with
    every ['0'] at an even offset replaced by ['c']: at each offset [n] the
    result holds ['c'] where [n] is even and the digest holds ['0'], and
    the digest's own character everywhere else; the length is unchanged. *)
Theorem hash_password_replaces_even_zeros
  (md5 : string -> string) (password : string) :
  hash_password md5 password = Ok (replace_even_zeros (md5 password))
  /\ String.length (replace_even_zeros (md5 password))
     = String.length (md5 password)
  /\ forall n : nat,
       String.get n (replace_even_zeros (md5 password))
       = option_map
           (fun c => if Nat.even n && Ascii.eqb c "0" then "c"%char else c)
           (String.get n (md5 password)).
Proof.
  split; [apply hash_password_fold | split].
  - unfold replace_even_zeros. generalize true.
    induction (md5 password) as [|a s IH]; intro b; simpl;
      [reflexivity | now rewrite IH].
  - intro n. unfold replace_even_zeros. rewrite replace_even_zeros_from_get.
    destruct (String.get n (md5 password)); [|reflexivity]. simpl.
    now destruct (Nat.even n).
Qed.

(** ** The loop of [WiFiControl.connect] *)

Lemma count_radio_cons (p : radio_event -> bool) (ev : radio_event)
  (l : list radio_event) :
  count_radio p (ev :: l)
  = ((if p ev then 1 else 0) + count_radio p l)%nat.
Proof. unfold count_radio. simpl. now destruct (p ev). Qed.

(** The loop after [k] failing rounds and a round that finds the link up. *)
Lemma connect_loop_reaches_link E ssid pw (k : nat) :
  forall (fuel : nat) (r : radio),
    (forall j, (j < k)%nat -> round_fails (air E (radio_checks r + j)) = true) ->
    link_up (air E (radio_checks r + k)) = true ->
    (k < fuel)%nat ->
    exists r',
      connect_loop E ssid pw fuel r = Some (r', Ok tt)
      /\ radio_checks r' = S (radio_checks r + k)
      /\ count_radio is_connect_AP (radio_log r')
         = (count_radio is_connect_AP (radio_log r) + k)%nat
      /\ count_radio is_set_socket (radio_log r')
         = count_radio is_set_socket (radio_log r).
Proof.
  induction k as [|k IH]; intros fuel r Hfail Hup Hfuel.
  - destruct fuel as [|fuel]; [lia|]. cbn [connect_loop].
    rewrite Nat.add_0_r in Hup. rewrite Hup.
    eexists. split; [reflexivity|]. cbn [radio_checks radio_log].
    repeat split; lia.
  - destruct fuel as [|fuel]; [lia|]. cbn [connect_loop].
    pose proof (Hfail 0%nat ltac:(lia)) as H0. rewrite Nat.add_0_r in H0.
    unfold round_fails in H0. apply andb_prop in H0. destruct H0 as [Hdown Hc].
    apply negb_true_iff in Hdown. rewrite Hdown.
    assert (Hnext : forall r2 : radio,
               radio_checks r2 = S (radio_checks r) ->
               count_radio is_connect_AP (radio_log r2)
               = S (count_radio is_connect_AP (radio_log r)) ->
               count_radio is_set_socket (radio_log r2)
               = count_radio is_set_socket (radio_log r) ->
               exists r',
                 connect_loop E ssid pw fuel r2 = Some (r', Ok tt)
                 /\ radio_checks r' = S (radio_checks r + S k)
                 /\ count_radio is_connect_AP (radio_log r')
                    = (count_radio is_connect_AP (radio_log r) + S k)%nat
                 /\ count_radio is_set_socket (radio_log r')
                    = count_radio is_set_socket (radio_log r)).
    { intros r2 Hch Hcnt Hsock.
      destruct (IH fuel r2) as (r' & Hrun & Hch' & Hcnt' & Hsock').
      - intros j Hj. rewrite Hch.
        replace (S (radio_checks r) + j)%nat with (radio_checks r + S j)%nat
          by lia.
        apply Hfail. lia.
      - rewrite Hch.
        now replace (S (radio_checks r) + k)%nat
          with (radio_checks r + S k)%nat by lia.
      - lia.
      - exists r'. split; [exact Hrun|]. rewrite Hch', Hcnt', Hsock', Hch, Hcnt.
        repeat split; lia. }
    destruct (connect_AP (air E (radio_checks r))) as [[]|e].
    + apply Hnext; reflexivity.
    + rewrite Hc. apply Hnext; reflexivity.
Qed.

Lemma connect_loop_never_returns E ssid pw (fuel : nat) :
  forall r : radio,
    (forall j, round_fails (air E (radio_checks r + j)) = true) ->
    connect_loop E ssid pw fuel r = None.
Proof.
  induction fuel as [|fuel IH]; intros r Hfail; [reflexivity|].
  cbn [connect_loop].
  pose proof (Hfail 0%nat) as H0. rewrite Nat.add_0_r in H0.
  unfold round_fails in H0. apply andb_prop in H0. destruct H0 as [Hdown Hc].
  apply negb_true_iff in Hdown. rewrite Hdown.
  assert (Hnext : forall r2 : radio,
             radio_checks r2 = S (radio_checks r) ->
             connect_loop E ssid pw fuel r2 = None).
  { intros r2 Hch. apply IH. intro j. rewrite Hch.
    replace (S (radio_checks r) + j)%nat with (radio_checks r + S j)%nat by lia.
    apply Hfail. }
  destruct (connect_AP (air E (radio_checks r))) as [[]|e].
  - apply Hnext. reflexivity.
  - rewrite Hc. apply Hnext. reflexivity.
Qed.

Lemma connect_loop_result E ssid pw (fuel : nat) :
  forall (r r' : radio) (res : result unit),
    connect_loop E ssid pw fuel r = Some (r', res) ->
    (radio_checks r < radio_checks r')%nat
    /\ (forall j, (radio_checks r <= j)%nat -> (S j < radio_checks r')%nat ->
                  round_fails (air E j) = true)
    /\ count_radio is_set_socket (radio_log r')
       = count_radio is_set_socket (radio_log r)
    /\ match res with
       | Ok _ => link_up (air E (pred (radio_checks r'))) = true
       | Raise e =>
           link_up (air E (pred (radio_checks r'))) = false
           /\ connect_AP (air E (pred (radio_checks r'))) = Raise e
           /\ is_RuntimeError e = false
       end.
Proof.
  induction fuel as [|fuel IH]; intros r r' res H; [discriminate|].
  cbn [connect_loop] in H.
  destruct (link_up (air E (radio_checks r))) eqn:Hup.
  - inversion H. subst r' res. cbn. repeat split; [lia | | exact Hup].
    intros j H1 H2. lia.
  - assert (Hnext : forall r2 : radio,
               radio_checks r2 = S (radio_checks r) ->
               count_radio is_set_socket (radio_log r2)
               = count_radio is_set_socket (radio_log r) ->
               round_fails (air E (radio_checks r)) = true ->
               connect_loop E ssid pw fuel r2 = Some (r', res) ->
               (radio_checks r < radio_checks r')%nat
               /\ (forall j, (radio_checks r <= j)%nat ->
                             (S j < radio_checks r')%nat ->
                             round_fails (air E j) = true)
               /\ count_radio is_set_socket (radio_log r')
                  = count_radio is_set_socket (radio_log r)
               /\ match res with
                  | Ok _ => link_up (air E (pred (radio_checks r'))) = true
                  | Raise e =>
                      link_up (air E (pred (radio_checks r'))) = false
                      /\ connect_AP (air E (pred (radio_checks r'))) = Raise e
                      /\ is_RuntimeError e = false
                  end).
    { intros r2 Hch Hsock Hround Hrun.
      destruct (IH r2 r' res Hrun) as (Hlt & Hall & Hs & Hres).
      rewrite Hch in Hlt, Hall. rewrite Hsock in Hs.
      repeat split; [lia | | exact Hs | exact Hres].
      intros j H1 H2. destruct (Nat.eq_dec j (radio_checks r)) as [->|Hne];
        [exact Hround | apply Hall; lia]. }
    destruct (connect_AP (air E (radio_checks r))) as [[]|e] eqn:Hc.
    + eapply Hnext; [| | |exact H]; [reflexivity | reflexivity |].
      unfold round_fails. now rewrite Hup, Hc.
    + destruct (is_RuntimeError e) eqn:He.
      * eapply Hnext; [| | |exact H]; [reflexivity | reflexivity |].
        unfold round_fails. now rewrite Hup, Hc.
      * inversion H. subst r' res. cbn.
        repeat split; try assumption; [lia|]. intros j H1 H2. lia.
Qed.

(** What a call of [connect] or [reset] that ended has done: [reset] has
    reset the ESP32 once and [connect] never; a call that returned found
    the link up, and an exception came out of [connect_AP]. *)
Lemma connect_loop_keeps_resets E ssid pw (fuel : nat) :
  forall (r r' : radio) (res : result unit),
    connect_loop E ssid pw fuel r = Some (r', res) ->
    count_radio is_esp_reset (radio_log r')
    = count_radio is_esp_reset (radio_log r).
Proof.
  induction fuel as [|fuel IH]; intros r r' res H; [discriminate|].
  cbn [connect_loop] in H.
  destruct (link_up (air E (radio_checks r))).
  - inversion H. reflexivity.
  - destruct (connect_AP (air E (radio_checks r))) as [[]|e].
    + apply IH in H. exact H.
    + destruct (is_RuntimeError e).
      * apply IH in H. exact H.
      * inversion H. reflexivity.
Qed.

Lemma connect_result E ssid pw (fuel : nat) (r r' : radio) (res : result unit) :
  connect E ssid pw fuel r = Some (r', res) ->
  count_radio is_esp_reset (radio_log r')
  = count_radio is_esp_reset (radio_log r)
  /\ (radio_checks r < radio_checks r')%nat
  /\ match res with
     | Ok _ =>
         link_up (air E (pred (radio_checks r'))) = true
         /\ exists rest, radio_log r' = RSetSocket :: RSetInterface :: rest
     | Raise e =>
         connect_AP (air E (pred (radio_checks r'))) = Raise e
         /\ is_RuntimeError e = false
     end.
Proof.
  unfold connect.
  destruct (connect_loop E ssid pw fuel (radio_did (RPrint ["Connecting to AP..."]) r))
    as [[r1 [[]|e]]|] eqn:Hloop; [| |discriminate].
  - intro H. inversion H. subst r' res. clear H.
    pose proof (connect_loop_keeps_resets _ _ _ _ _ _ _ Hloop) as Hres.
    destruct (connect_loop_result _ _ _ _ _ _ _ Hloop) as (Hlt & _ & _ & Hup).
    cbn [radio_did radio_log radio_checks] in *.
    repeat split; [exact Hres | exact Hlt | exact Hup | eexists; reflexivity].
  - intro H. inversion H. subst r' res. clear H.
    pose proof (connect_loop_keeps_resets _ _ _ _ _ _ _ Hloop) as Hres.
    destruct (connect_loop_result _ _ _ _ _ _ _ Hloop)
      as (Hlt & _ & _ & _ & Hraise & Hcls).
    cbn [radio_did radio_log radio_checks] in *.
    repeat split; assumption.
Qed.

Lemma reset_result E ssid pw (fuel : nat) (r r' : radio) (res : result unit) :
  reset E ssid pw fuel r = Some (r', res) ->
  count_radio is_esp_reset (radio_log r')
  = S (count_radio is_esp_reset (radio_log r))
  /\ (radio_checks r < radio_checks r')%nat
  /\ match res with
     | Ok _ =>
         link_up (air E (pred (radio_checks r'))) = true
         /\ exists rest, radio_log r' = RSetSocket :: RSetInterface :: rest
     | Raise e =>
         connect_AP (air E (pred (radio_checks r'))) = Raise e
         /\ is_RuntimeError e = false
     end.
Proof.
  unfold reset. intro H. apply connect_result in H.
  cbn [radio_did radio_log radio_checks] in H.
  rewrite !count_radio_cons in H. exact H.
Qed.

(** An exception out of the retry action of an [except] block was raised
    by [connect_AP], and is no [RuntimeError]. *)
Lemma retry_radio_raise P (e e' : exn) (r r' : radio) :
  retry_radio P e r = Some (r', Raise e') -> from_connect_AP P e'.
Proof.
  unfold retry_radio, from_connect_AP.
  destruct (retry_action e); intro H; try discriminate H.
  - apply connect_result in H. destruct H as (_ & _ & H). eauto.
  - apply reset_result in H. destruct H as (_ & _ & H). eauto.
Qed.

(** ** The retry loops *)

Lemma caught_exn_Some {A} (r : outcome A) (e : exn) :
  caught_exn r = Some e -> r = Raise e /\ caught_by_retry e = true.
Proof.
  destruct r as [[a|e']|]; simpl; try discriminate.
  destruct (caught_by_retry e') eqn:E; [|discriminate].
  intro H. inversion H. subst. auto.
Qed.

(** An attempt of [login] that ends in a caught error: the [except] block
    gives up, or runs its retry action, and the loop goes on when that
    action returns. *)
Lemma login_loop_caught P u pw i rest w e :
  login_transport_error (network P (attempts w)) = Some e ->
  login_loop P u pw (i :: rest) w
  = if (2 <=? i)%nat then
      (push (request_failed e) (fst (login_try P u pw i w)),
       Raise (mkExn SerialLoginErrors
                "Serial login errors. Let's try something else!"))
    else
      match after_retry P e
              (push (request_failed e) (fst (login_try P u pw i w))) with
      | (w2, Done (Ok _)) => login_loop P u pw rest w2
      | (w2, Done (Raise e')) => (w2, Raise e')
      | (w2, Hang) => (w2, Hang)
      end.
Proof.
  intro H. rewrite <- (caught_login_try P u pw i w) in H.
  apply caught_exn_Some in H. destruct H as [Hr Hc].
  cbn [login_loop]. unfold bind at 1. unfold try_except.
  destruct (login_try P u pw i w) as [w1 r]. simpl in Hr. subst r.
  rewrite Hc, login_except_eq. cbn [fst].
  destruct (2 <=? i)%nat; [reflexivity|].
  unfold after_retry.
  destruct (retry_radio P e _) as [[r [[]|e']]|]; reflexivity.
Qed.

Lemma get_plant_info_loop_caught P i rest w e :
  get_plant_info_transport_error P (network P (attempts w)) = Some e ->
  get_plant_info_loop P (i :: rest) w
  = if (3 <=? i)%nat then
      (push (EvPrint ["Giving up requesting"] :: request_failed e)
         (fst (get_plant_info_try P i w)),
       Raise (mkExn NotLoggedIn "Serial errors. Trying login again."))
    else
      match after_retry P e
              (push (request_failed e) (fst (get_plant_info_try P i w))) with
      | (w2, Done (Ok _)) => get_plant_info_loop P rest w2
      | (w2, Done (Raise e')) => (w2, Raise e')
      | (w2, Hang) => (w2, Hang)
      end.
Proof.
  intro H. rewrite <- (caught_get_plant_info_try P i w) in H.
  apply caught_exn_Some in H. destruct H as [Hr Hc].
  cbn [get_plant_info_loop]. unfold bind at 1. unfold try_except.
  destruct (get_plant_info_try P i w) as [w1 r]. simpl in Hr. subst r.
  rewrite Hc, get_plant_info_except_eq. cbn [fst].
  destruct (3 <=? i)%nat; [reflexivity|].
  unfold after_retry.
  destruct (retry_radio P e _) as [[r [[]|e']]|]; reflexivity.
Qed.

Lemma wifi_login_try P u pw i w : wifi (fst (login_try P u pw i w)) = wifi w.
Proof. apply login_try_done. Qed.

Lemma wifi_get_plant_info_try P i w :
  wifi (fst (get_plant_info_try P i w)) = wifi w.
Proof. apply get_plant_info_try_done. Qed.

(** The same when the retry action returns, leaving the radio in state
    [r]: the loop goes on with the next attempt. *)
Lemma login_loop_retried P u pw i rest w e r :
  login_transport_error (network P (attempts w)) = Some e ->
  (i < 2)%nat ->
  retry_radio P e (wifi w) = Some (r, Ok tt) ->
  login_loop P u pw (i :: rest) w
  = login_loop P u pw rest
      (with_wifi r
         (push (retry_action e :: request_failed e)
            (fst (login_try P u pw i w)))).
Proof.
  intros He Hi Hr. rewrite (login_loop_caught _ _ _ _ _ _ _ He).
  apply Nat.leb_gt in Hi. rewrite Hi.
  rewrite (after_retry_returns P e _ r); [reflexivity|].
  cbn [push wifi]. now rewrite wifi_login_try.
Qed.

Lemma get_plant_info_loop_retried P i rest w e r :
  get_plant_info_transport_error P (network P (attempts w)) = Some e ->
  (i < 3)%nat ->
  retry_radio P e (wifi w) = Some (r, Ok tt) ->
  get_plant_info_loop P (i :: rest) w
  = get_plant_info_loop P rest
      (with_wifi r
         (push (retry_action e :: request_failed e)
            (fst (get_plant_info_try P i w)))).
Proof.
  intros He Hi Hr. rewrite (get_plant_info_loop_caught _ _ _ _ _ He).
  apply Nat.leb_gt in Hi. rewrite Hi.
  rewrite (after_retry_returns P e _ r); [reflexivity|].
  cbn [push wifi]. now rewrite wifi_get_plant_info_try.
Qed.

Lemma login_eq P u pw cfg w :
  login P u pw cfg w
  = login_loop P u (replace_even_zeros (md5_hexdigest P pw)) [1; 2]%nat
      (login_start P cfg w).
Proof.
  unfold login, login_start, hash_password. rewrite hash_password_fold.
  unfold_m. cbn. destruct (is_None cfg); reflexivity.
Qed.

Lemma attempts_login_start P cfg w : attempts (login_start P cfg w) = attempts w.
Proof. unfold login_start. now destruct (is_None cfg). Qed.

Lemma wifi_login_start P cfg w : wifi (login_start P cfg w) = wifi w.
Proof. unfold login_start. now destruct (is_None cfg). Qed.

Lemma attempts_login_try P u pw i w :
  attempts (fst (login_try P u pw i w)) = S (attempts w).
Proof. apply login_try_frame. Qed.

Lemma attempts_get_plant_info_try P i w :
  attempts (fst (get_plant_info_try P i w)) = S (attempts w).
Proof. apply get_plant_info_try_frame. Qed.

(** The outer handler for [SerialLoginErrors]: it calls [wifi.reset()], and
    ends as that call does. *)
Lemma outer_except_serial P (e : exn) (w : world) :
  exn_cls e = SerialLoginErrors ->
  outer_except P e w
  = match reset (esp P) (ap_ssid P) (ap_password P) (radio_rounds P) (wifi w)
    with
    | Some (r, Ok _) => (with_wifi r (push serial_login_handled w), Ok LoggingIn)
    | Some (r, Raise e') => (with_wifi r (push serial_login_handled w), Raise e')
    | None => (push serial_login_handled w, Hang)
    end.
Proof.
  intro Hc. unfold outer_except, is_NotLoggedIn, is_SerialLoginErrors.
  rewrite Hc. unfold_m. cbn -[reset].
  destruct (reset _ _ _ _ _) as [[r [[]|e']]|]; reflexivity.
Qed.

(** C6 (as amended). When the first two attempts of a call of [login] each
    end in an error of the caught classes (the retry action between them
    having returned), the call raises [SerialLoginErrors] after exactly two
    attempts. The step of the orchestration loop that made the call then
    calls [wifi.reset()] on the radio as [login] left it, and ends as that
    call does: when [reset] returns, the ESP32 has been reset once, the
    link is up and both sockets are set, the step stands at [LoggingIn] and
    the run goes on from there with a call of [login]; when [reset] raises,
    the exception leaves the loop; and when it does not return, neither
    does the step. *)
Theorem login_two_failures P u pw cfg w e1 e2 r1 :
  login_transport_error (network P (attempts w)) = Some e1 ->
  login_transport_error (network P (S (attempts w))) = Some e2 ->
  retry_radio P e1 (wifi w) = Some (r1, Ok tt) ->
  exists w',
    login P u pw cfg w
    = (w', Raise (mkExn SerialLoginErrors
                    "Serial login errors. Let's try something else!"))
    /\ attempts w' = S (S (attempts w))
    /\ wifi w' = r1
    /\ main_step P u pw cfg LoggingIn w
       = match reset (esp P) (ap_ssid P) (ap_password P) (radio_rounds P) r1
         with
         | Some (r2, Ok _) =>
             (with_wifi r2 (push serial_login_handled w'), Ok LoggingIn)
         | Some (r2, Raise e) =>
             (with_wifi r2 (push serial_login_handled w'), Raise e)
         | None => (push serial_login_handled w', Hang)
         end
    /\ (forall r2,
          reset (esp P) (ap_ssid P) (ap_password P) (radio_rounds P) r1
          = Some (r2, Ok tt) ->
          count_radio is_esp_reset (radio_log r2)
          = S (count_radio is_esp_reset (radio_log r1))
          /\ link_up (air (esp P) (pred (radio_checks r2))) = true
          /\ (exists rest, radio_log r2 = RSetSocket :: RSetInterface :: rest)
          /\ forall n,
               main_run P u pw cfg (S n) LoggingIn w
               = main_run P u pw cfg n LoggingIn
                   (with_wifi r2 (push serial_login_handled w')))
    /\ (forall r2 e n,
          reset (esp P) (ap_ssid P) (ap_password P) (radio_rounds P) r1
          = Some (r2, Raise e) ->
          main_run P u pw cfg (S n) LoggingIn w
          = (with_wifi r2 (push serial_login_handled w'), Raise e)).
Proof.
  intros H1 H2 Hr1.
  rewrite <- (attempts_login_start P cfg w) in H1, H2.
  rewrite <- (wifi_login_start P cfg w) in Hr1.
  set (h := replace_even_zeros (md5_hexdigest P pw)).
  set (w1 := with_wifi r1
               (push (retry_action e1 :: request_failed e1)
                  (fst (login_try P u h 1 (login_start P cfg w))))).
  assert (Hat1 : attempts w1 = S (attempts (login_start P cfg w))).
  { unfold w1. cbn [with_wifi push attempts]. apply attempts_login_try. }
  assert (Hlogin : login P u pw cfg w
                   = (push (request_failed e2) (fst (login_try P u h 2 w1)),
                      Raise (mkExn SerialLoginErrors
                               "Serial login errors. Let's try something else!"))).
  { rewrite login_eq. fold h.
    rewrite (login_loop_retried _ _ _ _ _ _ _ r1 H1) by (lia || exact Hr1).
    fold w1. rewrite login_loop_caught with (e := e2); [reflexivity|].
    now rewrite Hat1. }
  set (w' := push (request_failed e2) (fst (login_try P u h 2 w1))) in *.
  assert (Hw : wifi w' = r1).
  { unfold w'. cbn [push wifi]. rewrite wifi_login_try. reflexivity. }
  assert (Hstep : main_step P u pw cfg LoggingIn w
                  = outer_except P
                      (mkExn SerialLoginErrors
                         "Serial login errors. Let's try something else!") w').
  { cbn [main_step]. unfold try_except, bind at 1. rewrite Hlogin. reflexivity. }
  rewrite outer_except_serial in Hstep by reflexivity. rewrite Hw in Hstep.
  exists w'. split; [exact Hlogin|]. split; [|split; [exact Hw|split; [exact Hstep|split]]].
  - unfold w'. cbn [push attempts]. rewrite attempts_login_try, Hat1.
    now rewrite attempts_login_start.
  - intros r2 Hr2. destruct (reset_result _ _ _ _ _ _ _ Hr2) as (Hc & _ & Hup & Hs).
    repeat split; try assumption.
    intro n. cbn [main_run]. unfold bind at 1. rewrite Hstep, Hr2. reflexivity.
  - intros r2 e n Hr2. cbn [main_run]. unfold bind at 1.
    rewrite Hstep, Hr2. reflexivity.
Qed.

Lemma login_two_failures_witness :
  exists w',
    login two_failures "user" "password" PNone world_init
    = (w', Raise (mkExn SerialLoginErrors
                    "Serial login errors. Let's try something else!"))
    /\ attempts w' = 2%nat
    /\ wifi w' = radio_init
    /\ main_step two_failures "user" "password" PNone LoggingIn world_init
       = match reset (esp two_failures) (ap_ssid two_failures)
                 (ap_password two_failures) (radio_rounds two_failures)
                 radio_init
         with
         | Some (r2, Ok _) =>
             (with_wifi r2 (push serial_login_handled w'), Ok LoggingIn)
         | Some (r2, Raise e) =>
             (with_wifi r2 (push serial_login_handled w'), Raise e)
         | None => (push serial_login_handled w', Hang)
         end
    /\ (forall r2,
          reset (esp two_failures) (ap_ssid two_failures)
            (ap_password two_failures) (radio_rounds two_failures) radio_init
          = Some (r2, Ok tt) ->
          count_radio is_esp_reset (radio_log r2)
          = S (count_radio is_esp_reset (radio_log radio_init))
          /\ link_up (air (esp two_failures) (pred (radio_checks r2))) = true
          /\ (exists rest, radio_log r2 = RSetSocket :: RSetInterface :: rest)
          /\ forall n,
               main_run two_failures "user" "password" PNone (S n) LoggingIn
                 world_init
               = main_run two_failures "user" "password" PNone n LoggingIn
                   (with_wifi r2 (push serial_login_handled w')))
    /\ (forall r2 e n,
          reset (esp two_failures) (ap_ssid two_failures)
            (ap_password two_failures) (radio_rounds two_failures) radio_init
          = Some (r2, Raise e) ->
          main_run two_failures "user" "password" PNone (S n) LoggingIn
            world_init
          = (with_wifi r2 (push serial_login_handled w'), Raise e)).
Proof.
  exact (login_two_failures two_failures "user" "password" PNone world_init
           (mkExn RuntimeError "timed out") (mkExn RuntimeError "timed out")
           radio_init eq_refl eq_refl eq_refl).
Defined.

(** C6 as stated fails when [wifi.reset()] raises: here both attempts of
    [login] time out, [login] raises [SerialLoginErrors], the handler calls
    [wifi.reset()], and the second call of [connect_AP] raises an
    [OSError], which [connect] does not catch. The exception leaves the
    loop after two attempts: [login] is not entered again. *)
Lemma failed_reset_leaves_the_loop :
  login_transport_error (network two_failures_broken_radio 0)
  = Some (mkExn RuntimeError "timed out")
  /\ login_transport_error (network two_failures_broken_radio 1)
     = Some (mkExn RuntimeError "timed out")
  /\ snd (login two_failures_broken_radio "user" "password" PNone world_init)
     = Raise (mkExn SerialLoginErrors
                "Serial login errors. Let's try something else!")
  /\ connect_AP (air (esp two_failures_broken_radio) 1)
     = Raise (mkExn OSError "SPI failure")
  /\ snd (main_step two_failures_broken_radio "user" "password" PNone LoggingIn
            world_init)
     = Raise (mkExn OSError "SPI failure")
  /\ snd (main_run two_failures_broken_radio "user" "password" PNone 5
            LoggingIn world_init)
     = Raise (mkExn OSError "SPI failure")
  /\ attempts (fst (main_run two_failures_broken_radio "user" "password" PNone
                      5 LoggingIn world_init))
     = 2%nat
  /\ count_events is_wifi_reset
       (log (fst (main_run two_failures_broken_radio "user" "password" PNone
                    5 LoggingIn world_init)))
     = 1%nat.
Proof. run_all. Qed.

(** C1 (as amended). When the first three attempts of a call of
    [get_plant_info] each end in an error of the caught classes (the retry
    actions between them having returned), the call raises [NotLoggedIn]
    with the text "Serial errors. Trying login again." (not
    [SerialLoginErrors]) after exactly three attempts. *)
Theorem get_plant_info_three_failures P w e1 e2 e3 r1 r2 :
  get_plant_info_transport_error P (network P (attempts w)) = Some e1 ->
  get_plant_info_transport_error P (network P (S (attempts w))) = Some e2 ->
  get_plant_info_transport_error P (network P (S (S (attempts w)))) = Some e3 ->
  retry_radio P e1 (wifi w) = Some (r1, Ok tt) ->
  retry_radio P e2 r1 = Some (r2, Ok tt) ->
  exists w',
    get_plant_info P w
    = (w', Raise (mkExn NotLoggedIn "Serial errors. Trying login again."))
    /\ attempts w' = S (S (S (attempts w))).
Proof.
  intros H1 H2 H3 Hr1 Hr2. unfold get_plant_info.
  change (py_range 1 4 1) with [1; 2; 3]%nat.
  rewrite (get_plant_info_loop_retried _ _ _ _ _ r1 H1) by (lia || exact Hr1).
  set (w1 := with_wifi r1 _).
  assert (Hat1 : attempts w1 = S (attempts w)).
  { unfold w1. cbn [with_wifi push attempts]. apply attempts_get_plant_info_try. }
  rewrite (get_plant_info_loop_retried _ _ _ _ e2 r2); [|now rewrite Hat1|lia|exact Hr2].
  set (w2 := with_wifi r2 _).
  assert (Hat2 : attempts w2 = S (S (attempts w))).
  { unfold w2. cbn [with_wifi push attempts].
    now rewrite attempts_get_plant_info_try, Hat1. }
  rewrite get_plant_info_loop_caught with (e := e3); [|now rewrite Hat2].
  cbn [Nat.leb]. eexists. split; [reflexivity|].
  cbn [push attempts]. now rewrite attempts_get_plant_info_try, Hat2.
Qed.

Lemma get_plant_info_three_failures_witness :
  exists w',
    get_plant_info three_failures world_init
    = (w', Raise (mkExn NotLoggedIn "Serial errors. Trying login again."))
    /\ attempts w' = 3%nat.
Proof.
  exact (get_plant_info_three_failures three_failures world_init
           (mkExn RuntimeError "timed out") (mkExn RuntimeError "timed out")
           (mkExn RuntimeError "timed out") radio_init radio_init
           eq_refl eq_refl eq_refl eq_refl eq_refl).
Defined.

(** C1 as stated fails: after three [RuntimeError]s the call raises an
    exception of class [NotLoggedIn], which is not [SerialLoginErrors]. *)
Lemma get_plant_info_three_failures_not_serial :
  get_plant_info_transport_error three_failures (network three_failures 0)
  = Some (mkExn RuntimeError "timed out")
  /\ get_plant_info_transport_error three_failures (network three_failures 1)
     = Some (mkExn RuntimeError "timed out")
  /\ get_plant_info_transport_error three_failures (network three_failures 2)
     = Some (mkExn RuntimeError "timed out")
  /\ snd (get_plant_info three_failures world_init)
     = Raise (mkExn NotLoggedIn "Serial errors. Trying login again.")
  /\ is_SerialLoginErrors
       (mkExn NotLoggedIn "Serial errors. Trying login again.") = false
  /\ attempts (fst (get_plant_info three_failures world_init)) = 3%nat.
Proof. run_all. Qed.

(** ** The link-down branch *)

(** C2 (the code at the failing input). An attempt that finds the link down
    raises [WiFiNotConnected("Wifi not connected")]; the [except] blocks
    compare [str(error)] with "WiFi not connected", which differs in the
    case of one letter, so with attempts remaining they both run
    [time.sleep(20)] and never [wifi.connect()]. In the run
    [link_down_once] the call of [login] sleeps once and connects never. *)
Theorem link_down_sleeps_and_never_connects :
  (forall (P : platform) (reply : result response),
      login_transport_error (mkObs false reply) = Some wifi_not_connected
      /\ get_plant_info_transport_error P (mkObs false reply)
         = Some wifi_not_connected)
  /\ retry_action wifi_not_connected = EvSleep 20
  /\ (forall (P : platform) (w : world),
        login_except P 1 wifi_not_connected w
        = (push [EvSleep 20; EvFill 1; EvGcCollect;
                 EvPrint ["Request failed:"; "Wifi not connected"]] w,
           Ok Next))
  /\ (forall (P : platform) (w : world),
        get_plant_info_except P 1 wifi_not_connected w
        = (push [EvSleep 20; EvFill 1; EvGcCollect;
                 EvPrint ["Request failed:"; "Wifi not connected"]] w,
           Ok Next)
        /\ get_plant_info_except P 2 wifi_not_connected w
           = (push [EvSleep 20; EvFill 1; EvGcCollect;
                    EvPrint ["Request failed:"; "Wifi not connected"]] w,
              Ok Next))
  /\ is_connected (network link_down_once 0) = false
  /\ rev (log (fst (login link_down_once "user" "password" PNone world_init)))
     = [EvFill 2; EvPrint ["Trying login, attempt "; "1"]; EvGcCollect;
        EvPrint ["Request failed:"; "Wifi not connected"]; EvGcCollect;
        EvFill 1; EvSleep 20;
        EvFill 2; EvPrint ["Trying login, attempt "; "2"]; EvGcCollect;
        EvPost "https://server-api.growatt.com/newTwoLoginAPI.do"
          (headers api_init)
          [("userName", "user");
           ("password", "5f4dcc3b5aa765d61d8327deb882cf99")];
        EvPrint ["No plant_id specified up front. Defaulting to"; "PLANT123"];
        EvClose]
  /\ count_events is_wifi_connect
       (log (fst (login link_down_once "user" "password" PNone world_init)))
     = 0%nat.
Proof.
  split; [split; reflexivity|].
  split; [reflexivity|].
  split; [intros P w; rewrite login_except_eq; reflexivity|].
  split; [intros P w; rewrite !get_plant_info_except_eq; split; reflexivity|].
  run_all.
Qed.

(** ** Errors while attempts remain *)

(** C3 (as amended). A caught error seen while the link is up and attempts
    remain makes [login] and [get_plant_info] alike log the failure and
    then act on the text of the error. A text that is neither "Error
    response to command" nor "WiFi not connected" is answered with
    [time.sleep(20)] and nothing else, and the next attempt of the same
    call follows. The text "Error response to command" is answered with
    [wifi.reset()] and no [time.sleep]; the next attempt follows when
    [reset] returns, an exception out of [reset] leaves the call, and a
    [reset] that does not return stalls it. *)
Theorem transport_error_waits_then_retries :
  (forall P u pw i rest w e,
      (i < 2)%nat ->
      is_connected (network P (attempts w)) = true ->
      login_transport_error (network P (attempts w)) = Some e ->
      exn_str e <> "Error response to command" ->
      exn_str e <> "WiFi not connected" ->
      login_loop P u pw (i :: rest) w
      = login_loop P u pw rest
          (push (EvSleep 20 :: request_failed e) (fst (login_try P u pw i w))))
  /\ (forall P i rest w e,
        (i < 3)%nat ->
        is_connected (network P (attempts w)) = true ->
        get_plant_info_transport_error P (network P (attempts w)) = Some e ->
        exn_str e <> "Error response to command" ->
        exn_str e <> "WiFi not connected" ->
        get_plant_info_loop P (i :: rest) w
        = get_plant_info_loop P rest
            (push (EvSleep 20 :: request_failed e)
               (fst (get_plant_info_try P i w))))
  /\ (forall P u pw i rest w e,
        (i < 2)%nat ->
        is_connected (network P (attempts w)) = true ->
        login_transport_error (network P (attempts w)) = Some e ->
        exn_str e = "Error response to command" ->
        login_loop P u pw (i :: rest) w
        = match reset (esp P) (ap_ssid P) (ap_password P) (radio_rounds P)
                  (wifi w)
          with
          | Some (r, Ok _) =>
              login_loop P u pw rest
                (with_wifi r
                   (push (EvWifiReset :: request_failed e)
                      (fst (login_try P u pw i w))))
          | Some (r, Raise e') =>
              (with_wifi r
                 (push (EvWifiReset :: request_failed e)
                    (fst (login_try P u pw i w))),
               Raise e')
          | None =>
              (push (EvWifiReset :: request_failed e)
                 (fst (login_try P u pw i w)),
               Hang)
          end)
  /\ (forall P i rest w e,
        (i < 3)%nat ->
        is_connected (network P (attempts w)) = true ->
        get_plant_info_transport_error P (network P (attempts w)) = Some e ->
        exn_str e = "Error response to command" ->
        get_plant_info_loop P (i :: rest) w
        = match reset (esp P) (ap_ssid P) (ap_password P) (radio_rounds P)
                  (wifi w)
          with
          | Some (r, Ok _) =>
              get_plant_info_loop P rest
                (with_wifi r
                   (push (EvWifiReset :: request_failed e)
                      (fst (get_plant_info_try P i w))))
          | Some (r, Raise e') =>
              (with_wifi r
                 (push (EvWifiReset :: request_failed e)
                    (fst (get_plant_info_try P i w))),
               Raise e')
          | None =>
              (push (EvWifiReset :: request_failed e)
                 (fst (get_plant_info_try P i w)),
               Hang)
          end).
Proof.
  assert (Hreset : forall P e w,
             exn_str e = "Error response to command" ->
             after_retry P e w
             = match reset (esp P) (ap_ssid P) (ap_password P) (radio_rounds P)
                       (wifi w)
               with
               | Some (r, Ok _) => (with_wifi r (push [EvWifiReset] w), Ok Next)
               | Some (r, Raise e') =>
                   (with_wifi r (push [EvWifiReset] w), Raise e')
               | None => (push [EvWifiReset] w, Hang)
               end).
  { intros P e w He. unfold after_retry, retry_radio, retry_action.
    rewrite He. reflexivity. }
  split; [|split; [|split]].
  - intros P u pw i rest w e Hi _ He Hr Hc.
    destruct (retry_radio_sleep P e (wifi w) Hr Hc) as [Hact Hrad].
    rewrite (login_loop_retried _ _ _ _ _ _ _ _ He Hi Hrad), Hact.
    now rewrite <- (wifi_login_try P u pw i w), with_wifi_push.
  - intros P i rest w e Hi _ He Hr Hc.
    destruct (retry_radio_sleep P e (wifi w) Hr Hc) as [Hact Hrad].
    rewrite (get_plant_info_loop_retried _ _ _ _ _ _ He Hi Hrad), Hact.
    now rewrite <- (wifi_get_plant_info_try P i w), with_wifi_push.
  - intros P u pw i rest w e Hi _ He Hr.
    rewrite (login_loop_caught _ _ _ _ _ _ _ He).
    apply Nat.leb_gt in Hi. rewrite Hi, (Hreset P e _ Hr).
    cbn [push wifi]. rewrite wifi_login_try.
    destruct (reset _ _ _ _ _) as [[r [[]|e']]|]; reflexivity.
  - intros P i rest w e Hi _ He Hr.
    rewrite (get_plant_info_loop_caught _ _ _ _ _ He).
    apply Nat.leb_gt in Hi. rewrite Hi, (Hreset P e _ Hr).
    cbn [push wifi]. rewrite wifi_get_plant_info_try.
    destruct (reset _ _ _ _ _) as [[r [[]|e']]|]; reflexivity.
Qed.

Lemma transport_error_waits_then_retries_witness :
  login_loop timeout_once "user" "hash" [1; 2]%nat world_init
  = login_loop timeout_once "user" "hash" [2]%nat
      (push (EvSleep 20 :: request_failed (mkExn RuntimeError "timed out"))
         (fst (login_try timeout_once "user" "hash" 1 world_init)))
  /\ get_plant_info_loop timeout_once_poll [1; 2; 3]%nat world_init
     = get_plant_info_loop timeout_once_poll [2; 3]%nat
         (push (EvSleep 20 :: request_failed (mkExn RuntimeError "timed out"))
            (fst (get_plant_info_try timeout_once_poll 1 world_init)))
  /\ login_loop command_error_once "user" "hash" [1; 2]%nat world_init
     = match reset (esp command_error_once) (ap_ssid command_error_once)
               (ap_password command_error_once)
               (radio_rounds command_error_once) (wifi world_init)
       with
       | Some (r, Ok _) =>
           login_loop command_error_once "user" "hash" [2]%nat
             (with_wifi r
                (push (EvWifiReset
                       :: request_failed
                            (mkExn RuntimeError "Error response to command"))
                   (fst (login_try command_error_once "user" "hash" 1
                           world_init))))
       | Some (r, Raise e') =>
           (with_wifi r
              (push (EvWifiReset
                     :: request_failed
                          (mkExn RuntimeError "Error response to command"))
                 (fst (login_try command_error_once "user" "hash" 1
                         world_init))),
            Raise e')
       | None =>
           (push (EvWifiReset
                  :: request_failed
                       (mkExn RuntimeError "Error response to command"))
              (fst (login_try command_error_once "user" "hash" 1 world_init)),
            Hang)
       end
  /\ get_plant_info_loop command_error_once_poll [1; 2; 3]%nat world_init
     = match reset (esp command_error_once_poll)
               (ap_ssid command_error_once_poll)
               (ap_password command_error_once_poll)
               (radio_rounds command_error_once_poll) (wifi world_init)
       with
       | Some (r, Ok _) =>
           get_plant_info_loop command_error_once_poll [2; 3]%nat
             (with_wifi r
                (push (EvWifiReset
                       :: request_failed
                            (mkExn RuntimeError "Error response to command"))
                   (fst (get_plant_info_try command_error_once_poll 1
                           world_init))))
       | Some (r, Raise e') =>
           (with_wifi r
              (push (EvWifiReset
                     :: request_failed
                          (mkExn RuntimeError "Error response to command"))
                 (fst (get_plant_info_try command_error_once_poll 1
                         world_init))),
            Raise e')
       | None =>
           (push (EvWifiReset
                  :: request_failed
                       (mkExn RuntimeError "Error response to command"))
              (fst (get_plant_info_try command_error_once_poll 1 world_init)),
            Hang)
       end.
Proof.
  split; [|split; [|split]].
  - apply (proj1 transport_error_waits_then_retries timeout_once "user" "hash"
             1%nat [2%nat] world_init (mkExn RuntimeError "timed out"));
      [lia | reflexivity | reflexivity | discriminate | discriminate].
  - apply (proj1 (proj2 transport_error_waits_then_retries) timeout_once_poll
             1%nat [2; 3]%nat world_init (mkExn RuntimeError "timed out"));
      [lia | reflexivity | reflexivity | discriminate | discriminate].
  - apply (proj1 (proj2 (proj2 transport_error_waits_then_retries))
             command_error_once "user" "hash" 1%nat [2%nat] world_init
             (mkExn RuntimeError "Error response to command"));
      [lia | reflexivity | reflexivity | reflexivity].
  - apply (proj2 (proj2 (proj2 transport_error_waits_then_retries))
             command_error_once_poll 1%nat [2; 3]%nat world_init
             (mkExn RuntimeError "Error response to command"));
      [lia | reflexivity | reflexivity | reflexivity].
Defined.

(** C3 as stated fails: the error below is a [RuntimeError] raised by the
    request while the link is up and an attempt remains, and [login] and
    [get_plant_info] both answer it with [wifi.reset()], which resets the
    ESP32, and with no [time.sleep]; then they make the next attempt. *)
Lemma command_error_resets_without_waiting :
  is_connected (network command_error_once 0) = true
  /\ login_transport_error (network command_error_once 0)
     = Some (mkExn RuntimeError "Error response to command")
  /\ rev (log (fst (try_except (login_try command_error_once "user" "hash" 1)
                      caught_by_retry (login_except command_error_once 1)
                      world_init)))
     = [EvFill 2; EvPrint ["Trying login, attempt "; "1"]; EvGcCollect;
        EvPost "https://server-api.growatt.com/newTwoLoginAPI.do"
          (headers api_init) [("userName", "user"); ("password", "hash")];
        EvPrint ["Request failed:"; "Error response to command"];
        EvGcCollect; EvFill 1; EvWifiReset]
  /\ count_events is_sleep
       (log (fst (login command_error_once "user" "password" PNone world_init)))
     = 0%nat
  /\ count_events is_wifi_reset
       (log (fst (login command_error_once "user" "password" PNone world_init)))
     = 1%nat
  /\ count_radio is_esp_reset
       (radio_log
          (wifi (fst (login command_error_once "user" "password" PNone
                        world_init))))
     = 1%nat
  /\ login command_error_once "user" "password" PNone world_init
     = (fst (login command_error_once "user" "password" PNone world_init),
        Ok tt)
  /\ attempts (fst (login command_error_once "user" "password" PNone world_init))
     = 2%nat
  /\ is_connected (network command_error_once_poll 0) = true
  /\ get_plant_info_transport_error command_error_once_poll
       (network command_error_once_poll 0)
     = Some (mkExn RuntimeError "Error response to command")
  /\ count_events is_sleep
       (log (fst (get_plant_info command_error_once_poll world_init)))
     = 0%nat
  /\ count_events is_wifi_reset
       (log (fst (get_plant_info command_error_once_poll world_init)))
     = 1%nat
  /\ count_radio is_esp_reset
       (radio_log (wifi (fst (get_plant_info command_error_once_poll
                                world_init))))
     = 1%nat
  /\ get_plant_info command_error_once_poll world_init
     = (fst (get_plant_info command_error_once_poll world_init), Ok tt)
  /\ attempts (fst (get_plant_info command_error_once_poll world_init))
     = 2%nat.
Proof. run_all. Qed.

(** ** Rejected credentials *)

Lemma main_run_exited P u pw cfg (n : nat) (code : Z) (w : world) :
  main_run P u pw cfg n (Exited code) w = (w, Ok (Exited code)).
Proof. induction n as [|n IH]; [reflexivity | exact IH]. Qed.

(** C5. When the reply to the first attempt of [login] carries a false
    [success] flag, [login] raises [NotLoggedIn] after that one attempt, and
    the orchestration loop calls [exit(1)]: the step ends in [Exited 1], and
    so does every longer run, with nothing done after the exit. *)
Theorem login_rejected_exits P u pw cfg w r body s :
  is_connected (network P (attempts w)) = true ->
  http_reply (network P (attempts w)) = Ok r ->
  json_body r = Ok body ->
  success_flag body = Ok s ->
  py_truth s = false ->
  exists w',
    login P u pw cfg w = (w', Raise (mkExn NotLoggedIn ""))
    /\ attempts w' = S (attempts w)
    /\ main_step P u pw cfg LoggingIn w
       = (push [EvExit 1;
                EvPrint ["Received response: login unsuccessful. Your account details might be wrong."];
                EvFill 1] w',
          Ok (Exited 1))
    /\ forall n : nat,
         main_run P u pw cfg (S n) LoggingIn w
         = (push [EvExit 1;
                  EvPrint ["Received response: login unsuccessful. Your account details might be wrong."];
                  EvFill 1] w',
            Ok (Exited 1)).
Proof.
  intros Hc Hr Hb Hs Ht.
  rewrite <- (attempts_login_start P cfg w) in Hc, Hr.
  pose proof (login_try_rejected P u (replace_even_zeros (md5_hexdigest P pw))
                1 (login_start P cfg w) r body s Hc Hr Hb Hs Ht) as Htry.
  assert (Hlogin : login P u pw cfg w
                   = (fst (login_try P u
                             (replace_even_zeros (md5_hexdigest P pw)) 1
                             (login_start P cfg w)),
                      Raise (mkExn NotLoggedIn ""))).
  { rewrite login_eq. cbn [login_loop]. unfold bind at 1. unfold try_except.
    rewrite Htry. reflexivity. }
  assert (Hstep : main_step P u pw cfg LoggingIn w
                  = (push [EvExit 1;
                           EvPrint ["Received response: login unsuccessful. Your account details might be wrong."];
                           EvFill 1]
                       (fst (login_try P u
                               (replace_even_zeros (md5_hexdigest P pw)) 1
                               (login_start P cfg w))),
                     Ok (Exited 1))).
  { cbn [main_step]. unfold try_except, bind at 1. rewrite Hlogin. reflexivity. }
  eexists. split; [exact Hlogin|]. split; [|split].
  - now rewrite attempts_login_try, attempts_login_start.
  - exact Hstep.
  - intro n. cbn [main_run]. unfold bind at 1. rewrite Hstep.
    apply main_run_exited.
Qed.

Lemma login_rejected_exits_witness :
  exists w',
    login rejected_at_once "user" "wrong" PNone world_init
    = (w', Raise (mkExn NotLoggedIn ""))
    /\ attempts w' = 1%nat
    /\ main_step rejected_at_once "user" "wrong" PNone LoggingIn world_init
       = (push [EvExit 1;
                EvPrint ["Received response: login unsuccessful. Your account details might be wrong."];
                EvFill 1] w',
          Ok (Exited 1))
    /\ forall n : nat,
         main_run rejected_at_once "user" "wrong" PNone (S n) LoggingIn
           world_init
         = (push [EvExit 1;
                  EvPrint ["Received response: login unsuccessful. Your account details might be wrong."];
                  EvFill 1] w',
            Ok (Exited 1)).
Proof.
  exact (login_rejected_exits rejected_at_once "user" "wrong" PNone world_init
           (mkResponse 200
              (Ok (PDict [("back", PDict [("success", PBool false)])])) [])
           (PDict [("back", PDict [("success", PBool false)])])
           (PBool false) eq_refl eq_refl eq_refl eq_refl eq_refl).
Defined.

(** ** What a call of [get_plant_info] leaves alone *)

Lemma log_extends_trans (allowed : event -> Prop) (l1 l2 l3 : list event) :
  log_extends allowed l1 l2 -> log_extends allowed l2 l3 ->
  log_extends allowed l1 l3.
Proof.
  intros H12 H23. induction H23 as [|ev new Hev _ IH];
    [assumption | now constructor].
Qed.

Lemma log_extends_app (allowed : event -> Prop) (evs old : list event) :
  Forall allowed evs -> log_extends allowed old (evs ++ old).
Proof.
  induction 1 as [|ev evs Hev _ IH]; simpl; [constructor | now constructor].
Qed.

Lemma log_extends_split (allowed : event -> Prop) (old new : list event) :
  log_extends allowed old new ->
  exists evs, new = evs ++ old /\ Forall allowed evs.
Proof.
  induction 1 as [|ev new Hev _ [evs [Heq Hall]]].
  - exists []. auto.
  - exists (ev :: evs). subst new. auto.
Qed.

Lemma log_extends_weaken (A B : event -> Prop) (old new : list event) :
  (forall ev, A ev -> B ev) ->
  log_extends A old new -> log_extends B old new.
Proof. intros HAB H. induction H; constructor; auto. Qed.

Lemma poll_event_retry P pid e :
  Forall (poll_event P pid) (retry_action e :: request_failed e).
Proof.
  unfold retry_action, request_failed.
  destruct (String.eqb (exn_str e) "WiFi not connected");
    destruct (String.eqb (exn_str e) "Error response to command");
    repeat constructor.
Qed.

Lemma poll_event_giving_up P pid e :
  Forall (poll_event P pid)
    (EvPrint ["Giving up requesting"] :: request_failed e).
Proof. repeat constructor. Qed.

(** One iteration of the loop of [get_plant_info], spelled out. *)
Lemma get_plant_info_loop_cons P (i : nat) (rest : list nat) (w : world) :
  get_plant_info_loop P (i :: rest) w
  = match get_plant_info_try P i w with
    | (w1, Done (Ok Returned)) => (w1, Ok tt)
    | (w1, Done (Ok Next)) => get_plant_info_loop P rest w1
    | (w1, Done (Raise e)) =>
        if caught_by_retry e then
          if (3 <=? i)%nat then
            (push (EvPrint ["Giving up requesting"] :: request_failed e) w1,
             Raise (mkExn NotLoggedIn "Serial errors. Trying login again."))
          else
            match after_retry P e (push (request_failed e) w1) with
            | (w2, Done (Ok _)) => get_plant_info_loop P rest w2
            | (w2, Done (Raise e')) => (w2, Raise e')
            | (w2, Hang) => (w2, Hang)
            end
        else (w1, Raise e)
    | (w1, Hang) => (w1, Hang)
    end.
Proof.
  cbn [get_plant_info_loop]. unfold bind, try_except.
  destruct (get_plant_info_try P i w) as [w1 [[[|]|e]|]]; try reflexivity.
  destruct (caught_by_retry e); [|reflexivity].
  rewrite get_plant_info_except_eq.
  destruct (3 <=? i)%nat; [reflexivity|].
  unfold after_retry.
  destruct (retry_radio P e _) as [[r [[]|e']]|]; reflexivity.
Qed.

(** Whatever the network and the radio do, a call of the loop of
    [get_plant_info] keeps the display, the plant id and the cookie, only
    adds [poll_event]s to the log, and keeps the stored power unless it
    returns. *)
Lemma get_plant_info_loop_frame P (range : list nat) :
  forall w,
    display (fst (get_plant_info_loop P range w)) = display w
    /\ plant_id (api (fst (get_plant_info_loop P range w))) = plant_id (api w)
    /\ cookies (api (fst (get_plant_info_loop P range w))) = cookies (api w)
    /\ (attempts w <= attempts (fst (get_plant_info_loop P range w)))%nat
    /\ log_extends (poll_event P (plant_id (api w))) (log w)
         (log (fst (get_plant_info_loop P range w)))
    /\ (forall e, snd (get_plant_info_loop P range w) = Raise e ->
        power (api (fst (get_plant_info_loop P range w))) = power (api w))
    /\ (snd (get_plant_info_loop P range w) = Hang ->
        power (api (fst (get_plant_info_loop P range w))) = power (api w)).
Proof.
  induction range as [|i rest IH]; intro w.
  - cbn. repeat split; try constructor; discriminate.
  - rewrite get_plant_info_loop_cons.
    destruct (get_plant_info_try_frame P i w)
      as (Hat & Hd & Hp & Hc & Hlog & Hpow).
    pose proof (get_plant_info_try_ok P i w) as Hok.
    destruct (get_plant_info_try_done P i w) as [_ [res Hdone]].
    destruct (get_plant_info_try P i w) as [w1 [[f|e]|]]; cbn [fst snd] in *;
      [| |discriminate].
    + destruct (Hok f eq_refl) as [-> _]. cbn.
      repeat split; try assumption; [lia | discriminate | discriminate].
    + destruct (caught_by_retry e).
      * destruct (3 <=? i)%nat; cbn [fst snd].
        -- cbn [push api display log attempts].
           repeat split; try assumption; try lia.
           ++ eapply log_extends_trans; [exact Hlog|].
              apply log_extends_app, poll_event_giving_up.
           ++ intros _ _. now apply (Hpow e).
           ++ discriminate.
        -- destruct (after_retry_frame P e (push (request_failed e) w1))
             as (Ha2 & Hd2 & Hat2 & Hl2).
           assert (Hlog2 : log_extends (poll_event P (plant_id (api w))) (log w)
                             (log (fst (after_retry P e
                                          (push (request_failed e) w1))))).
           { rewrite Hl2. eapply log_extends_trans; [exact Hlog|].
             apply (log_extends_app _ (retry_action e :: request_failed e)),
               poll_event_retry. }
           destruct (after_retry P e (push (request_failed e) w1))
             as [w2 [[f|e']|]]; cbn [fst snd push api display attempts] in *.
           ++ destruct (IH w2) as (Hd' & Hp' & Hc' & Hat' & Hlog' & Hpow' & Hh').
              rewrite Ha2, Hd2, Hat2 in *.
              repeat split; try congruence; [lia | | | ].
              ** eapply log_extends_trans; [exact Hlog2|].
                 rewrite <- Hp. exact Hlog'.
              ** intros e' He'. rewrite (Hpow' e' He'). now apply (Hpow e).
              ** intro Hh. rewrite (Hh' Hh). now apply (Hpow e).
           ++ rewrite Ha2, Hd2, Hat2.
              repeat split; try assumption; try lia.
              ** intros _ _. now apply (Hpow e).
              ** discriminate.
           ++ rewrite Ha2, Hd2, Hat2.
              repeat split; try assumption; try lia.
              ** discriminate.
              ** intros _. now apply (Hpow e).
      * cbn. repeat split; try assumption; [lia | | discriminate].
        intros _ _. exact (Hpow e eq_refl).
Qed.

(** [rest] is reached only through attempts that [return]ed, so a call that
    returns has stored the truncated reading of its last attempt. *)
Lemma get_plant_info_loop_ok P (range : list nat) :
  forall w w',
    get_plant_info_loop P range w = (w', Ok tt) ->
    Forall (fun i => (i < 3)%nat) range
    \/ exists r body reading n,
         attempts w' = S (pred (attempts w'))
         /\ is_connected (network P (pred (attempts w'))) = true
         /\ http_reply (network P (pred (attempts w'))) = Ok r
         /\ status_code r = 200
         /\ json_body r = Ok body
         /\ power_field body = Ok reading
         /\ int_float P reading = Ok n
         /\ power (api w') = Some n.
Proof.
  induction range as [|i rest IH]; intros w w' H.
  - left. constructor.
  - rewrite get_plant_info_loop_cons in H.
    pose proof (get_plant_info_try_ok P i w) as Hok.
    pose proof (attempts_get_plant_info_try P i w) as Hat.
    destruct (get_plant_info_try P i w) as [w1 [[f|e]|]]; cbn [fst snd] in *;
      [| |discriminate].
    + destruct (Hok f eq_refl) as [-> (r & body & reading & n & Hx)].
      cbn in H. inversion H. subst w'. right.
      exists r, body, reading, n. rewrite Hat. cbn [pred]. tauto.
    + destruct (caught_by_retry e); [|discriminate].
      destruct (3 <=? i)%nat eqn:Hi; [discriminate|].
      destruct (after_retry P e (push (request_failed e) w1))
        as [w2 [[f|e']|]]; try discriminate.
      apply IH in H. destruct H as [H|H]; [left | now right].
      constructor; [now apply Nat.leb_gt | exact H].
Qed.

(** ** The polling step of the orchestration loop *)

Lemma show_readout_placeholder_eq (w : world) :
  show_readout_placeholder w
  = (mkWorld (api w)
       (mkDisplay (minimum_power_threshold (display w)) (title_text (display w))
          (title_color (display w)) ". . ." (readout_color (display w)))
       (EvReadout ". . ." :: log w) (attempts w) (wifi w),
     Ok tt).
Proof. reflexivity. Qed.

Lemma inner_except_eq (e : exn) (w : world) :
  inner_except e w
  = (push [EvGcCollect;
           EvPrint ["Seems like we might not be logged in. Logging in again."];
           EvFill 1] w,
     Ok LoggingIn).
Proof. reflexivity. Qed.

(** The handlers of the outer [try] change neither the session nor the
    display, and show nothing, however they end. *)
Lemma outer_except_frame P (e : exn) (w : world) :
  api (fst (outer_except P e w)) = api w
  /\ display (fst (outer_except P e w)) = display w
  /\ attempts (fst (outer_except P e w)) = attempts w
  /\ log_extends (fun ev => is_readout ev = false) (log w)
       (log (fst (outer_except P e w))).
Proof.
  unfold outer_except.
  destruct (is_NotLoggedIn e); [|destruct (is_SerialLoginErrors e)];
    unfold_m; cbn -[reset];
    try (destruct (reset _ _ _ _ _) as [[r [[]|e']]|]; cbn);
    repeat split; repeat constructor.
Qed.

(** A polling step whose call of [get_plant_info] raises [e] goes to the
    inner handler when [e] is a [NotLoggedIn], and to the outer handlers
    otherwise; [update_display] is not reached. *)
Lemma main_step_polling_raise P u pw cfg (w w1 : world) (e : exn) :
  get_plant_info P (fst (show_readout_placeholder w)) = (w1, Raise e) ->
  main_step P u pw cfg Polling w
  = if is_NotLoggedIn e then inner_except e w1 else outer_except P e w1.
Proof.
  intro H. rewrite show_readout_placeholder_eq in H. cbn [fst] in H.
  cbn [main_step]. unfold try_except, poll_once.
  unfold bind at 1. unfold bind at 1.
  rewrite show_readout_placeholder_eq. unfold bind at 1. rewrite H.
  destruct (is_NotLoggedIn e); [reflexivity|].
  destruct (outer_except P e w1) as [w2 [[s|e']|]]; reflexivity.
Qed.

(** C7. An attempt of [get_plant_info] whose reply has a status code other
    than 200 makes the call raise [NotLoggedIn] there and then, whichever
    attempt it is, with no further attempt; the polling step of the
    orchestration loop then stands at [LoggingIn], as it does whenever
    [get_plant_info] raises a [NotLoggedIn]. *)
Theorem poll_status_not_200_logs_in_again :
  (forall P i rest w r,
      is_connected (network P (attempts w)) = true ->
      http_reply (network P (attempts w)) = Ok r ->
      status_code r <> 200 ->
      exists w',
        get_plant_info_loop P (i :: rest) w
        = (w', Raise (mkExn NotLoggedIn "Apparently not logged in"))
        /\ attempts w' = S (attempts w))
  /\ (forall P u pw cfg w r,
        is_connected (network P (attempts w)) = true ->
        http_reply (network P (attempts w)) = Ok r ->
        status_code r <> 200 ->
        exists w',
          main_step P u pw cfg Polling w = (w', Ok LoggingIn)
          /\ attempts w' = S (attempts w))
  /\ (forall P u pw cfg w w1 e,
        get_plant_info P (fst (show_readout_placeholder w)) = (w1, Raise e) ->
        is_NotLoggedIn e = true ->
        main_step P u pw cfg Polling w
        = (push [EvGcCollect;
                 EvPrint ["Seems like we might not be logged in. Logging in again."];
                 EvFill 1] w1,
           Ok LoggingIn)).
Proof.
  assert (Hloop : forall P i rest w r,
             is_connected (network P (attempts w)) = true ->
             http_reply (network P (attempts w)) = Ok r ->
             status_code r <> 200 ->
             get_plant_info_loop P (i :: rest) w
             = (fst (get_plant_info_try P i w),
                Raise (mkExn NotLoggedIn "Apparently not logged in"))).
  { intros P i rest w r Hc Hr Hs. rewrite get_plant_info_loop_cons.
    pose proof (get_plant_info_try_not_200 P i w r Hc Hr Hs) as Hraise.
    destruct (get_plant_info_try P i w) as [w1 res]. cbn [fst snd] in *.
    now subst res. }
  split; [|split].
  - intros P i rest w r Hc Hr Hs. eexists. split; [now apply (Hloop P i rest w r)|].
    apply attempts_get_plant_info_try.
  - intros P u pw cfg w r Hc Hr Hs.
    pose proof (Hloop P 1%nat [2; 3]%nat (fst (show_readout_placeholder w)) r
                  Hc Hr Hs) as Hpoll.
    change (get_plant_info_loop P [1; 2; 3]%nat) with (get_plant_info P)
      in Hpoll.
    eexists. split.
    + rewrite (main_step_polling_raise P u pw cfg w _ _ Hpoll). reflexivity.
    + cbn [push attempts fst]. now rewrite attempts_get_plant_info_try.
  - intros P u pw cfg w w1 e H He.
    rewrite (main_step_polling_raise P u pw cfg w w1 e H), He.
    apply inner_except_eq.
Qed.

Lemma poll_status_not_200_logs_in_again_witness :
  (exists w',
      get_plant_info_loop session_expired [1; 2; 3]%nat world_init
      = (w', Raise (mkExn NotLoggedIn "Apparently not logged in"))
      /\ attempts w' = 1%nat)
  /\ (exists w',
        main_step session_expired "user" "password" PNone Polling world_init
        = (w', Ok LoggingIn)
        /\ attempts w' = 1%nat)
  /\ main_step three_failures "user" "password" PNone Polling world_init
     = (push [EvGcCollect;
              EvPrint ["Seems like we might not be logged in. Logging in again."];
              EvFill 1]
          (fst (get_plant_info three_failures
                  (fst (show_readout_placeholder world_init)))),
        Ok LoggingIn).
Proof.
  split; [|split].
  - apply (proj1 poll_status_not_200_logs_in_again session_expired 1%nat
             [2; 3]%nat world_init (mkResponse 401 (Ok PNone) []));
      [reflexivity | reflexivity | discriminate].
  - apply (proj1 (proj2 poll_status_not_200_logs_in_again) session_expired
             "user" "password" PNone world_init (mkResponse 401 (Ok PNone) []));
      [reflexivity | reflexivity | discriminate].
  - apply (proj2 (proj2 poll_status_not_200_logs_in_again) three_failures
             "user" "password" PNone world_init
             (fst (get_plant_info three_failures
                     (fst (show_readout_placeholder world_init))))
             (mkExn NotLoggedIn "Serial errors. Trying login again."));
      vm_compute; reflexivity.
Defined.

(** C10. An attempt of [get_plant_info] that raises leaves [self.power] as
    it was, and so does a call that raises; a polling step whose call of
    [get_plant_info] raises keeps the stored power and the display as the
    placeholder left it, and assigns nothing to the readout after the
    placeholder. *)
Theorem failed_poll_keeps_last_reading :
  (forall P i w e,
      snd (get_plant_info_try P i w) = Raise e ->
      power (api (fst (get_plant_info_try P i w))) = power (api w))
  /\ (forall P w e,
        snd (get_plant_info P w) = Raise e ->
        power (api (fst (get_plant_info P w))) = power (api w))
  /\ (forall P u pw cfg w e,
        snd (get_plant_info P (fst (show_readout_placeholder w))) = Raise e ->
        power (api (fst (main_step P u pw cfg Polling w))) = power (api w)
        /\ display (fst (main_step P u pw cfg Polling w))
           = display (fst (show_readout_placeholder w))
        /\ log_extends (fun ev => is_readout ev = false)
             (EvReadout ". . ." :: log w)
             (log (fst (main_step P u pw cfg Polling w)))).
Proof.
  split; [|split].
  - intros P i w e. apply get_plant_info_try_frame.
  - intros P w e. apply get_plant_info_loop_frame.
  - intros P u pw cfg w e He.
    destruct (get_plant_info_loop_frame P (py_range 1 4 1)
                (fst (show_readout_placeholder w)))
      as (Hd & _ & _ & _ & Hlog & Hpow & _).
    fold (get_plant_info P) in Hd, Hlog, Hpow.
    specialize (Hpow e He).
    rewrite (main_step_polling_raise P u pw cfg w
               (fst (get_plant_info P (fst (show_readout_placeholder w)))) e).
    2:{ rewrite <- He. apply surjective_pairing. }
    assert (Hlog' : log_extends (fun ev => is_readout ev = false)
                      (EvReadout ". . ." :: log w)
                      (log (fst (get_plant_info P
                                   (fst (show_readout_placeholder w)))))).
    { eapply log_extends_weaken; [|exact Hlog].
      intros [] Hev; try reflexivity; contradiction. }
    destruct (is_NotLoggedIn e).
    + rewrite inner_except_eq. cbn [fst push api display log].
      repeat split; try assumption.
      eapply log_extends_trans; [exact Hlog'|].
      apply log_extends_app. repeat constructor.
    + destruct (outer_except_frame P e
                  (fst (get_plant_info P (fst (show_readout_placeholder w)))))
        as (Ha & Hd' & _ & Hl).
      rewrite Ha, Hd'. repeat split; try assumption.
      eapply log_extends_trans; [exact Hlog' | exact Hl].
Qed.

(** ** The stored power reading *)

(** [int] of a float is the truncation towards zero of the number the float
    stands for. *)
Lemma py_int_of_float_truncates (f : spec_float) (n : Z) :
  py_int_of_float f = Ok n ->
  exists q : Q, float_to_Q f = Some q /\ n = truncate_toward_zero q.
Proof.
  destruct f as [s|s| |s m e]; cbn [py_int_of_float float_to_Q]; intro H;
    inversion H; clear H.
  - exists 0%Q. split; reflexivity.
  - exists (float_value s m e). split; [reflexivity|].
    unfold float_value, truncate_toward_zero.
    destruct (0 <=? e) eqn:He.
    + apply Z.leb_le in He.
      assert (Hpos : 0 < Z.pos m * 2 ^ e)
        by (apply Z.mul_pos_pos; [lia | now apply Z.pow_pos_nonneg]).
      destruct s.
      * replace (Qle_bool 0 (- inject_Z (Z.pos m * 2 ^ e))) with false.
        -- unfold Qceiling. rewrite Qopp_involutive. now rewrite Qfloor_Z.
        -- symmetry. apply not_true_is_false. rewrite Qle_bool_iff.
           unfold Qle. cbn [Qnum Qden Qopp inject_Z]. lia.
      * replace (Qle_bool 0 (inject_Z (Z.pos m * 2 ^ e))) with true.
        -- now rewrite Qfloor_Z.
        -- symmetry. rewrite Qle_bool_iff.
           unfold Qle. cbn [Qnum Qden Qopp inject_Z]. lia.
    + apply Z.leb_gt in He.
      assert (Hden : Z.pos (2 ^ Z.to_pos (- e)) = 2 ^ (- e)).
      { rewrite Pos2Z.inj_pow. f_equal. apply Z2Pos.id. lia. }
      destruct s.
      * replace (Qle_bool 0 (- (Z.pos m # 2 ^ Z.to_pos (- e)))) with false.
        -- unfold Qceiling. rewrite Qopp_involutive. unfold Qfloor.
           now rewrite Hden.
        -- symmetry. apply not_true_is_false. rewrite Qle_bool_iff.
           unfold Qle. cbn [Qnum Qden Qopp inject_Z]. lia.
      * replace (Qle_bool 0 (Z.pos m # 2 ^ Z.to_pos (- e))) with true.
        -- unfold Qfloor. now rewrite Hden.
        -- symmetry. rewrite Qle_bool_iff.
           unfold Qle. cbn [Qnum Qden Qopp inject_Z]. lia.
Qed.

(** What an attempt of [get_plant_info] with a decoded reply of status
    200 ends in: the exception of reading the power field or of
    [int(float(...))], or [return]. *)
Lemma get_plant_info_try_reading P i w r body :
  is_connected (network P (attempts w)) = true ->
  http_reply (network P (attempts w)) = Ok r ->
  status_code r = 200 ->
  json_body r = Ok body ->
  snd (get_plant_info_try P i w)
  = match power_field body with
    | Raise e => Done (Raise e)
    | Ok reading =>
        match int_float P reading with
        | Raise e => Done (Raise e)
        | Ok _ => Done (Ok Returned)
        end
    end.
Proof.
  intros Hc Hr Hs Hb.
  unfold get_plant_info_try, power_field, int_float. unfold_m. cbn.
  rewrite Hc, Hr. cbn. rewrite Hs. cbn. rewrite Hb.
  destruct (getitem_key body "deviceList") as [dl|e]; cbn; [|reflexivity].
  destruct (getitem_idx dl 0) as [dev|e]; cbn; [|reflexivity].
  destruct (getitem_key dev "power") as [reading|e]; cbn; [|reflexivity].
  destruct (py_float P reading) as [f|e]; cbn; [|reflexivity].
  destruct (py_int_of_float f) as [n|e]; cbn; reflexivity.
Qed.

(** A power field that cannot be read raises [KeyError], [IndexError] or
    [TypeError], none of which the [except] clause catches. *)
Lemma power_field_uncaught (body : pyval) (e : exn) :
  power_field body = Raise e -> caught_by_retry e = false.
Proof.
  unfold power_field.
  destruct (getitem_key body "deviceList") as [dl|e1] eqn:H1.
  - destruct (getitem_idx dl 0) as [dev|e2] eqn:H2.
    + apply getitem_key_uncaught.
    + intro H. inversion H. subst e2. eapply getitem_idx_uncaught, H2.
  - intro H. inversion H. subst e1. eapply getitem_key_uncaught, H1.
Qed.

(** C8 (the code at the failing inputs). A call of [get_plant_info] that
    returns has stored [int(float(current_reading))] for the power field of
    its last reply, truncated towards zero (for 2.75 that is 2, where
    rounding and ceiling give 3; for -2.75 it is -2), and a power field
    that is a string [float] cannot parse raises [ValueError], which is
    retried. But a reply whose power field is missing (no [deviceList], an
    empty list, no [power] entry) raises [KeyError], [IndexError] or
    [TypeError], and one whose power field is [null], a list or an object
    raises [TypeError]: the [except] clause catches none of these, so the
    call ends after that one attempt with the stored power unchanged, and
    the polling step prints "Unknown exception." and calls [exit(1)]. *)
Theorem missing_power_field_ends_the_program :
  (forall P w w',
      get_plant_info P w = (w', Ok tt) ->
      exists r body reading f q,
        attempts w' = S (pred (attempts w'))
        /\ http_reply (network P (pred (attempts w'))) = Ok r
        /\ json_body r = Ok body
        /\ power_field body = Ok reading
        /\ py_float P reading = Ok f
        /\ float_to_Q f = Some q
        /\ power (api w') = Some (truncate_toward_zero q))
  /\ (forall P i w r body s,
        is_connected (network P (attempts w)) = true ->
        http_reply (network P (attempts w)) = Ok r ->
        status_code r = 200 ->
        json_body r = Ok body ->
        power_field body = Ok (PStr s) ->
        float_of_str P s = None ->
        snd (get_plant_info_try P i w)
        = Raise (mkExn ValueError "invalid syntax for number")
        /\ caught_by_retry (mkExn ValueError "invalid syntax for number") = true
        /\ power (api (fst (get_plant_info_try P i w))) = power (api w))
  /\ (forall P i rest w r body e,
        is_connected (network P (attempts w)) = true ->
        http_reply (network P (attempts w)) = Ok r ->
        status_code r = 200 ->
        json_body r = Ok body ->
        power_field body = Raise e
        \/ (exists reading,
               power_field body = Ok reading
               /\ py_float P reading = Raise e
               /\ match reading with
                  | PNone | PList _ | PDict _ => True
                  | _ => False
                  end) ->
        caught_by_retry e = false
        /\ is_NotLoggedIn e = false
        /\ is_SerialLoginErrors e = false
        /\ get_plant_info_loop P (i :: rest) w
           = (fst (get_plant_info_try P i w), Raise e)
        /\ attempts (fst (get_plant_info_try P i w)) = S (attempts w)
        /\ power (api (fst (get_plant_info_try P i w))) = power (api w))
  /\ (forall P u pw cfg w r body e,
        is_connected (network P (attempts w)) = true ->
        http_reply (network P (attempts w)) = Ok r ->
        status_code r = 200 ->
        json_body r = Ok body ->
        power_field body = Raise e
        \/ (exists reading,
               power_field body = Ok reading
               /\ py_float P reading = Raise e
               /\ match reading with
                  | PNone | PList _ | PDict _ => True
                  | _ => False
                  end) ->
        exists w1,
          get_plant_info P (fst (show_readout_placeholder w)) = (w1, Raise e)
          /\ attempts w1 = S (attempts w)
          /\ power (api w1) = power (api w)
          /\ main_step P u pw cfg Polling w
             = (push [EvExit 1; EvPrint ["Unknown exception."]] w1,
                Ok (Exited 1)))
  /\ (py_int_of_float (S754_finite false 11 (-2)) = Ok 2
      /\ float_to_Q (S754_finite false 11 (-2)) = Some (11 # 4)
      /\ round_to_nearest (11 # 4) = 3
      /\ Qceiling (11 # 4) = 3
      /\ py_int_of_float (S754_finite true 11 (-2)) = Ok (-2)
      /\ Qfloor (- (11 # 4)) = -3).
Proof.
  assert (Hloop : forall P i rest w r body e,
             is_connected (network P (attempts w)) = true ->
             http_reply (network P (attempts w)) = Ok r ->
             status_code r = 200 ->
             json_body r = Ok body ->
             power_field body = Raise e
             \/ (exists reading,
                    power_field body = Ok reading
                    /\ py_float P reading = Raise e
                    /\ match reading with
                       | PNone | PList _ | PDict _ => True
                       | _ => False
                       end) ->
             caught_by_retry e = false
             /\ is_NotLoggedIn e = false
             /\ is_SerialLoginErrors e = false
             /\ get_plant_info_loop P (i :: rest) w
                = (fst (get_plant_info_try P i w), Raise e)
             /\ attempts (fst (get_plant_info_try P i w)) = S (attempts w)
             /\ power (api (fst (get_plant_info_try P i w))) = power (api w)).
  { intros P i rest w r body e Hc Hr Hs Hb Hbad.
    pose proof (get_plant_info_try_reading P i w r body Hc Hr Hs Hb) as Htry.
    assert (Hcls : caught_by_retry e = false
                   /\ is_NotLoggedIn e = false
                   /\ is_SerialLoginErrors e = false
                   /\ snd (get_plant_info_try P i w) = Raise e).
    { destruct Hbad as [Hp | (reading & Hp & Hf & Hkind)].
      - rewrite Hp in Htry. unfold power_field in Hp.
        assert (Hk : forall v k e0, getitem_key v k = Raise e0 ->
                       caught_by_retry e0 = false /\ is_NotLoggedIn e0 = false
                       /\ is_SerialLoginErrors e0 = false).
        { intros v k e0. unfold getitem_key.
          destruct v; try destruct (dict_get d k); intro H; inversion H;
            repeat split. }
        assert (Hi : forall v e0, getitem_idx v 0 = Raise e0 ->
                       caught_by_retry e0 = false /\ is_NotLoggedIn e0 = false
                       /\ is_SerialLoginErrors e0 = false).
        { intros v e0. unfold getitem_idx.
          destruct v; try destruct (list_index l 0);
            try destruct (str_index s 0); intro H; inversion H; repeat split. }
        destruct (getitem_key body "deviceList") as [dl|e1] eqn:H1.
        + destruct (getitem_idx dl 0) as [dev|e2] eqn:H2.
          * destruct (Hk _ _ _ Hp) as (? & ? & ?). auto.
          * inversion Hp. subst e2. destruct (Hi _ _ H2) as (? & ? & ?). auto.
        + inversion Hp. subst e1. destruct (Hk _ _ _ H1) as (? & ? & ?). auto.
      - rewrite Hp in Htry. unfold int_float in Htry. rewrite Hf in Htry.
        destruct reading; try contradiction; cbn in Hf; inversion Hf; subst e;
          repeat split; exact Htry. }
    destruct Hcls as (Hcaught & Hn & Hsl & Hraise).
    repeat split; try assumption.
    - rewrite get_plant_info_loop_cons.
      destruct (get_plant_info_try P i w) as [w1 res]. cbn [fst snd] in *.
      rewrite Hraise, Hcaught. reflexivity.
    - apply attempts_get_plant_info_try.
    - now apply (proj2 (proj2 (proj2 (proj2 (proj2
                   (get_plant_info_try_frame P i w))))) e). }
  split; [|split; [|split; [exact Hloop | split]]].
  - intros P w w' H. unfold get_plant_info in H.
    apply get_plant_info_loop_ok in H.
    destruct H as [H | (r & body & reading & n & Hat & _ & Hr & _ & Hb & Hp & Hn & Hpow)].
    + exfalso. change (py_range 1 4 1) with [1; 2; 3]%nat in H.
      inversion H as [|? ? _ H2]. inversion H2 as [|? ? _ H3].
      inversion H3 as [|? ? Hlt _]. lia.
    + unfold int_float in Hn.
      destruct (py_float P reading) as [f|e] eqn:Hf; [|discriminate].
      destruct (py_int_of_float_truncates f n Hn) as (q & Hq & ->).
      exists r, body, reading, f, q. tauto.
  - intros P i w r body s Hc Hr Hs Hb Hp Hf.
    assert (He : get_plant_info_transport_error P (network P (attempts w))
                 = Some (mkExn ValueError "invalid syntax for number")).
    { unfold get_plant_info_transport_error.
      rewrite Hc, Hr, Hs, Hb, Hp. cbn. unfold int_float. cbn. now rewrite Hf. }
    rewrite <- (caught_get_plant_info_try P i w) in He.
    apply caught_exn_Some in He. destruct He as [He _].
    split; [exact He | split; [reflexivity|]].
    now apply (proj2 (proj2 (proj2 (proj2 (proj2
                 (get_plant_info_try_frame P i w)))))
                 (mkExn ValueError "invalid syntax for number")).
  - intros P u pw cfg w r body e Hc Hr Hs Hb Hbad.
    destruct (Hloop P 1%nat [2; 3]%nat (fst (show_readout_placeholder w))
                r body e Hc Hr Hs Hb Hbad)
      as (_ & Hn & Hsl & Hrun & Hat & Hpow).
    change (get_plant_info_loop P [1; 2; 3]%nat) with (get_plant_info P)
      in Hrun.
    eexists. split; [exact Hrun|]. split; [exact Hat|]. split; [exact Hpow|].
    rewrite (main_step_polling_raise P u pw cfg w _ _ Hrun), Hn.
    unfold outer_except. rewrite Hn, Hsl. reflexivity.
  - run_all.
Qed.

Lemma missing_power_field_ends_the_program_witness :
  (exists r body reading f q,
      attempts (fst (get_plant_info reading_2_75 world_init))
      = S (pred (attempts (fst (get_plant_info reading_2_75 world_init))))
      /\ http_reply
           (network reading_2_75
              (pred (attempts (fst (get_plant_info reading_2_75 world_init)))))
         = Ok r
      /\ json_body r = Ok body
      /\ power_field body = Ok reading
      /\ py_float reading_2_75 reading = Ok f
      /\ float_to_Q f = Some q
      /\ power (api (fst (get_plant_info reading_2_75 world_init)))
         = Some (truncate_toward_zero q))
  /\ (snd (get_plant_info_try reading_garbled 1 world_init)
      = Raise (mkExn ValueError "invalid syntax for number")
      /\ caught_by_retry (mkExn ValueError "invalid syntax for number") = true
      /\ power (api (fst (get_plant_info_try reading_garbled 1 world_init)))
         = power (api world_init))
  /\ (caught_by_retry (mkExn IndexError "list index out of range") = false
      /\ is_NotLoggedIn (mkExn IndexError "list index out of range") = false
      /\ is_SerialLoginErrors (mkExn IndexError "list index out of range")
         = false
      /\ get_plant_info_loop reading_missing [1; 2; 3]%nat world_with_reading
         = (fst (get_plant_info_try reading_missing 1 world_with_reading),
            Raise (mkExn IndexError "list index out of range"))
      /\ attempts (fst (get_plant_info_try reading_missing 1
                          world_with_reading))
         = S (attempts world_with_reading)
      /\ power (api (fst (get_plant_info_try reading_missing 1
                            world_with_reading)))
         = power (api world_with_reading))
  /\ (exists w1,
        get_plant_info reading_null
          (fst (show_readout_placeholder world_with_reading))
        = (w1, Raise (mkExn TypeError "can't convert to float"))
        /\ attempts w1 = S (attempts world_with_reading)
        /\ power (api w1) = power (api world_with_reading)
        /\ main_step reading_null "user" "password" PNone Polling
             world_with_reading
           = (push [EvExit 1; EvPrint ["Unknown exception."]] w1,
              Ok (Exited 1))).
Proof.
  split; [|split; [|split]].
  - apply (proj1 missing_power_field_ends_the_program reading_2_75 world_init).
    vm_compute. reflexivity.
  - apply (proj1 (proj2 missing_power_field_ends_the_program) reading_garbled
             1%nat world_init
             (mkResponse 200
                (Ok (PDict [("deviceList",
                             PList [PDict [("power", PStr "n/a")]])])) [])
             (PDict [("deviceList", PList [PDict [("power", PStr "n/a")]])])
             "n/a"); reflexivity.
  - apply (proj1 (proj2 (proj2 missing_power_field_ends_the_program))
             reading_missing 1%nat [2; 3]%nat world_with_reading
             (mkResponse 200 (Ok (PDict [("deviceList", PList [])])) [])
             (PDict [("deviceList", PList [])])
             (mkExn IndexError "list index out of range"));
      try reflexivity.
    left. reflexivity.
  - apply (proj1 (proj2 (proj2 (proj2 missing_power_field_ends_the_program)))
             reading_null "user" "password" PNone world_with_reading
             (mkResponse 200
                (Ok (PDict [("deviceList", PList [PDict [("power", PNone)]])]))
                [])
             (PDict [("deviceList", PList [PDict [("power", PNone)]])])
             (mkExn TypeError "can't convert to float"));
      try reflexivity.
    right. exists PNone. repeat split.
Defined.

(** The failing inputs of C8, run: with an empty device list the attempt
    raises [IndexError], and with a power field of [null] it raises
    [TypeError]; neither is one of the caught classes, the call ends after
    that one attempt, and the polling step ends in [exit(1)] without a
    retry. *)
Lemma missing_power_field_is_not_retried :
  http_reply (network reading_missing 0)
  = Ok (mkResponse 200 (Ok (PDict [("deviceList", PList [])])) [])
  /\ power_field (PDict [("deviceList", PList [])])
     = Raise (mkExn IndexError "list index out of range")
  /\ get_plant_info_transport_error reading_missing (network reading_missing 0)
     = None
  /\ snd (get_plant_info reading_missing world_init)
     = Raise (mkExn IndexError "list index out of range")
  /\ caught_by_retry (mkExn IndexError "list index out of range") = false
  /\ attempts (fst (get_plant_info reading_missing world_init)) = 1%nat
  /\ snd (main_step reading_missing "user" "password" PNone Polling world_init)
     = Ok (Exited 1)
  /\ http_reply (network reading_null 0)
     = Ok (mkResponse 200
             (Ok (PDict [("deviceList", PList [PDict [("power", PNone)]])]))
             [])
  /\ snd (get_plant_info reading_null world_init)
     = Raise (mkExn TypeError "can't convert to float")
  /\ caught_by_retry (mkExn TypeError "can't convert to float") = false
  /\ attempts (fst (get_plant_info reading_null world_init)) = 1%nat
  /\ snd (main_step reading_null "user" "password" PNone Polling world_init)
     = Ok (Exited 1)
  /\ count_events is_sleep
       (log (fst (main_step reading_null "user" "password" PNone Polling
                    world_init)))
     = 0%nat.
Proof. run_all. Qed.

Lemma failed_poll_keeps_last_reading_witness :
  power (api (fst (get_plant_info_try three_failures 1 world_with_reading)))
  = Some 1523
  /\ power (api (fst (get_plant_info three_failures world_with_reading)))
     = Some 1523
  /\ (power (api (fst (main_step three_failures "user" "password" PNone Polling
                         world_with_reading)))
      = Some 1523
      /\ display (fst (main_step three_failures "user" "password" PNone Polling
                         world_with_reading))
         = display (fst (show_readout_placeholder world_with_reading))
      /\ log_extends (fun ev => is_readout ev = false)
           (EvReadout ". . ." :: log world_with_reading)
           (log (fst (main_step three_failures "user" "password" PNone Polling
                        world_with_reading)))).
Proof.
  split; [|split].
  - apply (proj1 failed_poll_keeps_last_reading three_failures 1%nat
             world_with_reading (mkExn RuntimeError "timed out")).
    vm_compute. reflexivity.
  - apply (proj1 (proj2 failed_poll_keeps_last_reading) three_failures
             world_with_reading
             (mkExn NotLoggedIn "Serial errors. Trying login again.")).
    vm_compute. reflexivity.
  - apply (proj2 (proj2 failed_poll_keeps_last_reading) three_failures
             "user" "password" PNone world_with_reading
             (mkExn NotLoggedIn "Serial errors. Trying login again.")).
    vm_compute. reflexivity.
Defined.

(** ** The plant id of the session *)

(** One iteration of the loop of [login], spelled out. *)
Lemma login_loop_cons P u pw (i : nat) (rest : list nat) (w : world) :
  login_loop P u pw (i :: rest) w
  = match login_try P u pw i w with
    | (w1, Done (Ok Returned)) => (w1, Ok tt)
    | (w1, Done (Ok Next)) => login_loop P u pw rest w1
    | (w1, Done (Raise e)) =>
        if caught_by_retry e then
          if (2 <=? i)%nat then
            (push (request_failed e) w1,
             Raise (mkExn SerialLoginErrors
                      "Serial login errors. Let's try something else!"))
          else
            match after_retry P e (push (request_failed e) w1) with
            | (w2, Done (Ok _)) => login_loop P u pw rest w2
            | (w2, Done (Raise e')) => (w2, Raise e')
            | (w2, Hang) => (w2, Hang)
            end
        else (w1, Raise e)
    | (w1, Hang) => (w1, Hang)
    end.
Proof.
  cbn [login_loop]. unfold bind, try_except.
  destruct (login_try P u pw i w) as [w1 [[[|]|e]|]]; try reflexivity.
  destruct (caught_by_retry e); [|reflexivity].
  rewrite login_except_eq.
  destruct (2 <=? i)%nat; [reflexivity|].
  unfold after_retry.
  destruct (retry_radio P e _) as [[r [[]|e']]|]; reflexivity.
Qed.

(** A plant id the session already has survives the loop of [login]. *)
Lemma login_loop_keeps_plant_id P u pw (range : list nat) :
  forall w,
    is_None (plant_id (api w)) = false ->
    plant_id (api (fst (login_loop P u pw range w))) = plant_id (api w).
Proof.
  induction range as [|i rest IH]; intros w Hid; [reflexivity|].
  rewrite login_loop_cons.
  destruct (login_try_frame P u pw i w) as (_ & _ & _ & _ & _ & Hkeep & _).
  specialize (Hkeep Hid).
  pose proof (login_try_ok P u pw i w) as Hok.
  destruct (login_try P u pw i w) as [w1 [[f|e]|]]; cbn [fst snd] in *;
    [| |exact Hkeep].
  - destruct (Hok f eq_refl) as [-> _]. exact Hkeep.
  - destruct (caught_by_retry e); [|exact Hkeep].
    destruct (2 <=? i)%nat; [exact Hkeep|].
    destruct (after_retry_frame P e (push (request_failed e) w1)) as (Ha & _).
    destruct (after_retry P e (push (request_failed e) w1))
      as [w2 [[f|e']|]]; cbn [fst push api] in *;
      [|now rewrite Ha|now rewrite Ha].
    rewrite IH; rewrite Ha; [exact Hkeep | now rewrite Hkeep].
Qed.

(** A call of the loop of [login] that returns, on a session without a
    plant id, has taken the id from the reply to its last attempt. *)
Lemma login_loop_ok P u pw (range : list nat) :
  forall w w',
    is_None (plant_id (api w)) = true ->
    login_loop P u pw range w = (w', Ok tt) ->
    Forall (fun i => (i < 2)%nat) range
    \/ exists r body,
         attempts w' = S (pred (attempts w'))
         /\ http_reply (network P (pred (attempts w'))) = Ok r
         /\ json_body r = Ok body
         /\ first_plant_id body = Ok (plant_id (api w')).
Proof.
  induction range as [|i rest IH]; intros w w' Hid H; [left; constructor|].
  rewrite login_loop_cons in H.
  destruct (login_try_frame P u pw i w) as (Hat & _ & _ & _ & _ & _ & Hsame).
  pose proof (login_try_ok P u pw i w) as Hok.
  destruct (login_try P u pw i w) as [w1 [[f|e]|]] eqn:Htry; cbn [fst snd] in *;
    [| |discriminate].
  - destruct (Hok f eq_refl)
      as [-> (r & body & s & c & _ & Hr & Hb & _ & _ & _ & _ & Hfirst)].
    inversion H. subst w'. right. exists r, body.
    rewrite Hat. cbn [pred]. auto.
  - destruct (caught_by_retry e) eqn:Hc; [|discriminate].
    destruct (2 <=? i)%nat eqn:Hi; [discriminate|].
    destruct (after_retry_frame P e (push (request_failed e) w1)) as (Ha & _).
    destruct (after_retry P e (push (request_failed e) w1))
      as [w2 [[f|e']|]]; try discriminate.
    cbn [fst push api] in Ha.
    apply IH in H.
    + destruct H as [H|H]; [left | now right].
      constructor; [now apply Nat.leb_gt | exact H].
    + rewrite Ha, (Hsame e); [exact Hid|].
      cbn. now rewrite Hc.
Qed.

Lemma contains_plant_id P (pid : pyval) :
  contains (plant_info_url P pid) ("plantId=" ++ py_str P pid).
Proof.
  exists (get_url "newTwoPlantAPI.do" ++ "?op=getAllDeviceList&")%string,
    "&pageNum=1&pageSize=1".
  unfold plant_info_url. rewrite !append_assoc. reflexivity.
Qed.

Lemma login_event_retry e :
  Forall login_event (retry_action e :: request_failed e).
Proof.
  unfold retry_action, request_failed.
  destruct (String.eqb (exn_str e) "WiFi not connected");
    destruct (String.eqb (exn_str e) "Error response to command");
    repeat constructor.
Qed.

(** The loop of [login] adds [login_event]s only. *)
Lemma login_loop_log P u pw (range : list nat) :
  forall w,
    log_extends login_event (log w) (log (fst (login_loop P u pw range w))).
Proof.
  induction range as [|i rest IH]; intro w; [constructor|].
  rewrite login_loop_cons.
  destruct (login_try_frame P u pw i w) as (_ & _ & _ & _ & Hlog & _).
  pose proof (login_try_ok P u pw i w) as Hok.
  destruct (login_try P u pw i w) as [w1 [[f|e]|]]; cbn [fst snd] in *;
    [| |exact Hlog].
  - destruct (Hok f eq_refl) as [-> _]. exact Hlog.
  - destruct (caught_by_retry e); [|exact Hlog].
    destruct (2 <=? i)%nat; cbn [fst push log].
    + eapply log_extends_trans; [exact Hlog|].
      apply log_extends_app. repeat constructor.
    + destruct (after_retry_frame P e (push (request_failed e) w1))
        as (_ & _ & _ & Hl).
      assert (Hlog2 : log_extends login_event (log w)
                        (log (fst (after_retry P e
                                     (push (request_failed e) w1))))).
      { rewrite Hl. eapply log_extends_trans; [exact Hlog|].
        apply (log_extends_app _ (retry_action e :: request_failed e)),
          login_event_retry. }
      destruct (after_retry P e (push (request_failed e) w1))
        as [w2 [[f|e']|]]; cbn [fst] in *; try exact Hlog2.
      eapply log_extends_trans; [exact Hlog2 | apply IH].
Qed.

(** A call of [login] on a session with a plant id, with no plant id or
    the same one configured, keeps it and requests no plant data. *)
Lemma login_keeps_session P u pw cfg (w : world) :
  is_None (plant_id (api w)) = false ->
  is_None cfg = true \/ cfg = plant_id (api w) ->
  plant_id (api (fst (login P u pw cfg w))) = plant_id (api w)
  /\ log_extends (asks_for P (plant_id (api w))) (log w)
       (log (fst (login P u pw cfg w))).
Proof.
  intros Hid Hcfg. rewrite login_eq.
  assert (Hstart : plant_id (api (login_start P cfg w)) = plant_id (api w)
                   /\ log_extends login_event (log w)
                        (log (login_start P cfg w))).
  { unfold login_start. destruct Hcfg as [Hcfg | Hcfg].
    - rewrite Hcfg. split; constructor.
    - destruct (is_None cfg); cbn; split; auto; repeat constructor. }
  destruct Hstart as [Hp Hl]. split.
  - rewrite login_loop_keeps_plant_id; [exact Hp | now rewrite Hp].
  - eapply log_extends_weaken with (A := login_event).
    + intros [] Hev; try exact I; contradiction.
    + eapply log_extends_trans; [exact Hl | apply login_loop_log].
Qed.

(** An iteration of the polling loop keeps the plant id and asks for that
    plant only. *)
Lemma poll_once_keeps_session P (w : world) :
  plant_id (api (fst (poll_once P w))) = plant_id (api w)
  /\ log_extends (asks_for P (plant_id (api w))) (log w)
       (log (fst (poll_once P w))).
Proof.
  destruct (get_plant_info_loop_frame P (py_range 1 4 1)
              (fst (show_readout_placeholder w)))
    as (_ & Hp & _ & _ & Hlog & _).
  fold (get_plant_info P) in Hp, Hlog.
  assert (Hlog' : log_extends (asks_for P (plant_id (api w))) (log w)
                    (log (fst (get_plant_info P
                                 (fst (show_readout_placeholder w)))))).
  { eapply log_extends_trans with (l2 := EvReadout ". . ." :: log w);
      [repeat constructor|].
    eapply log_extends_weaken; [|exact Hlog].
    intros [] Hev; try exact I; try contradiction; exact Hev. }
  clear Hlog.
  unfold poll_once, bind. rewrite show_readout_placeholder_eq.
  rewrite show_readout_placeholder_eq in Hp, Hlog'. cbn [fst] in Hp, Hlog'.
  destruct (get_plant_info P _) as [w1 [[[]|e]|]]; cbn [fst] in *;
    [|split; assumption|split; assumption].
  unfold update_display. unfold_m. unfold set_readout_text. unfold_m.
  cbn [api] in Hp.
  destruct (power (api w1)) as [p|] eqn:Hpow; cbn; rewrite ?Hpow; cbn.
  - destruct (p <? minimum_power_threshold (display w1)); cbn;
      rewrite ?Hpow; cbn;
      destruct (minimum_power_threshold (display w1) <=? p); cbn;
      (split; [exact Hp | repeat (apply log_more; [exact I|]); exact Hlog']).
  - split; [exact Hp | repeat (apply log_more; [exact I|]); exact Hlog'].
Qed.

Lemma outer_except_asks_for P pid (e : exn) (w : world) :
  log_extends (asks_for P pid) (log w) (log (fst (outer_except P e w))).
Proof.
  unfold outer_except.
  destruct (is_NotLoggedIn e); [|destruct (is_SerialLoginErrors e)];
    unfold_m; cbn -[reset];
    try (destruct (reset _ _ _ _ _) as [[r [[]|e']]|]; cbn);
    repeat constructor.
Qed.

(** A step of the orchestration loop on a session with a plant id keeps it
    and asks for that plant only. *)
Lemma main_step_keeps_session P u pw cfg (s : stage) (w : world) :
  is_None (plant_id (api w)) = false ->
  is_None cfg = true \/ cfg = plant_id (api w) ->
  plant_id (api (fst (main_step P u pw cfg s w))) = plant_id (api w)
  /\ log_extends (asks_for P (plant_id (api w))) (log w)
       (log (fst (main_step P u pw cfg s w))).
Proof.
  intros Hid Hcfg. destruct s as [| |code].
  - destruct (login_keeps_session P u pw cfg w Hid Hcfg) as [Hp Hl].
    cbn [main_step]. unfold try_except, bind.
    destruct (login P u pw cfg w) as [w1 [[[]|e]|]]; cbn [fst] in *;
      [split; assumption| |split; assumption].
    destruct (outer_except_frame P e w1) as (Ha & _).
    rewrite Ha. split; [exact Hp|].
    eapply log_extends_trans; [exact Hl | apply outer_except_asks_for].
  - destruct (poll_once_keeps_session P w) as [Hp Hl].
    cbn [main_step]. unfold try_except, bind.
    destruct (poll_once P w) as [w1 [[[]|e]|]]; cbn [fst] in *;
      [split; assumption| |split; assumption].
    destruct (is_NotLoggedIn e).
    + cbn. split; [exact Hp | repeat (apply log_more; [exact I|]); exact Hl].
    + destruct (outer_except_frame P e w1) as (Ha & _).
      rewrite Ha. split; [exact Hp|].
      eapply log_extends_trans; [exact Hl | apply outer_except_asks_for].
  - cbn. split; [reflexivity | constructor].
Qed.

(** Once the session has a plant id, it is fixed for the rest of the run,
    and every later request for plant data asks for it. *)
Lemma main_run_keeps_session P u pw cfg (n : nat) :
  forall (s : stage) (w : world),
    is_None (plant_id (api w)) = false ->
    is_None cfg = true \/ cfg = plant_id (api w) ->
    plant_id (api (fst (main_run P u pw cfg n s w))) = plant_id (api w)
    /\ log_extends (asks_for P (plant_id (api w))) (log w)
         (log (fst (main_run P u pw cfg n s w))).
Proof.
  induction n as [|n IH]; intros s w Hid Hcfg.
  - cbn. split; [reflexivity | constructor].
  - destruct (main_step_keeps_session P u pw cfg s w Hid Hcfg) as [Hp Hl].
    cbn [main_run]. unfold bind.
    destruct (main_step P u pw cfg s w) as [w1 [[s1|e]|]]; cbn [fst snd] in *;
      [|split; assumption|split; assumption].
    destruct (IH s1 w1) as [Hp' Hl'].
    + now rewrite Hp.
    + rewrite Hp. exact Hcfg.
    + rewrite Hp in Hp', Hl'. split; [exact Hp'|].
      eapply log_extends_trans; [exact Hl | exact Hl'].
Qed.

(** C9 (as amended). A configured plant id becomes the session's plant id.
    With none configured, a call of [login] that returns on a session
    without a plant id has set it to [data[0]['plantId']] of the reply it
    accepted, and on a session that has one it keeps that one. A call of
    [get_plant_info] keeps the plant id, and every request it makes goes to
    a URL that contains [plantId=] followed by that id. So once the session
    has a plant id, every run of the orchestration loop keeps it and asks
    for that plant only. *)
Theorem login_resolves_plant_id :
  (forall P u pw cfg w,
      is_None cfg = false ->
      plant_id (api (fst (login P u pw cfg w))) = cfg)
  /\ (forall P u pw w w',
        is_None (plant_id (api w)) = true ->
        login P u pw PNone w = (w', Ok tt) ->
        exists r body,
          attempts w' = S (pred (attempts w'))
          /\ http_reply (network P (pred (attempts w'))) = Ok r
          /\ json_body r = Ok body
          /\ first_plant_id body = Ok (plant_id (api w')))
  /\ (forall P u pw w,
        is_None (plant_id (api w)) = false ->
        plant_id (api (fst (login P u pw PNone w))) = plant_id (api w))
  /\ (forall P w,
        plant_id (api (fst (get_plant_info P w))) = plant_id (api w)
        /\ exists evs,
             log (fst (get_plant_info P w)) = evs ++ log w
             /\ forall url h,
                  In (EvGet url h) evs ->
                  url = plant_info_url P (plant_id (api w))
                  /\ contains url ("plantId=" ++ py_str P (plant_id (api w))))
  /\ (forall P u pw cfg n s w,
        is_None (plant_id (api w)) = false ->
        is_None cfg = true \/ cfg = plant_id (api w) ->
        plant_id (api (fst (main_run P u pw cfg n s w))) = plant_id (api w)
        /\ log_extends (asks_for P (plant_id (api w))) (log w)
             (log (fst (main_run P u pw cfg n s w)))).
Proof.
  split; [|split; [|split; [|split]]];
    [| | | |intros; now apply main_run_keeps_session].
  - intros P u pw cfg w Hcfg. rewrite login_eq.
    rewrite login_loop_keeps_plant_id; unfold login_start; rewrite Hcfg;
      [reflexivity | exact Hcfg].
  - intros P u pw w w' Hid H. rewrite login_eq in H.
    apply login_loop_ok in H; [|exact Hid].
    destruct H as [H|H]; [exfalso | exact H].
    inversion H as [|? ? _ H2]. inversion H2 as [|? ? Hlt _]. lia.
  - intros P u pw w Hid. rewrite login_eq.
    now rewrite login_loop_keeps_plant_id.
  - intros P w.
    destruct (get_plant_info_loop_frame P (py_range 1 4 1) w)
      as (_ & Hp & _ & _ & Hlog & _).
    split; [exact Hp|].
    apply log_extends_split in Hlog. destruct Hlog as (evs & Heq & Hall).
    exists evs. split; [exact Heq|].
    intros url h Hin. rewrite Forall_forall in Hall.
    specialize (Hall _ Hin). cbn in Hall. subst url.
    split; [reflexivity | apply contains_plant_id].
Qed.

Lemma login_resolves_plant_id_witness :
  plant_id (api (fst (login plant_list_changed "user" "password"
                        (PStr "PLANT555") world_init)))
  = PStr "PLANT555"
  /\ (exists r body,
         attempts (fst (login plant_list_changed "user" "password" PNone
                          world_init))
         = S (pred (attempts (fst (login plant_list_changed "user" "password"
                                     PNone world_init))))
         /\ http_reply
              (network plant_list_changed
                 (pred (attempts (fst (login plant_list_changed "user"
                                         "password" PNone world_init)))))
            = Ok r
         /\ json_body r = Ok body
         /\ first_plant_id body
            = Ok (plant_id (api (fst (login plant_list_changed "user"
                                        "password" PNone world_init)))))
  /\ plant_id (api (fst (login plant_list_changed "user" "password" PNone
                          before_second_login)))
     = plant_id (api before_second_login)
  /\ (plant_id (api (fst (get_plant_info plant_list_changed
                            before_second_login)))
      = plant_id (api before_second_login)
      /\ exists evs,
           log (fst (get_plant_info plant_list_changed before_second_login))
           = evs ++ log before_second_login
           /\ forall url h,
                In (EvGet url h) evs ->
                url = plant_info_url plant_list_changed
                        (plant_id (api before_second_login))
                /\ contains url
                     ("plantId="
                      ++ py_str plant_list_changed
                           (plant_id (api before_second_login))))
  /\ (plant_id (api (fst (main_run plant_list_changed "user" "password" PNone
                            2 LoggingIn before_second_login)))
      = plant_id (api before_second_login)
      /\ log_extends
           (asks_for plant_list_changed (plant_id (api before_second_login)))
           (log before_second_login)
           (log (fst (main_run plant_list_changed "user" "password" PNone
                        2 LoggingIn before_second_login)))).
Proof.
  split; [|split; [|split; [|split]]].
  - apply (proj1 login_resolves_plant_id plant_list_changed "user" "password"
             (PStr "PLANT555") world_init).
    reflexivity.
  - apply (proj1 (proj2 login_resolves_plant_id) plant_list_changed "user"
             "password" world_init); vm_compute; reflexivity.
  - apply (proj1 (proj2 (proj2 login_resolves_plant_id)) plant_list_changed
             "user" "password" before_second_login).
    vm_compute. reflexivity.
  - apply (proj1 (proj2 (proj2 (proj2 login_resolves_plant_id)))
             plant_list_changed before_second_login).
  - apply (proj2 (proj2 (proj2 (proj2 login_resolves_plant_id)))
             plant_list_changed "user" "password" PNone 2%nat LoggingIn
             before_second_login);
      [vm_compute; reflexivity | left; reflexivity].
Defined.

(** C9 as stated fails on a second login: no plant id is configured, the
    call of [login] returns, the plant list of the reply it accepted starts
    with PLANT999, and the session's plant id is still PLANT123; the next
    poll asks for PLANT123. *)
Lemma second_login_keeps_first_plant_id :
  snd (main_run plant_list_changed "user" "password" PNone 2 LoggingIn
         world_init) = Ok LoggingIn
  /\ attempts before_second_login = 2%nat
  /\ network plant_list_changed 2 = login_ok "PLANT999"
  /\ first_plant_id
       (PDict [("back", PDict [("success", PBool true);
                               ("user", PDict [("id", PInt 7);
                                               ("rightlevel", PInt 1)]);
                               ("data",
                                PList [PDict [("plantId", PStr "PLANT999")]])])])
     = Ok (PStr "PLANT999")
  /\ snd (login plant_list_changed "user" "password" PNone before_second_login)
     = Ok tt
  /\ attempts (fst (login plant_list_changed "user" "password" PNone
                      before_second_login)) = 3%nat
  /\ plant_id (api (fst (login plant_list_changed "user" "password" PNone
                           before_second_login)))
     = PStr "PLANT123"
  /\ count_events
       (fun ev =>
          match ev with
          | EvGet url _ =>
              String.eqb url
                "https://server-api.growatt.com/newTwoPlantAPI.do?op=getAllDeviceList&plantId=PLANT123&pageNum=1&pageSize=1"
          | _ => false
          end)
       (log (fst (main_run plant_list_changed "user" "password" PNone 4
                    LoggingIn world_init)))
     = 2%nat.
Proof. run_all. Qed.

(** * Further properties *)

(** ** The retry loops as instances of one loop *)

Lemma login_loop_retry_loop P u pw (range : list nat) (w : world) :
  login_loop P u pw range w
  = retry_loop (login_try P u pw) (login_except P) range w.
Proof.
  revert w. induction range as [|i rest IH]; intro w; [reflexivity|].
  cbn [login_loop retry_loop]. unfold bind.
  destruct (try_except (login_try P u pw i) caught_by_retry (login_except P i) w)
    as [w1 [[[|]|e]|]]; try reflexivity. apply IH.
Qed.

Lemma get_plant_info_loop_retry_loop P (range : list nat) (w : world) :
  get_plant_info_loop P range w
  = retry_loop (get_plant_info_try P) (get_plant_info_except P) range w.
Proof.
  revert w. induction range as [|i rest IH]; intro w; [reflexivity|].
  cbn [get_plant_info_loop retry_loop]. unfold bind.
  destruct (try_except (get_plant_info_try P i) caught_by_retry
              (get_plant_info_except P i) w)
    as [w1 [[[|]|e]|]]; try reflexivity. apply IH.
Qed.

Lemma count_events_app (p : event -> bool) (l1 l2 : list event) :
  count_events p (l1 ++ l2) = (count_events p l1 + count_events p l2)%nat.
Proof. unfold count_events. now rewrite filter_app, length_app. Qed.

Lemma count_events_none (p : event -> bool) (A : event -> Prop)
  (l : list event) :
  (forall ev, A ev -> p ev = false) -> Forall A l -> count_events p l = 0%nat.
Proof.
  intros HA H. induction H as [|ev l Hev _ IH]; [reflexivity|].
  unfold count_events in *. simpl. now rewrite (HA ev Hev).
Qed.

(** An [except] block's retry action that does not return [Next] ended in
    the radio: it did not return, or [connect_AP] raised. *)
Lemma after_retry_ends P (e : exn) (w : world) :
  match snd (after_retry P e w) with
  | Done (Ok f) => f = Next
  | Done (Raise e') => from_connect_AP P e'
  | Hang => True
  end.
Proof.
  unfold after_retry.
  destruct (retry_radio P e (wifi w)) as [[r [[]|e']]|] eqn:H; cbn;
    [reflexivity | | exact I].
  eapply retry_radio_raise. exact H.
Qed.

(** *** Facts about any loop of that shape *)

Section RetryLoopFacts.

Variable P : platform.
Variable try_block : nat -> M flow.
Variable except_block : nat -> exn -> M flow.
Variable budget : nat.
Variable giving_up : exn -> list event.
Variable serial : exn.
(** What the [try] block may add to the log. *)
Variable in_try : event -> Prop.

Hypothesis try_attempt :
  forall i w, attempts (fst (try_block i w)) = S (attempts w).
Hypothesis try_log :
  forall i w, log_extends in_try (log w) (log (fst (try_block i w))).
Hypothesis try_quiet : forall ev, in_try ev -> is_retry_action ev = false.
Hypothesis try_returns :
  forall i w f, snd (try_block i w) = Ok f -> f = Returned.
Hypothesis try_ends : forall i w, snd (try_block i w) <> Hang.
Hypothesis except_eq :
  forall i e w,
    except_block i e w
    = if (budget <=? i)%nat then (push (giving_up e) w, Raise serial)
      else after_retry P e (push (request_failed e) w).
Hypothesis giving_up_quiet :
  forall e, count_events is_retry_action (giving_up e) = 0%nat.
Hypothesis serial_uncaught : caught_by_retry serial = false.

Lemma retry_loop_cons (i : nat) (rest : list nat) (w : world) :
  retry_loop try_block except_block (i :: rest) w
  = match try_block i w with
    | (w1, Done (Ok _)) => (w1, Ok tt)
    | (w1, Done (Raise e)) =>
        if caught_by_retry e then
          if (budget <=? i)%nat then (push (giving_up e) w1, Raise serial)
          else
            match after_retry P e (push (request_failed e) w1) with
            | (w2, Done (Ok _)) => retry_loop try_block except_block rest w2
            | (w2, Done (Raise e')) => (w2, Raise e')
            | (w2, Hang) => (w2, Hang)
            end
        else (w1, Raise e)
    | (w1, Hang) => (w1, Hang)
    end.
Proof.
  cbn [retry_loop]. unfold bind, try_except.
  pose proof (try_returns i w) as Hret.
  destruct (try_block i w) as [w1 [[f|e]|]]; cbn [snd] in Hret.
  - now rewrite (Hret f eq_refl).
  - destruct (caught_by_retry e); [|reflexivity].
    rewrite except_eq. destruct (budget <=? i)%nat; [reflexivity|].
    pose proof (after_retry_ends P e (push (request_failed e) w1)) as Hend.
    destruct (after_retry P e (push (request_failed e) w1))
      as [w2 [[f|e']|]]; cbn [snd] in Hend; [now subst f | |]; reflexivity.
  - reflexivity.
Qed.

(** An exception of the caught classes leaves the loop only out of the
    radio. *)
Lemma retry_loop_escapes (range : list nat) :
  forall w e,
    snd (retry_loop try_block except_block range w) = Raise e ->
    caught_by_retry e = true ->
    from_connect_AP P e.
Proof.
  induction range as [|i rest IH]; intros w e; [discriminate|].
  rewrite retry_loop_cons.
  destruct (try_block i w) as [w1 [[f|e1]|]]; try discriminate.
  destruct (caught_by_retry e1) eqn:Hc.
  - destruct (budget <=? i)%nat.
    + cbn. intros H Hce. inversion H. subst. congruence.
    + pose proof (after_retry_ends P e1 (push (request_failed e1) w1)) as Hend.
      destruct (after_retry P e1 (push (request_failed e1) w1))
        as [w2 [[f|e']|]]; cbn [snd] in *; [apply IH | | discriminate].
      intros H _. inversion H. now subst.
  - cbn. intros H Hce. inversion H. subst. congruence.
Qed.

Lemma retry_action_counts (e : exn) :
  count_events is_retry_action (retry_action e :: request_failed e) = 1%nat.
Proof.
  unfold retry_action.
  destruct (String.eqb (exn_str e) "WiFi not connected");
    destruct (String.eqb (exn_str e) "Error response to command"); reflexivity.
Qed.

(** Each attempt but the last is followed by exactly one retry action, and
    each retry action that returns by an attempt: a call that does not run
    out of values of [i] has made one attempt more than it has slept,
    reset or reconnected, or as many when it ended inside such an
    action. *)
Lemma retry_loop_counts (range : list nat) :
  forall w,
    exists evs,
      log (fst (retry_loop try_block except_block range w)) = evs ++ log w
      /\ (attempts (fst (retry_loop try_block except_block range w))
          <= attempts w + List.length range)%nat
      /\ ((Forall (fun i => (i < budget)%nat) range
           /\ snd (retry_loop try_block except_block range w) = Ok tt
           /\ attempts (fst (retry_loop try_block except_block range w))
              = (attempts w + count_events is_retry_action evs)%nat)
          \/ attempts (fst (retry_loop try_block except_block range w))
             = S (attempts w + count_events is_retry_action evs)
          \/ (ended_in_retry P (snd (retry_loop try_block except_block range w))
              /\ attempts (fst (retry_loop try_block except_block range w))
                 = (attempts w + count_events is_retry_action evs)%nat
              /\ (0 < count_events is_retry_action evs)%nat)).
Proof.
  induction range as [|i rest IH]; intro w.
  - exists []. cbn. repeat split; [lia|]. left.
    repeat split; [constructor | lia].
  - rewrite retry_loop_cons.
    pose proof (try_attempt i w) as Hat.
    pose proof (try_ends i w) as Hend.
    destruct (log_extends_split _ _ _ (try_log i w)) as (ev1 & Hlog & Hall).
    assert (Hq : count_events is_retry_action ev1 = 0%nat)
      by (eapply count_events_none; [exact try_quiet | exact Hall]).
    destruct (try_block i w) as [w1 [[f|e]|]]; cbn [fst snd] in *;
      [| |congruence].
    + exists ev1. rewrite Hq.
      repeat split; [exact Hlog | simpl; lia | right; left; lia].
    + destruct (caught_by_retry e).
      * destruct (budget <=? i)%nat eqn:Hi.
        -- exists (giving_up e ++ ev1). cbn [fst push log attempts].
           rewrite Hlog, app_assoc, count_events_app, giving_up_quiet, Hq.
           repeat split; [simpl; lia | right; left; lia].
        -- destruct (after_retry_frame P e (push (request_failed e) w1))
             as (_ & _ & Hat2 & Hl2).
           pose proof (after_retry_ends P e (push (request_failed e) w1))
             as Hends.
           cbn [push log attempts] in Hat2, Hl2.
           change (retry_action e :: request_failed e ++ log w1)
             with ((retry_action e :: request_failed e) ++ log w1) in Hl2.
           destruct (after_retry P e (push (request_failed e) w1))
             as [w2 [[f|e']|]]; cbn [fst snd] in *.
           ++ destruct (IH w2) as (ev2 & Hlog2 & Hle & Hcount).
              exists (ev2 ++ (retry_action e :: request_failed e) ++ ev1).
              rewrite Hlog2, Hl2, Hlog, !count_events_app,
                retry_action_counts, Hq.
              rewrite <- !app_assoc.
              repeat split; [simpl; lia|].
              destruct Hcount as [(Hall' & Hok & Hc) | [Hc | (He & Hc & Hpos)]].
              ** left. repeat split; [|exact Hok|lia].
                 constructor; [now apply Nat.leb_gt | exact Hall'].
              ** right. left. lia.
              ** right. right. repeat split; [exact He | lia | lia].
           ++ exists ((retry_action e :: request_failed e) ++ ev1).
              rewrite Hl2, Hlog, !count_events_app, retry_action_counts, Hq.
              rewrite <- !app_assoc.
              repeat split; [simpl; lia|].
              right. right. repeat split; [exact Hends | lia | lia].
           ++ exists ((retry_action e :: request_failed e) ++ ev1).
              rewrite Hl2, Hlog, !count_events_app, retry_action_counts, Hq.
              rewrite <- !app_assoc.
              repeat split; [simpl; lia|].
              right. right. repeat split; lia.
      * exists ev1. rewrite Hq. cbn [fst].
        repeat split; [exact Hlog | simpl; lia | right; left; lia].
Qed.

(** A call that returns has ended in an attempt that returned, unless the
    loop ran out of values of [i]. *)
Lemma retry_loop_returned (range : list nat) :
  forall w w',
    retry_loop try_block except_block range w = (w', Ok tt) ->
    Forall (fun i => (i < budget)%nat) range
    \/ exists i w0 f,
         try_block i w0 = (w', Ok f)
         /\ (attempts w <= attempts w0)%nat.
Proof.
  induction range as [|i rest IH]; intros w w' H; [left; constructor|].
  rewrite retry_loop_cons in H.
  pose proof (try_attempt i w) as Hat.
  destruct (try_block i w) as [w1 [[f|e]|]] eqn:Htry; cbn [fst] in Hat;
    [| |discriminate].
  - inversion H. subst w1. right. exists i, w, f. split; [exact Htry | lia].
  - destruct (caught_by_retry e); [|discriminate].
    destruct (budget <=? i)%nat eqn:Hi; [discriminate|].
    destruct (after_retry_frame P e (push (request_failed e) w1))
      as (_ & _ & Hat2 & _).
    destruct (after_retry P e (push (request_failed e) w1))
      as [w2 [[f|e']|]]; try discriminate.
    apply IH in H. destruct H as [H | (j & w0 & f' & Hj & Hle)].
    + left. constructor; [now apply Nat.leb_gt | exact H].
    + right. exists j, w0, f'. split; [exact Hj|].
      cbn [fst push attempts] in Hat2. lia.
Qed.

End RetryLoopFacts.

(** ** What the [try] blocks do *)

Lemma login_try_effects P u pw i w :
  log_extends (login_try_event u pw (headers (api w))) (log w)
    (log (fst (login_try P u pw i w))).
Proof.
  unfold login_try. unfold_m. cbn.
  open_obs P w; [|repeat constructor].
  repeat (case_step; cbn); repeat constructor.
Qed.

Lemma dict_get_set_same (d : dict) (k : string) (v : pyval) :
  dict_get (dict_set d k v) k = Some v.
Proof.
  induction d as [|[k0 v0] d IH]; simpl.
  - now rewrite String.eqb_refl.
  - destruct (String.eqb k k0) eqn:E; simpl; rewrite E; [reflexivity | exact IH].
Qed.

Lemma dict_set_twice (d : dict) (k : string) (v : pyval) :
  dict_set (dict_set d k v) k v = dict_set d k v.
Proof.
  induction d as [|[k0 v0] d IH]; simpl.
  - now rewrite String.eqb_refl.
  - destruct (String.eqb k k0) eqn:E; simpl; rewrite E; [reflexivity|].
    now rewrite IH.
Qed.

Lemma get_plant_info_try_effects P i w :
  log_extends
    (get_plant_info_try_event (plant_info_url P (plant_id (api w)))
       (poll_headers (api w)))
    (log w) (log (fst (get_plant_info_try P i w)))
  /\ (headers (api (fst (get_plant_info_try P i w))) = headers (api w)
      \/ headers (api (fst (get_plant_info_try P i w))) = poll_headers (api w)).
Proof.
  unfold get_plant_info_try, poll_headers. unfold_m. cbn.
  open_obs P w; [|split; [repeat constructor | now left]].
  repeat (case_step; cbn); (split; [repeat constructor | now right]).
Qed.

Lemma login_try_quiet u pw hdrs (ev : event) :
  login_try_event u pw hdrs ev -> is_retry_action ev = false.
Proof. destruct ev; simpl; tauto. Qed.

Lemma get_plant_info_try_quiet url hdrs (ev : event) :
  get_plant_info_try_event url hdrs ev -> is_retry_action ev = false.
Proof. destruct ev; simpl; tauto. Qed.

Lemma login_try_returns P u pw i w f :
  snd (login_try P u pw i w) = Ok f -> f = Returned.
Proof. intro H. now destruct (login_try_ok P u pw i w f H). Qed.

Lemma get_plant_info_try_returns P i w f :
  snd (get_plant_info_try P i w) = Ok f -> f = Returned.
Proof. intro H. now destruct (get_plant_info_try_ok P i w f H). Qed.

Lemma login_try_no_retry_action P u pw i w :
  log_extends (fun ev => is_retry_action ev = false) (log w)
    (log (fst (login_try P u pw i w))).
Proof.
  eapply log_extends_weaken; [|apply login_try_effects].
  intro ev. apply login_try_quiet.
Qed.

Lemma get_plant_info_try_no_retry_action P i w :
  log_extends (fun ev => is_retry_action ev = false) (log w)
    (log (fst (get_plant_info_try P i w))).
Proof.
  eapply log_extends_weaken; [|apply get_plant_info_try_effects].
  intro ev. apply get_plant_info_try_quiet.
Qed.

(** ** How many attempts a call makes *)

Lemma login_loop_not_caught P u pw i rest w :
  login_transport_error (network P (attempts w)) = None ->
  attempts (fst (login_loop P u pw (i :: rest) w)) = S (attempts w).
Proof.
  intro H. rewrite <- (caught_login_try P u pw i w) in H.
  rewrite login_loop_cons.
  pose proof (attempts_login_try P u pw i w) as Hat.
  pose proof (login_try_returns P u pw i w) as Hret.
  destruct (login_try P u pw i w) as [w1 [[f|e]|]]; cbn [fst snd] in *.
  - now rewrite (Hret f eq_refl).
  - cbn in H. destruct (caught_by_retry e); [discriminate | exact Hat].
  - exact Hat.
Qed.

Lemma get_plant_info_loop_not_caught P i rest w :
  get_plant_info_transport_error P (network P (attempts w)) = None ->
  attempts (fst (get_plant_info_loop P (i :: rest) w)) = S (attempts w).
Proof.
  intro H. rewrite <- (caught_get_plant_info_try P i w) in H.
  rewrite get_plant_info_loop_cons.
  pose proof (attempts_get_plant_info_try P i w) as Hat.
  pose proof (get_plant_info_try_returns P i w) as Hret.
  destruct (get_plant_info_try P i w) as [w1 [[f|e]|]]; cbn [fst snd] in *.
  - now rewrite (Hret f eq_refl).
  - cbn in H. destruct (caught_by_retry e); [discriminate | exact Hat].
  - exact Hat.
Qed.

(** The last value of [i]: one attempt, however it ends. *)
Lemma login_loop_last P u pw i rest w :
  (2 <= i)%nat ->
  attempts (fst (login_loop P u pw (i :: rest) w)) = S (attempts w).
Proof.
  intro Hi. rewrite login_loop_cons.
  pose proof (attempts_login_try P u pw i w) as Hat.
  pose proof (login_try_returns P u pw i w) as Hret.
  apply Nat.leb_le in Hi. rewrite Hi.
  destruct (login_try P u pw i w) as [w1 [[f|e]|]]; cbn [fst snd] in *.
  - now rewrite (Hret f eq_refl).
  - destruct (caught_by_retry e); exact Hat.
  - exact Hat.
Qed.

Lemma get_plant_info_loop_last P i rest w :
  (3 <= i)%nat ->
  attempts (fst (get_plant_info_loop P (i :: rest) w)) = S (attempts w).
Proof.
  intro Hi. rewrite get_plant_info_loop_cons.
  pose proof (attempts_get_plant_info_try P i w) as Hat.
  pose proof (get_plant_info_try_returns P i w) as Hret.
  apply Nat.leb_le in Hi. rewrite Hi.
  destruct (get_plant_info_try P i w) as [w1 [[f|e]|]]; cbn [fst snd] in *.
  - now rewrite (Hret f eq_refl).
  - destruct (caught_by_retry e); exact Hat.
  - exact Hat.
Qed.

(** An attempt that ends in a caught error while values of [i] remain: the
    attempts of the rest of the loop are added when the retry action
    returns, and none otherwise. *)
Lemma login_loop_caught_attempts P u pw i rest w e :
  login_transport_error (network P (attempts w)) = Some e ->
  (i < 2)%nat ->
  match retry_radio P e (wifi w) with
  | Some (r, Ok _) =>
      login_loop P u pw (i :: rest) w
      = login_loop P u pw rest
          (with_wifi r
             (push (retry_action e :: request_failed e)
                (fst (login_try P u pw i w))))
  | _ => attempts (fst (login_loop P u pw (i :: rest) w)) = S (attempts w)
  end.
Proof.
  intros He Hi. destruct (retry_radio P e (wifi w)) as [[r [[]|e']]|] eqn:Hr.
  - now apply login_loop_retried.
  - rewrite (login_loop_caught _ _ _ _ _ _ _ He).
    apply Nat.leb_gt in Hi. rewrite Hi. unfold after_retry.
    cbn [push wifi]. rewrite wifi_login_try, Hr. apply attempts_login_try.
  - rewrite (login_loop_caught _ _ _ _ _ _ _ He).
    apply Nat.leb_gt in Hi. rewrite Hi. unfold after_retry.
    cbn [push wifi]. rewrite wifi_login_try, Hr. apply attempts_login_try.
Qed.

Lemma get_plant_info_loop_caught_attempts P i rest w e :
  get_plant_info_transport_error P (network P (attempts w)) = Some e ->
  (i < 3)%nat ->
  match retry_radio P e (wifi w) with
  | Some (r, Ok _) =>
      get_plant_info_loop P (i :: rest) w
      = get_plant_info_loop P rest
          (with_wifi r
             (push (retry_action e :: request_failed e)
                (fst (get_plant_info_try P i w))))
  | _ =>
      attempts (fst (get_plant_info_loop P (i :: rest) w)) = S (attempts w)
  end.
Proof.
  intros He Hi. destruct (retry_radio P e (wifi w)) as [[r [[]|e']]|] eqn:Hr.
  - now apply get_plant_info_loop_retried.
  - rewrite (get_plant_info_loop_caught _ _ _ _ _ He).
    apply Nat.leb_gt in Hi. rewrite Hi. unfold after_retry.
    cbn [push wifi]. rewrite wifi_get_plant_info_try, Hr.
    apply attempts_get_plant_info_try.
  - rewrite (get_plant_info_loop_caught _ _ _ _ _ He).
    apply Nat.leb_gt in Hi. rewrite Hi. unfold after_retry.
    cbn [push wifi]. rewrite wifi_get_plant_info_try, Hr.
    apply attempts_get_plant_info_try.
Qed.

(** X1. Whatever the network and the radio do, a call of [login] makes one
    attempt or two, never none and never a third: two when the first
    attempt ends in an error of the caught classes and the retry action
    that follows it returns, and one otherwise. *)
Theorem login_attempt_count P u pw cfg w :
  attempts (fst (login P u pw cfg w))
  = (attempts w
     + match login_transport_error (network P (attempts w)) with
       | None => 1
       | Some e =>
           match retry_radio P e (wifi w) with
           | Some (_, Ok _) => 2
           | _ => 1
           end
       end)%nat.
Proof.
  rewrite login_eq.
  rewrite <- (attempts_login_start P cfg w), <- (wifi_login_start P cfg w).
  set (w0 := login_start P cfg w).
  set (h := replace_even_zeros (md5_hexdigest P pw)).
  destruct (login_transport_error (network P (attempts w0))) as [e1|] eqn:H1.
  - pose proof (login_loop_caught_attempts P u h 1 [2]%nat w0 e1 H1
                  ltac:(lia)) as H.
    destruct (retry_radio P e1 (wifi w0)) as [[r [[]|e']]|]; try lia.
    rewrite H, login_loop_last by lia.
    cbn [with_wifi push attempts]. rewrite attempts_login_try. lia.
  - rewrite login_loop_not_caught; [lia | exact H1].
Qed.

(** X2. Whatever the network and the radio do, a call of [get_plant_info]
    makes one, two or three attempts: it goes on to the next attempt when
    an attempt ends in an error of the caught classes and the retry action
    that follows it returns, and it stops at the third. *)
Theorem get_plant_info_attempt_count P w :
  attempts (fst (get_plant_info P w))
  = (attempts w
     + match get_plant_info_transport_error P (network P (attempts w)) with
       | None => 1
       | Some e1 =>
           match retry_radio P e1 (wifi w) with
           | Some (r1, Ok _) =>
               match get_plant_info_transport_error P
                       (network P (S (attempts w))) with
               | None => 2
               | Some e2 =>
                   match retry_radio P e2 r1 with
                   | Some (_, Ok _) => 3
                   | _ => 2
                   end
               end
           | _ => 1
           end
       end)%nat.
Proof.
  unfold get_plant_info. change (py_range 1 4 1) with [1; 2; 3]%nat.
  destruct (get_plant_info_transport_error P (network P (attempts w)))
    as [e1|] eqn:H1.
  - pose proof (get_plant_info_loop_caught_attempts P 1 [2; 3]%nat w e1 H1
                  ltac:(lia)) as H.
    destruct (retry_radio P e1 (wifi w)) as [[r1 [[]|e']]|]; try lia.
    rewrite H. set (w1 := with_wifi r1 _).
    assert (Hat1 : attempts w1 = S (attempts w)).
    { unfold w1. cbn [with_wifi push attempts].
      apply attempts_get_plant_info_try. }
    assert (Hw1 : wifi w1 = r1) by reflexivity.
    rewrite <- Hat1, <- Hw1.
    destruct (get_plant_info_transport_error P (network P (attempts w1)))
      as [e2|] eqn:H2.
    + pose proof (get_plant_info_loop_caught_attempts P 2 [3]%nat w1 e2 H2
                    ltac:(lia)) as H'.
      destruct (retry_radio P e2 (wifi w1)) as [[r2 [[]|e']]|]; try lia.
      rewrite H', get_plant_info_loop_last by lia.
      cbn [with_wifi push attempts]. rewrite attempts_get_plant_info_try. lia.
    + rewrite get_plant_info_loop_not_caught; [lia | exact H2].
  - rewrite get_plant_info_loop_not_caught; [lia | exact H1].
Qed.

(** ** What a whole call does *)

Lemma login_call_retry u pw hdrs e :
  Forall (login_call_event u pw hdrs) (retry_action e :: request_failed e).
Proof.
  unfold retry_action, request_failed.
  destruct (String.eqb (exn_str e) "WiFi not connected");
    destruct (String.eqb (exn_str e) "Error response to command");
    repeat constructor.
Qed.

Lemma get_plant_info_call_retry url hdrs e :
  Forall (get_plant_info_call_event url hdrs)
    (retry_action e :: request_failed e).
Proof.
  unfold retry_action, request_failed.
  destruct (String.eqb (exn_str e) "WiFi not connected");
    destruct (String.eqb (exn_str e) "Error response to command");
    repeat constructor.
Qed.

Lemma login_try_in_call u pw hdrs (ev : event) :
  login_try_event u pw hdrs ev -> login_call_event u pw hdrs ev.
Proof. destruct ev; simpl; tauto. Qed.

Lemma get_plant_info_try_in_call url hdrs (ev : event) :
  get_plant_info_try_event url hdrs ev ->
  get_plant_info_call_event url hdrs ev.
Proof. destruct ev; simpl; tauto. Qed.

(** The loop of [login] keeps the stored power, the headers and the
    display, and adds [login_call_event]s only. *)
Lemma login_loop_effects P u pw (range : list nat) :
  forall w,
    power (api (fst (login_loop P u pw range w))) = power (api w)
    /\ headers (api (fst (login_loop P u pw range w))) = headers (api w)
    /\ display (fst (login_loop P u pw range w)) = display w
    /\ log_extends (login_call_event u pw (headers (api w))) (log w)
         (log (fst (login_loop P u pw range w))).
Proof.
  induction range as [|i rest IH]; intro w.
  - cbn. repeat split. constructor.
  - rewrite login_loop_cons.
    destruct (login_try_frame P u pw i w) as (_ & Hd & Hp & Hh & _).
    pose proof (login_try_effects P u pw i w) as Hlog.
    apply (log_extends_weaken _ _ _ _ (login_try_in_call u pw _)) in Hlog.
    pose proof (login_try_returns P u pw i w) as Hret.
    destruct (login_try P u pw i w) as [w1 [[f|e]|]]; cbn [fst snd] in *;
      [| |auto].
    + rewrite (Hret f eq_refl). cbn. auto.
    + destruct (caught_by_retry e); [|cbn; auto].
      destruct (2 <=? i)%nat.
      * cbn [fst push api display log]. repeat split; try assumption.
        eapply log_extends_trans; [exact Hlog|].
        apply log_extends_app. repeat constructor.
      * destruct (after_retry_frame P e (push (request_failed e) w1))
          as (Ha2 & Hd2 & _ & Hl2).
        assert (Hlog2 : log_extends (login_call_event u pw (headers (api w)))
                          (log w)
                          (log (fst (after_retry P e
                                       (push (request_failed e) w1))))).
        { rewrite Hl2. eapply log_extends_trans; [exact Hlog|].
          apply (log_extends_app _ (retry_action e :: request_failed e)),
            login_call_retry. }
        destruct (after_retry P e (push (request_failed e) w1))
          as [w2 [[f|e']|]]; cbn [fst push api display] in *;
          rewrite ?Ha2, ?Hd2; auto.
        destruct (IH w2) as (Hp' & Hh' & Hd' & Hlog').
        rewrite Ha2, Hd2, ?Hh in *.
        repeat split; try congruence.
        eapply log_extends_trans; [exact Hlog2 | exact Hlog'].
Qed.

Lemma poll_headers_again (a : GrowattApi) :
  dict_set (poll_headers a) "Cookie" (cookies a) = poll_headers a.
Proof. apply dict_set_twice. Qed.

(** The loop of [get_plant_info] asks one URL with one set of headers, and
    leaves the headers either as they were or with the cookie added. *)
Lemma get_plant_info_loop_effects P (range : list nat) :
  forall w,
    log_extends
      (get_plant_info_call_event (plant_info_url P (plant_id (api w)))
         (poll_headers (api w)))
      (log w) (log (fst (get_plant_info_loop P range w)))
    /\ (headers (api (fst (get_plant_info_loop P range w))) = headers (api w)
        \/ headers (api (fst (get_plant_info_loop P range w)))
           = poll_headers (api w)).
Proof.
  induction range as [|i rest IH]; intro w.
  - cbn. split; [constructor | now left].
  - rewrite get_plant_info_loop_cons.
    destruct (get_plant_info_try_frame P i w) as (_ & _ & Hp & Hc & _).
    destruct (get_plant_info_try_effects P i w) as [Hlog Hh].
    apply (log_extends_weaken _ _ _ _ (get_plant_info_try_in_call _ _)) in Hlog.
    pose proof (get_plant_info_try_returns P i w) as Hret.
    destruct (get_plant_info_try P i w) as [w1 [[f|e]|]]; cbn [fst snd] in *;
      [| |auto].
    + rewrite (Hret f eq_refl). cbn. auto.
    + destruct (caught_by_retry e); [|cbn; auto].
      destruct (3 <=? i)%nat.
      * cbn [fst push api log]. split; [|exact Hh].
        eapply log_extends_trans; [exact Hlog|].
        apply log_extends_app. repeat constructor.
      * destruct (after_retry_frame P e (push (request_failed e) w1))
          as (Ha2 & _ & _ & Hl2).
        assert (Hlog2 : log_extends
                          (get_plant_info_call_event
                             (plant_info_url P (plant_id (api w)))
                             (poll_headers (api w)))
                          (log w)
                          (log (fst (after_retry P e
                                       (push (request_failed e) w1))))).
        { rewrite Hl2. eapply log_extends_trans; [exact Hlog|].
          apply (log_extends_app _ (retry_action e :: request_failed e)),
            get_plant_info_call_retry. }
        destruct (after_retry P e (push (request_failed e) w1))
          as [w2 [[f|e']|]]; cbn [fst push api] in *;
          rewrite ?Ha2; auto.
        destruct (IH w2) as (Hlog' & Hh').
        assert (Hsame : poll_headers (api w1) = poll_headers (api w)).
        { unfold poll_headers in *. rewrite Hc.
          destruct Hh as [-> | ->]; [reflexivity | apply dict_set_twice]. }
        rewrite Ha2 in *. rewrite Hp, Hsame in Hlog'. rewrite Hsame in Hh'.
        split.
        -- eapply log_extends_trans; [exact Hlog2 | exact Hlog'].
        -- destruct Hh' as [Hh' | Hh']; [rewrite Hh'; exact Hh | now right].
Qed.

Lemma login_try_ends P u pw i w : snd (login_try P u pw i w) <> Hang.
Proof.
  destruct (login_try_done P u pw i w) as [_ [r Hr]]. now rewrite Hr.
Qed.

Lemma get_plant_info_try_ends P i w : snd (get_plant_info_try P i w) <> Hang.
Proof.
  destruct (get_plant_info_try_done P i w) as [_ [r Hr]]. now rewrite Hr.
Qed.

(** X3. In a call of [login] and in a call of [get_plant_info], each
    attempt but the last is followed by exactly one of [time.sleep],
    [wifi.reset()] and [wifi.connect()], and each of these that returns by
    an attempt: the call has made one attempt more than it has taken such
    actions, or as many when it ended inside the last of them, which then
    did not return or raised what [connect_AP] raised. Every sleep of the
    call lasts 20 seconds. *)
Theorem one_retry_action_between_attempts :
  (forall P u pw cfg w,
      exists evs,
        log (fst (login P u pw cfg w)) = evs ++ log w
        /\ (attempts (fst (login P u pw cfg w))
            = S (attempts w + count_events is_retry_action evs)
            \/ (ended_in_retry P (snd (login P u pw cfg w))
                /\ attempts (fst (login P u pw cfg w))
                   = (attempts w + count_events is_retry_action evs)%nat
                /\ (0 < count_events is_retry_action evs)%nat))
        /\ Forall (fun ev => match ev with EvSleep s => s = 20 | _ => True end)
             evs)
  /\ (forall P w,
        exists evs,
          log (fst (get_plant_info P w)) = evs ++ log w
          /\ (attempts (fst (get_plant_info P w))
              = S (attempts w + count_events is_retry_action evs)
              \/ (ended_in_retry P (snd (get_plant_info P w))
                  /\ attempts (fst (get_plant_info P w))
                     = (attempts w + count_events is_retry_action evs)%nat
                  /\ (0 < count_events is_retry_action evs)%nat))
          /\ Forall (fun ev => match ev with EvSleep s => s = 20 | _ => True end)
               evs).
Proof.
  split.
  - intros P u pw cfg w. rewrite login_eq, login_loop_retry_loop.
    set (h := replace_even_zeros (md5_hexdigest P pw)).
    destruct (retry_loop_counts P (login_try P u h) (login_except P) 2
                request_failed
                (mkExn SerialLoginErrors
                   "Serial login errors. Let's try something else!")
                (fun ev => is_retry_action ev = false)
                (attempts_login_try P u h) (login_try_no_retry_action P u h)
                (fun ev H => H) (login_try_returns P u h)
                (login_try_ends P u h) (login_except_eq P)
                (fun e => eq_refl) [1; 2]%nat (login_start P cfg w))
      as (evs & Hlog & _ & Hcount).
    destruct Hcount as [[Hall _] | Hcount].
    { exfalso. inversion Hall as [|? ? _ H2]. inversion H2 as [|? ? Hlt _]. lia. }
    destruct (login_loop_effects P u h [1; 2]%nat (login_start P cfg w))
      as (_ & _ & _ & Heff).
    rewrite login_loop_retry_loop in Heff.
    apply log_extends_split in Heff. destruct Heff as (evs' & Hlog' & Hall).
    rewrite Hlog in Hlog'. apply app_inv_tail in Hlog'. subst evs'.
    assert (H20 : Forall (fun ev => match ev with
                                    | EvSleep s => s = 20
                                    | _ => True
                                    end) evs).
    { eapply Forall_impl; [|exact Hall]. intros []; simpl; auto. }
    assert (Hstart : exists pre,
               log (login_start P cfg w) = pre ++ log w
               /\ count_events is_retry_action pre = 0%nat
               /\ Forall (fun ev => match ev with
                                    | EvSleep s => s = 20
                                    | _ => True
                                    end) pre).
    { unfold login_start. destruct (negb (is_None cfg));
        [eexists [_] | exists []]; repeat split; repeat constructor. }
    destruct Hstart as (pre & Hpre & Hc0 & Hf).
    exists (evs ++ pre). rewrite Hlog, Hpre, app_assoc.
    split; [reflexivity|]. rewrite count_events_app, Hc0.
    rewrite attempts_login_start in Hcount. split.
    + destruct Hcount as [Hc | (He & Hc & Hpos)]; [left; lia|].
      right. repeat split; [exact He | lia | lia].
    + apply Forall_app. split; assumption.
  - intros P w. unfold get_plant_info.
    change (py_range 1 4 1) with [1; 2; 3]%nat.
    rewrite get_plant_info_loop_retry_loop.
    destruct (retry_loop_counts P (get_plant_info_try P)
                (get_plant_info_except P) 3
                (fun e => EvPrint ["Giving up requesting"] :: request_failed e)
                (mkExn NotLoggedIn "Serial errors. Trying login again.")
                (fun ev => is_retry_action ev = false)
                (attempts_get_plant_info_try P)
                (get_plant_info_try_no_retry_action P)
                (fun ev H => H) (get_plant_info_try_returns P)
                (get_plant_info_try_ends P)
                (get_plant_info_except_eq P) (fun e => eq_refl)
                [1; 2; 3]%nat w)
      as (evs & Hlog & _ & Hcount).
    destruct Hcount as [[Hall _] | Hcount].
    { exfalso. inversion Hall as [|? ? _ H2]. inversion H2 as [|? ? _ H3].
      inversion H3 as [|? ? Hlt _]. lia. }
    destruct (get_plant_info_loop_effects P [1; 2; 3]%nat w) as [Heff _].
    rewrite get_plant_info_loop_retry_loop in Heff.
    apply log_extends_split in Heff. destruct Heff as (evs' & Hlog' & Hall).
    rewrite Hlog in Hlog'. apply app_inv_tail in Hlog'. subst evs'.
    exists evs. repeat split; [exact Hlog | exact Hcount |].
    eapply Forall_impl; [|exact Hall]. intros []; simpl; auto.
Qed.

(** X4. An exception of the classes the retry loops catch ([RuntimeError],
    [ValueError], [OutOfRetries], [WiFiNotConnected]) leaves [login] or
    [get_plant_info] only out of the retry action of an [except] block: it
    was raised by [connect_AP] inside [wifi.reset()] or [wifi.connect()]
    and is no [RuntimeError]. So no [RuntimeError] leaves either call, and
    no exception that a [try] block raised leaves it uncaught when its
    class is one of the four. *)
Theorem caught_errors_escape_only_from_the_radio :
  (forall P u pw cfg w e,
      snd (login P u pw cfg w) = Raise e ->
      caught_by_retry e = true ->
      from_connect_AP P e /\ is_RuntimeError e = false)
  /\ (forall P w e,
        snd (get_plant_info P w) = Raise e ->
        caught_by_retry e = true ->
        from_connect_AP P e /\ is_RuntimeError e = false).
Proof.
  assert (Hcls : forall P e, from_connect_AP P e ->
                             from_connect_AP P e /\ is_RuntimeError e = false).
  { intros P e H. split; [exact H|]. now destruct H as (j & _ & H). }
  split.
  - intros P u pw cfg w e H Hc. apply Hcls.
    rewrite login_eq, login_loop_retry_loop in H.
    exact (retry_loop_escapes P
             (login_try P u (replace_even_zeros (md5_hexdigest P pw)))
             (login_except P) 2 request_failed
             (mkExn SerialLoginErrors
                "Serial login errors. Let's try something else!")
             (login_try_returns P u _) (login_except_eq P) eq_refl
             _ _ _ H Hc).
  - intros P w e H Hc. apply Hcls. unfold get_plant_info in H.
    rewrite get_plant_info_loop_retry_loop in H.
    exact (retry_loop_escapes P (get_plant_info_try P)
             (get_plant_info_except P) 3
             (fun e => EvPrint ["Giving up requesting"] :: request_failed e)
             (mkExn NotLoggedIn "Serial errors. Trying login again.")
             (get_plant_info_try_returns P) (get_plant_info_except_eq P)
             eq_refl _ _ _ H Hc).
Qed.

Lemma caught_errors_escape_only_from_the_radio_witness :
  (from_connect_AP (with_esp picky_radio command_error_once)
     (mkExn ValueError "Invalid SSID")
   /\ is_RuntimeError (mkExn ValueError "Invalid SSID") = false)
  /\ (from_connect_AP (with_esp picky_radio command_error_once_poll)
        (mkExn ValueError "Invalid SSID")
      /\ is_RuntimeError (mkExn ValueError "Invalid SSID") = false).
Proof.
  split.
  - apply (proj1 caught_errors_escape_only_from_the_radio
             (with_esp picky_radio command_error_once) "user" "password" PNone
             world_init);
      vm_compute; reflexivity.
  - apply (proj2 caught_errors_escape_only_from_the_radio
             (with_esp picky_radio command_error_once_poll) world_init);
      vm_compute; reflexivity.
Defined.

(** ** The session a call of [login] leaves *)

(** X5. A call of [login] that returns has made at least one attempt, and
    the reply to its last attempt was accepted: its [success] flag is true,
    it has a [set-cookie] header, and that header is now the session's
    cookie. *)
Theorem login_returns_with_cookie P u pw cfg w w' :
  login P u pw cfg w = (w', Ok tt) ->
  exists r body s cookie,
    (attempts w < attempts w')%nat
    /\ is_connected (network P (pred (attempts w'))) = true
    /\ http_reply (network P (pred (attempts w'))) = Ok r
    /\ json_body r = Ok body
    /\ success_flag body = Ok s
    /\ py_truth s = true
    /\ header_get (resp_headers r) "set-cookie" = Ok cookie
    /\ cookies (api w') = PStr cookie.
Proof.
  intro H. rewrite login_eq, login_loop_retry_loop in H.
  apply (retry_loop_returned P _ _ 2 request_failed
           (mkExn SerialLoginErrors
              "Serial login errors. Let's try something else!")
           (attempts_login_try P u _) (login_try_returns P u _)
           (login_except_eq P)) in H.
  destruct H as [H | (i & w0 & f & Htry & Hle)].
  { exfalso. inversion H as [|? ? _ H2]. inversion H2 as [|? ? Hlt _]. lia. }
  rewrite attempts_login_start in Hle.
  pose proof (attempts_login_try P u
                (replace_even_zeros (md5_hexdigest P pw)) i w0) as Hat.
  destruct (login_try_ok P u (replace_even_zeros (md5_hexdigest P pw)) i w0 f)
    as (_ & r & body & s & c & Hc & Hr & Hb & Hs & Ht & Hh & Hck & _);
    [now rewrite Htry|].
  rewrite Htry in Hat, Hck. cbn [fst] in Hat, Hck.
  exists r, body, s, c. rewrite Hat. cbn [pred].
  repeat split; try assumption. lia.
Qed.

Lemma login_returns_with_cookie_witness :
  exists r body s cookie,
    (attempts world_init
     < attempts (fst (login link_down_once "user" "password" PNone world_init)))%nat
    /\ is_connected
         (network link_down_once
            (pred (attempts (fst (login link_down_once "user" "password" PNone
                                    world_init))))) = true
    /\ http_reply
         (network link_down_once
            (pred (attempts (fst (login link_down_once "user" "password" PNone
                                    world_init))))) = Ok r
    /\ json_body r = Ok body
    /\ success_flag body = Ok s
    /\ py_truth s = true
    /\ header_get (resp_headers r) "set-cookie" = Ok cookie
    /\ cookies (api (fst (login link_down_once "user" "password" PNone
                            world_init))) = PStr cookie.
Proof.
  apply (login_returns_with_cookie link_down_once "user" "password" PNone
           world_init).
  vm_compute. reflexivity.
Defined.

Lemma header_get_missing (h : list (string * string)) (k : string) (e : exn) :
  header_get h k = Raise e -> e = mkExn KeyError k.
Proof.
  induction h as [|[k' v] h IH]; simpl.
  - intro H. now inversion H.
  - destruct (String.eqb k k'); [discriminate | exact IH].
Qed.

(** X6. When no plant id is known and the accepted reply lists a plant but
    has no [set-cookie] header, [login] raises [KeyError] after that one
    attempt, without a retry; the session then has the plant id of the
    reply and still the cookie it had before. *)
Theorem login_without_set_cookie P u pw w r body s ids pid e :
  is_None (plant_id (api w)) = true ->
  is_connected (network P (attempts w)) = true ->
  http_reply (network P (attempts w)) = Ok r ->
  json_body r = Ok body ->
  success_flag body = Ok s ->
  py_truth s = true ->
  user_fields body = Ok ids ->
  first_plant_id body = Ok pid ->
  header_get (resp_headers r) "set-cookie" = Raise e ->
  exists w',
    login P u pw PNone w = (w', Raise (mkExn KeyError "set-cookie"))
    /\ attempts w' = S (attempts w)
    /\ plant_id (api w') = pid
    /\ cookies (api w') = cookies (api w).
Proof.
  intros Hid Hc Hr Hb Hs Ht Hu Hp Hh.
  rewrite (header_get_missing _ _ _ Hh) in Hh.
  rewrite login_eq. change (login_start P PNone w) with w.
  rewrite login_loop_cons.
  unfold success_flag, user_fields, first_plant_id in Hs, Hu, Hp.
  unfold login_try. unfold_m. cbn. rewrite Hc, Hr. cbn. rewrite Hb.
  destruct (getitem_key body "back") as [data|]; [|discriminate].
  rewrite Hs, Ht.
  destruct (getitem_key data "user") as [user|]; [|discriminate].
  destruct (getitem_key user "id") as [uid|]; [|discriminate].
  destruct (getitem_key user "rightlevel") as [lvl|]; [|discriminate].
  destruct data as [| | | | | |d]; try discriminate. cbn. rewrite Hid. cbn.
  cbn in Hp. rewrite !dict_get_set_other by reflexivity.
  destruct (dict_get d "data") as [plants|]; [|discriminate].
  destruct (getitem_idx plants 0) as [first|]; [|discriminate].
  rewrite Hp. cbn. rewrite Hh. cbn.
  eexists. repeat split.
Qed.

Lemma login_without_set_cookie_witness :
  exists w',
    login login_ok_without_cookie "user" "password" PNone world_init
    = (w', Raise (mkExn KeyError "set-cookie"))
    /\ attempts w' = 1%nat
    /\ plant_id (api w') = PStr "PLANT123"
    /\ cookies (api w') = cookies (api world_init).
Proof.
  apply (login_without_set_cookie login_ok_without_cookie "user" "password"
           world_init
           (mkResponse 200
              (Ok (PDict [("back",
                           PDict [("success", PBool true);
                                  ("user", PDict [("id", PInt 7);
                                                  ("rightlevel", PInt 1)]);
                                  ("data",
                                   PList [PDict [("plantId",
                                                  PStr "PLANT123")]])])]))
              [])
           (PDict [("back",
                    PDict [("success", PBool true);
                           ("user", PDict [("id", PInt 7);
                                           ("rightlevel", PInt 1)]);
                           ("data",
                            PList [PDict [("plantId", PStr "PLANT123")]])])])
           (PBool true) (PInt 7, PInt 1) (PStr "PLANT123")
           (mkExn KeyError "set-cookie")); reflexivity.
Defined.

Lemma headers_login_start P cfg w :
  headers (api (login_start P cfg w)) = headers (api w)
  /\ power (api (login_start P cfg w)) = power (api w)
  /\ display (login_start P cfg w) = display w.
Proof. unfold login_start. now destruct (negb (is_None cfg)). Qed.

Lemma login_call_start P u h cfg w :
  log_extends (login_call_event u h (headers (api w))) (log w)
    (log (login_start P cfg w)).
Proof.
  unfold login_start. destruct (negb (is_None cfg)); repeat constructor.
Qed.

(** X7. Every request a call of [login] makes is a POST to
    [newTwoLoginAPI.do] on the server, with the session's headers as they
    stand and the form fields [userName] and [password], where the password
    field is the result of [hash_password]: the password itself is not sent. *)
Theorem login_posts_hashed_password P u pw cfg w :
  exists evs,
    log (fst (login P u pw cfg w)) = evs ++ log w
    /\ forall url h data,
         In (EvPost url h data) evs ->
         url = "https://server-api.growatt.com/newTwoLoginAPI.do"
         /\ h = headers (api w)
         /\ hash_password (md5_hexdigest P) pw
            = Ok (replace_even_zeros (md5_hexdigest P pw))
         /\ data = [("userName", u);
                    ("password", replace_even_zeros (md5_hexdigest P pw))].
Proof.
  rewrite login_eq.
  destruct (login_loop_effects P u (replace_even_zeros (md5_hexdigest P pw))
              [1; 2]%nat (login_start P cfg w)) as (_ & _ & _ & Hlog).
  destruct (headers_login_start P cfg w) as (Hh & _).
  rewrite Hh in Hlog.
  pose proof (log_extends_trans _ _ _ _ (login_call_start P u _ cfg w) Hlog)
    as Hall.
  apply log_extends_split in Hall. destruct Hall as (evs & Heq & Hall).
  exists evs. split; [exact Heq|].
  intros url h data Hin. rewrite Forall_forall in Hall.
  destruct (Hall _ Hin) as (Hurl & Hhd & Hdata).
  repeat split; try assumption.
  unfold hash_password. apply hash_password_fold.
Qed.


(** X9. A call of [login] changes neither the stored power, nor the
    headers, nor the display, and makes no GET request; a call of
    [get_plant_info] changes neither the plant id, nor the cookie, nor the
    display, and makes no POST request. Neither writes to the readout or
    exits. *)
Theorem calls_leave_the_rest_alone :
  (forall P u pw cfg w,
      power (api (fst (login P u pw cfg w))) = power (api w)
      /\ headers (api (fst (login P u pw cfg w))) = headers (api w)
      /\ display (fst (login P u pw cfg w)) = display w
      /\ log_extends login_event (log w) (log (fst (login P u pw cfg w))))
  /\ (forall P w,
        plant_id (api (fst (get_plant_info P w))) = plant_id (api w)
        /\ cookies (api (fst (get_plant_info P w))) = cookies (api w)
        /\ display (fst (get_plant_info P w)) = display w
        /\ log_extends (poll_event P (plant_id (api w))) (log w)
             (log (fst (get_plant_info P w)))).
Proof.
  split.
  - intros P u pw cfg w. rewrite login_eq.
    destruct (login_loop_effects P u (replace_even_zeros (md5_hexdigest P pw))
                [1; 2]%nat (login_start P cfg w)) as (Hp & Hh & Hd & _).
    destruct (headers_login_start P cfg w) as (Hh0 & Hp0 & Hd0).
    repeat split; try congruence.
    eapply log_extends_trans; [|apply login_loop_log].
    unfold login_start. destruct (negb (is_None cfg)); repeat constructor.
  - intros P w.
    destruct (get_plant_info_loop_frame P (py_range 1 4 1) w)
      as (Hd & Hp & Hc & _ & Hlog & _).
    repeat split; assumption.
Qed.

(** ** The orchestration loop beyond its handlers *)

(** X10. A polling step whose call of [get_plant_info] returns has a
    stored reading [p]; it shows [p] on the readout, then sleeps 120 seconds
    when [p] is at least the display's minimum power threshold and 1200
    seconds otherwise, and goes on polling. *)
Theorem polling_step_shows_reading_and_sleeps P u pw cfg w w1 :
  get_plant_info P (fst (show_readout_placeholder w)) = (w1, Ok tt) ->
  exists p w',
    power (api w1) = Some p
    /\ main_step P u pw cfg Polling w = (w', Ok Polling)
    /\ api w' = api w1
    /\ attempts w' = attempts w1
    /\ readout_text (display w') = (replace_zero_with_O (str_of_Z p) ++ " W")%string
    /\ log w'
       = EvSleep (if minimum_power_threshold (display w) <=? p
                  then 120 else 1200)
         :: EvGcCollect :: EvFill 0
         :: EvReadout (replace_zero_with_O (str_of_Z p) ++ " W")%string
         :: EvGcCollect :: log w1.
Proof.
  intro H.
  destruct (get_plant_info_loop_frame P (py_range 1 4 1)
              (fst (show_readout_placeholder w))) as (Hd & _).
  fold (get_plant_info P) in Hd. rewrite H in Hd. cbn [fst] in Hd.
  assert (Hthr : minimum_power_threshold (display w1)
                 = minimum_power_threshold (display w))
    by (rewrite Hd; reflexivity).
  pose proof H as Hok. unfold get_plant_info in Hok.
  apply get_plant_info_loop_ok in Hok.
  destruct Hok as [Hall | (r & body & reading & p & _ & _ & _ & _ & _ & _ & _ & Hp)].
  { exfalso. change (py_range 1 4 1) with [1; 2; 3]%nat in Hall.
    inversion Hall as [|? ? _ H2]. inversion H2 as [|? ? _ H3].
    inversion H3 as [|? ? Hlt _]. lia. }
  exists p. cbn [main_step]. unfold try_except, poll_once, bind.
  rewrite show_readout_placeholder_eq.
  rewrite show_readout_placeholder_eq in H. cbn [fst] in H. rewrite H.
  unfold update_display. unfold_m. unfold set_readout_text. unfold_m.
  cbn. rewrite Hp. cbn.
  destruct (p <? minimum_power_threshold (display w1)); cbn; rewrite Hp; cbn;
    rewrite Hthr;
    destruct (minimum_power_threshold (display w) <=? p); cbn;
    eexists; repeat split.
Qed.

Lemma polling_step_shows_reading_and_sleeps_witness :
  exists p w',
    power (api (fst (get_plant_info reading_2_75
                       (fst (show_readout_placeholder world_init))))) = Some p
    /\ main_step reading_2_75 "user" "password" PNone Polling world_init
       = (w', Ok Polling)
    /\ api w'
       = api (fst (get_plant_info reading_2_75
                     (fst (show_readout_placeholder world_init))))
    /\ attempts w'
       = attempts (fst (get_plant_info reading_2_75
                          (fst (show_readout_placeholder world_init))))
    /\ readout_text (display w') = (replace_zero_with_O (str_of_Z p) ++ " W")%string
    /\ log w'
       = EvSleep (if minimum_power_threshold (display world_init) <=? p
                  then 120 else 1200)
         :: EvGcCollect :: EvFill 0
         :: EvReadout (replace_zero_with_O (str_of_Z p) ++ " W")%string
         :: EvGcCollect
         :: log (fst (get_plant_info reading_2_75
                        (fst (show_readout_placeholder world_init)))).
Proof.
  apply (polling_step_shows_reading_and_sleeps reading_2_75 "user" "password"
           PNone world_init).
  vm_compute. reflexivity.
Defined.

Lemma main_step_login_raise P u pw cfg (w w1 : world) (e : exn) :
  login P u pw cfg w = (w1, Raise e) ->
  main_step P u pw cfg LoggingIn w = outer_except P e w1.
Proof.
  intro H. cbn [main_step]. unfold try_except, bind. rewrite H.
  destruct (outer_except P e w1) as [w2 [[s|e']|]]; reflexivity.
Qed.

(** X11. An exception out of [login] or [get_plant_info] that is neither
    a [NotLoggedIn] nor a [SerialLoginErrors] ends the program: the step
    prints "Unknown exception." and calls [exit(1)], without resetting the
    Wi-Fi and without another attempt. *)
Theorem unknown_exception_exits :
  (forall P u pw cfg w w1 e,
      login P u pw cfg w = (w1, Raise e) ->
      is_NotLoggedIn e = false ->
      is_SerialLoginErrors e = false ->
      main_step P u pw cfg LoggingIn w
      = (push [EvExit 1; EvPrint ["Unknown exception."]] w1, Ok (Exited 1)))
  /\ (forall P u pw cfg w w1 e,
        get_plant_info P (fst (show_readout_placeholder w)) = (w1, Raise e) ->
        is_NotLoggedIn e = false ->
        is_SerialLoginErrors e = false ->
        main_step P u pw cfg Polling w
        = (push [EvExit 1; EvPrint ["Unknown exception."]] w1, Ok (Exited 1))).
Proof.
  split; intros P u pw cfg w w1 e H Hn Hs.
  - rewrite (main_step_login_raise P u pw cfg w w1 e H).
    unfold outer_except. rewrite Hn, Hs. reflexivity.
  - rewrite (main_step_polling_raise P u pw cfg w w1 e H), Hn.
    unfold outer_except. rewrite Hn, Hs. reflexivity.
Qed.

Lemma unknown_exception_exits_witness :
  main_step login_ok_without_cookie "user" "password" PNone LoggingIn world_init
  = (push [EvExit 1; EvPrint ["Unknown exception."]]
       (fst (login login_ok_without_cookie "user" "password" PNone world_init)),
     Ok (Exited 1))
  /\ main_step reading_missing "user" "password" PNone Polling world_init
     = (push [EvExit 1; EvPrint ["Unknown exception."]]
          (fst (get_plant_info reading_missing
                  (fst (show_readout_placeholder world_init)))),
        Ok (Exited 1)).
Proof.
  split.
  - apply (proj1 unknown_exception_exits login_ok_without_cookie "user"
             "password" PNone world_init _ (mkExn KeyError "set-cookie"));
      vm_compute; reflexivity.
  - apply (proj2 unknown_exception_exits reading_missing "user" "password"
             PNone world_init _ (mkExn IndexError "list index out of range"));
      vm_compute; reflexivity.
Defined.






(** ** The display *)

Lemma replace_zero_with_O_get (s : string) :
  forall n, String.get n (replace_zero_with_O s) <> Some "0"%char.
Proof.
  induction s as [|c s IH]; intros [|n]; simpl; try discriminate.
  - destruct (Ascii.eqb c "0") eqn:E; [discriminate|].
    intro H. inversion H. subst c. discriminate.
  - apply IH.
Qed.

Lemma replace_zero_with_O_length (s : string) :
  String.length (replace_zero_with_O s) = String.length s.
Proof. induction s as [|c s IH]; simpl; [reflexivity | now rewrite IH]. Qed.

Lemma append_get_no_zero (s1 s2 : string) :
  (forall n, String.get n s1 <> Some "0"%char) ->
  (forall n, String.get n s2 <> Some "0"%char) ->
  forall n, String.get n (s1 ++ s2)%string <> Some "0"%char.
Proof.
  intros H1 H2. induction s1 as [|c s1 IH]; intro n; [apply H2|].
  destruct n as [|n]; simpl.
  - exact (H1 0%nat).
  - apply IH. intro k. exact (H1 (S k)).
Qed.

(** X13. [update_display] with a reading [p] sets the readout to [str(p)]
    with every ['0'] replaced by ['O'], followed by " W": the text has two
    characters more than [str(p)] and holds no ['0'] anywhere. With [None]
    it changes nothing. *)
Theorem update_display_text (p : Z) (w : world) :
  readout_text (display (fst (update_display (Some p) w)))
  = (replace_zero_with_O (str_of_Z p) ++ " W")%string
  /\ String.length (readout_text (display (fst (update_display (Some p) w))))
     = (String.length (str_of_Z p) + 2)%nat
  /\ (forall n,
        String.get n (readout_text (display (fst (update_display (Some p) w))))
        <> Some "0"%char)
  /\ update_display None w = (w, Ok tt).
Proof.
  assert (Htext : readout_text (display (fst (update_display (Some p) w)))
                  = (replace_zero_with_O (str_of_Z p) ++ " W")%string).
  { unfold update_display. unfold_m. unfold set_readout_text. unfold_m. cbn.
    destruct (p <? minimum_power_threshold (display w)); reflexivity. }
  rewrite Htext. split; [reflexivity | split; [|split; [|reflexivity]]].
  - rewrite append_length, replace_zero_with_O_length. reflexivity.
  - apply append_get_no_zero; [apply replace_zero_with_O_get|].
    intros [|[|[|n]]]; discriminate.
Qed.

(** X14. The colours [update_display] picks grow with the reading: a
    larger reading never gets a lower colour index for the readout or the
    title; a reading under the display's threshold turns both black
    (index 0), and the threshold itself is never changed. *)
Theorem update_display_colours (p q : Z) (w : world) :
  p <= q ->
  (readout_color (display (fst (update_display (Some p) w)))
   <= readout_color (display (fst (update_display (Some q) w))))%nat
  /\ (title_color (display (fst (update_display (Some p) w)))
      <= title_color (display (fst (update_display (Some q) w))))%nat
  /\ (p < minimum_power_threshold (display w) ->
      readout_color (display (fst (update_display (Some p) w))) = 0%nat
      /\ title_color (display (fst (update_display (Some p) w))) = 0%nat
      /\ title_text (display (fst (update_display (Some p) w)))
         = title_text (display w))
  /\ minimum_power_threshold (display (fst (update_display (Some p) w)))
     = minimum_power_threshold (display w).
Proof.
  intro Hpq. unfold update_display. unfold_m. unfold set_readout_text.
  unfold_m. cbn.
  destruct (p <? minimum_power_threshold (display w)) eqn:Hp;
    destruct (q <? minimum_power_threshold (display w)) eqn:Hq; cbn;
    destruct (p <? 1500) eqn:Hp1; destruct (q <? 1500) eqn:Hq1;
    destruct (p <? 2500) eqn:Hp2; destruct (q <? 2500) eqn:Hq2; cbn;
    repeat split; try lia; try reflexivity;
    rewrite ?Z.ltb_lt, ?Z.ltb_ge in *; try lia.
Qed.

Lemma update_display_colours_witness :
  Nat.le (readout_color (display (fst (update_display (Some 5) world_init))))
    (readout_color (display (fst (update_display (Some 1500) world_init))))
  /\ Nat.le (title_color (display (fst (update_display (Some 5) world_init))))
       (title_color (display (fst (update_display (Some 1500) world_init))))
  /\ (5 < minimum_power_threshold (display world_init) ->
      readout_color (display (fst (update_display (Some 5) world_init)))
      = 0%nat
      /\ title_color (display (fst (update_display (Some 5) world_init)))
         = 0%nat
      /\ title_text (display (fst (update_display (Some 5) world_init)))
         = title_text (display world_init))
  /\ minimum_power_threshold
       (display (fst (update_display (Some 5) world_init)))
     = minimum_power_threshold (display world_init).
Proof. apply (update_display_colours 5 1500 world_init). lia. Defined.

(** ** [WiFiControl.connect] and [WiFiControl.reset] *)

(** X15. When the first [k] rounds of the loop of [connect] find the link
    down, with [connect_AP] returning or raising [RuntimeError], and the
    next reading of [is_connected] is true, [connect] returns (given more
    than [k] rounds) after exactly [k] calls of [connect_AP] and [k + 1]
    readings of [is_connected], and ends by setting the socket interface
    and the requests socket. *)
Theorem connect_retries_until_link_is_up E ssid pw (k fuel : nat) (r : radio) :
  (forall j, (j < k)%nat -> round_fails (air E (radio_checks r + j)) = true) ->
  link_up (air E (radio_checks r + k)) = true ->
  (k < fuel)%nat ->
  exists r' rest,
    connect E ssid pw fuel r = Some (r', Ok tt)
    /\ radio_checks r' = S (radio_checks r + k)
    /\ count_radio is_connect_AP (radio_log r')
       = (count_radio is_connect_AP (radio_log r) + k)%nat
    /\ radio_log r'
       = RSetSocket :: RSetInterface
         :: RPrint ["Connected to"; esp_ssid E;
                    String (ascii_of_nat 9) "RSSI:"; str_of_Z (esp_rssi E)]
         :: rest.
Proof.
  intros Hfail Hup Hfuel. unfold connect.
  destruct (connect_loop_reaches_link E ssid pw k fuel
              (radio_did (RPrint ["Connecting to AP..."]) r) Hfail Hup Hfuel)
    as (r1 & Hrun & Hch & Hcnt & _).
  rewrite Hrun. eexists. eexists. split; [reflexivity|].
  cbn [radio_did radio_checks radio_log] in *.
  rewrite !count_radio_cons in *. cbn in *.
  repeat split; [exact Hch | exact Hcnt].
Qed.

Lemma connect_retries_until_link_is_up_witness :
  exists r' rest,
    connect third_time_lucky "home" "wifi-secret" 3 radio_init
    = Some (r', Ok tt)
    /\ radio_checks r' = 3%nat
    /\ count_radio is_connect_AP (radio_log r')
       = (count_radio is_connect_AP (radio_log radio_init) + 2)%nat
    /\ radio_log r'
       = RSetSocket :: RSetInterface
         :: RPrint ["Connected to"; esp_ssid third_time_lucky;
                    String (ascii_of_nat 9) "RSSI:";
                    str_of_Z (esp_rssi third_time_lucky)]
         :: rest.
Proof.
  apply (connect_retries_until_link_is_up third_time_lucky "home" "wifi-secret"
           2 3 radio_init).
  - intros [|[|j]] Hj; [reflexivity | reflexivity | lia].
  - reflexivity.
  - lia.
Defined.

(** X16. While every round finds the link down and [connect_AP] only
    returns or raises [RuntimeError], neither [connect] nor [reset] comes
    back, however many rounds they are given: there is no bound on the
    number of tries. *)
Theorem connect_never_gives_up E ssid pw (r : radio) :
  (forall j, round_fails (air E (radio_checks r + j)) = true) ->
  forall fuel : nat,
    connect E ssid pw fuel r = None /\ reset E ssid pw fuel r = None.
Proof.
  intros Hfail fuel. unfold reset, connect.
  rewrite !connect_loop_never_returns; [split; reflexivity | exact Hfail | exact Hfail].
Qed.

Lemma connect_never_gives_up_witness :
  connect no_access_point "home" "wifi-secret" 1000 radio_init = None
  /\ reset no_access_point "home" "wifi-secret" 1000 radio_init = None.
Proof.
  apply (connect_never_gives_up no_access_point "home" "wifi-secret" radio_init).
  intro j. reflexivity.
Defined.

(** What a run of the loop that ends has seen, and what it has not done. *)
(** X17. [connect] returns only when the link is up: the last reading of
    [is_connected] before it returned was true, and every earlier round
    found the link down. When it raises, the exception comes from
    [connect_AP], is not a [RuntimeError], and neither socket was set. The
    same holds for [reset]. *)
Theorem connect_returns_only_when_up E ssid pw (fuel : nat) (r r' : radio)
  (res : result unit) :
  connect E ssid pw fuel r = Some (r', res)
  \/ reset E ssid pw fuel r = Some (r', res) ->
  (radio_checks r < radio_checks r')%nat
  /\ (forall j, (radio_checks r <= j)%nat -> (S j < radio_checks r')%nat ->
                round_fails (air E j) = true)
  /\ match res with
     | Ok _ => link_up (air E (pred (radio_checks r'))) = true
     | Raise e =>
         link_up (air E (pred (radio_checks r'))) = false
         /\ connect_AP (air E (pred (radio_checks r'))) = Raise e
         /\ is_RuntimeError e = false
         /\ count_radio is_set_socket (radio_log r')
            = count_radio is_set_socket (radio_log r)
     end.
Proof.
  assert (Hconn : forall r0,
             radio_checks r0 = radio_checks r ->
             count_radio is_set_socket (radio_log r0)
             = count_radio is_set_socket (radio_log r) ->
             connect E ssid pw fuel r0 = Some (r', res) ->
             (radio_checks r < radio_checks r')%nat
             /\ (forall j, (radio_checks r <= j)%nat ->
                           (S j < radio_checks r')%nat ->
                           round_fails (air E j) = true)
             /\ match res with
                | Ok _ => link_up (air E (pred (radio_checks r'))) = true
                | Raise e =>
                    link_up (air E (pred (radio_checks r'))) = false
                    /\ connect_AP (air E (pred (radio_checks r'))) = Raise e
                    /\ is_RuntimeError e = false
                    /\ count_radio is_set_socket (radio_log r')
                       = count_radio is_set_socket (radio_log r)
                end).
  { intros r0 Hch Hsock H. unfold connect in H.
    destruct (connect_loop E ssid pw fuel
                (radio_did (RPrint ["Connecting to AP..."]) r0))
      as [[r1 res1]|] eqn:Hrun; [|discriminate].
    apply connect_loop_result in Hrun.
    cbn [radio_did radio_checks radio_log] in Hrun.
    rewrite count_radio_cons in Hrun. cbn in Hrun.
    rewrite Hch, Hsock in Hrun.
    destruct Hrun as (Hlt & Hall & Hs & Hres).
    destruct res1 as [[]|e]; inversion H; subst r' res; cbn; tauto. }
  intros [H | H].
  - apply (Hconn r eq_refl eq_refl H).
  - unfold reset in H. eapply Hconn; [| |exact H]; reflexivity.
Qed.

Lemma connect_returns_only_when_up_witness :
  exists r',
    connect broken_radio "home" "wifi-secret" 5 radio_init
    = Some (r', Raise (mkExn OSError "SPI failure"))
    /\ (radio_checks radio_init < radio_checks r')%nat
    /\ (forall j,
          (radio_checks radio_init <= j)%nat -> (S j < radio_checks r')%nat ->
          round_fails (air broken_radio j) = true)
    /\ (link_up (air broken_radio (pred (radio_checks r'))) = false
        /\ connect_AP (air broken_radio (pred (radio_checks r')))
           = Raise (mkExn OSError "SPI failure")
        /\ is_RuntimeError (mkExn OSError "SPI failure") = false
        /\ count_radio is_set_socket (radio_log r')
           = count_radio is_set_socket (radio_log radio_init)).
Proof.
  eexists. split; [reflexivity|].
  apply (connect_returns_only_when_up broken_radio "home" "wifi-secret" 5
           radio_init _ (Raise (mkExn OSError "SPI failure"))).
  left. reflexivity.
Defined.

(** ** [login] and then [get_plant_info] *)

(** X18. After a call of [login] that returned, every request of the next
    call of [get_plant_info] asks for the session's plant id and carries,
    as its [Cookie] header, the [set-cookie] header of the reply that
    [login] accepted. *)
Theorem poll_after_login_uses_the_session P u pw cfg w w1 :
  login P u pw cfg w = (w1, Ok tt) ->
  exists r cookie evs,
    http_reply (network P (pred (attempts w1))) = Ok r
    /\ header_get (resp_headers r) "set-cookie" = Ok cookie
    /\ log (fst (get_plant_info P w1)) = evs ++ log w1
    /\ forall url h,
         In (EvGet url h) evs ->
         url = plant_info_url P (plant_id (api w1))
         /\ dict_get h "Cookie" = Some (PStr cookie).
Proof.
  intro H. rewrite login_eq, login_loop_retry_loop in H.
  apply (retry_loop_returned P _ _ 2 request_failed
           (mkExn SerialLoginErrors
              "Serial login errors. Let's try something else!")
           (attempts_login_try P u _) (login_try_returns P u _)
           (login_except_eq P)) in H.
  destruct H as [H | (i & w0 & f & Htry & _)].
  { exfalso. inversion H as [|? ? _ H2]. inversion H2 as [|? ? Hlt _]. lia. }
  pose proof (attempts_login_try P u
                (replace_even_zeros (md5_hexdigest P pw)) i w0) as Hat.
  destruct (login_try_ok P u (replace_even_zeros (md5_hexdigest P pw)) i w0 f)
    as (_ & r & body & s & c & _ & Hr & _ & _ & _ & Hh & Hck & _);
    [now rewrite Htry|].
  rewrite Htry in Hat, Hck. cbn [fst] in Hat, Hck.
  destruct (get_plant_info_loop_effects P (py_range 1 4 1) w1) as [Hlog _].
  apply log_extends_split in Hlog. destruct Hlog as (evs & Heq & Hall).
  exists r, c, evs. rewrite Hat. cbn [pred].
  repeat split; try assumption.
  - rewrite Forall_forall in Hall. now destruct (Hall _ H).
  - rewrite Forall_forall in Hall. destruct (Hall _ H) as (_ & ->).
    unfold poll_headers. rewrite Hck. apply dict_get_set_same.
Qed.

Lemma poll_after_login_uses_the_session_witness :
  exists r cookie evs,
    http_reply
      (network plant_list_changed
         (pred (attempts (fst (login plant_list_changed "user" "password" PNone
                                 world_init))))) = Ok r
    /\ header_get (resp_headers r) "set-cookie" = Ok cookie
    /\ log (fst (get_plant_info plant_list_changed
                   (fst (login plant_list_changed "user" "password" PNone
                           world_init))))
       = evs ++ log (fst (login plant_list_changed "user" "password" PNone
                            world_init))
    /\ forall url h,
         In (EvGet url h) evs ->
         url = plant_info_url plant_list_changed
                 (plant_id (api (fst (login plant_list_changed "user"
                                        "password" PNone world_init))))
         /\ dict_get h "Cookie" = Some (PStr cookie).
Proof.
  apply (poll_after_login_uses_the_session plant_list_changed "user" "password"
           PNone world_init).
  vm_compute. reflexivity.
Defined.

(** ** Reading the secrets *)

(** X19. Reading [secrets.py] needs the keys [ssid], [password],
    [growatt_username] and [growatt_password]: the first of them that is
    missing raises a [KeyError] naming it. With all four present the read
    succeeds; a missing [growatt_plant_id] is not an error, it prints a
    note and leaves the plant id [None]. *)
Theorem read_secrets_required_and_optional (d : dict) :
  match first_missing d required_secrets with
  | Some k => read_secrets d = ([], Raise (mkExn KeyError k))
  | None =>
      exists ssid wifi_password username password,
        dict_get d "ssid" = Some ssid
        /\ dict_get d "password" = Some wifi_password
        /\ dict_get d "growatt_username" = Some username
        /\ dict_get d "growatt_password" = Some password
        /\ read_secrets d
           = match dict_get d "growatt_plant_id" with
             | Some plant_id =>
                 ([], Ok (mkAccount ssid wifi_password username password
                            plant_id))
             | None =>
                 ([["secrets.py did not specify a Growatt plant ID"]],
                  Ok (mkAccount ssid wifi_password username password PNone))
             end
  end.
Proof.
  unfold read_secrets, required_secrets. cbn [first_missing getitem_key].
  destruct (dict_get d "ssid") as [s|]; [|reflexivity].
  destruct (dict_get d "password") as [w|]; [|reflexivity].
  destruct (dict_get d "growatt_username") as [u|]; [|reflexivity].
  destruct (dict_get d "growatt_password") as [p|]; [|reflexivity].
  exists s, w, u, p. repeat split.
  destruct (dict_get d "growatt_plant_id"); reflexivity.
Qed.

(** ** A radio that is never up, and following the radio for longer *)

Lemma retry_radio_never_returns P (e : exn) (r : radio) :
  (forall j, round_fails (air (esp P) j) = true) ->
  retry_action e <> EvSleep 20 ->
  retry_radio P e r = None.
Proof.
  intros Hnever Hact. unfold retry_radio, retry_action in *.
  destruct (String.eqb (exn_str e) "WiFi not connected");
    [|destruct (String.eqb (exn_str e) "Error response to command")];
    cbn [negb] in *; [| |congruence];
    unfold reset, connect; rewrite connect_loop_never_returns; auto.
Qed.

(** X20. On a board whose link never comes up, with [connect_AP] only
    returning or raising [RuntimeError], a call of [wifi.reset()] or
    [wifi.connect()] never returns, however long it is followed; so a call
    of [login] or [get_plant_info] whose first attempt ends in a caught
    error with the text "Error response to command" or "WiFi not
    connected" stops there for ever, after that one attempt, and so does
    the orchestration loop once [login] has raised [SerialLoginErrors]. *)
Theorem radio_never_up_stalls P :
  (forall j, round_fails (air (esp P) j) = true) ->
  (forall u pw cfg w e,
      login_transport_error (network P (attempts w)) = Some e ->
      retry_action e <> EvSleep 20 ->
      snd (login P u pw cfg w) = Hang
      /\ attempts (fst (login P u pw cfg w)) = S (attempts w))
  /\ (forall w e,
        get_plant_info_transport_error P (network P (attempts w)) = Some e ->
        retry_action e <> EvSleep 20 ->
        snd (get_plant_info P w) = Hang
        /\ attempts (fst (get_plant_info P w)) = S (attempts w))
  /\ (forall u pw cfg n w w1 e,
        login P u pw cfg w = (w1, Raise e) ->
        exn_cls e = SerialLoginErrors ->
        main_run P u pw cfg (S n) LoggingIn w
        = (push serial_login_handled w1, Hang)).
Proof.
  intro Hnever. split; [|split].
  - intros u pw cfg w e He Hact. rewrite login_eq.
    rewrite <- (attempts_login_start P cfg w) in He |- *.
    rewrite (login_loop_caught _ _ _ _ _ _ _ He). cbn [Nat.leb].
    unfold after_retry. rewrite retry_radio_never_returns by assumption.
    cbn [fst snd push attempts]. split; [reflexivity | apply attempts_login_try].
  - intros w e He Hact. unfold get_plant_info.
    change (py_range 1 4 1) with [1; 2; 3]%nat.
    rewrite (get_plant_info_loop_caught _ _ _ _ _ He). cbn [Nat.leb].
    unfold after_retry. rewrite retry_radio_never_returns by assumption.
    cbn [fst snd push attempts].
    split; [reflexivity | apply attempts_get_plant_info_try].
  - intros u pw cfg n w w1 e Hlogin Hcls. cbn [main_run]. unfold bind at 1.
    rewrite (main_step_login_raise P u pw cfg w w1 e Hlogin).
    rewrite outer_except_serial by exact Hcls.
    unfold reset, connect. rewrite connect_loop_never_returns; [reflexivity|].
    intro j. apply Hnever.
Qed.

Lemma radio_never_up_stalls_witness :
  (snd (login (with_esp no_access_point command_error_once) "user" "password"
          PNone world_init) = Hang
   /\ attempts (fst (login (with_esp no_access_point command_error_once)
                       "user" "password" PNone world_init))
      = S (attempts world_init))
  /\ (snd (get_plant_info (with_esp no_access_point command_error_once_poll)
             world_init) = Hang
      /\ attempts (fst (get_plant_info
                          (with_esp no_access_point command_error_once_poll)
                          world_init))
         = S (attempts world_init))
  /\ main_run (with_esp no_access_point two_failures) "user" "password" PNone
       (S 3) LoggingIn world_init
     = (push serial_login_handled
          (fst (login (with_esp no_access_point two_failures) "user" "password"
                  PNone world_init)),
        Hang).
Proof.
  split; [|split].
  - apply (proj1 (radio_never_up_stalls
                    (with_esp no_access_point command_error_once)
                    (fun j => eq_refl))
             "user" "password" PNone world_init
             (mkExn RuntimeError "Error response to command"));
      [reflexivity | discriminate].
  - apply (proj1 (proj2 (radio_never_up_stalls
                           (with_esp no_access_point command_error_once_poll)
                           (fun j => eq_refl)))
             world_init (mkExn RuntimeError "Error response to command"));
      [reflexivity | discriminate].
  - apply (proj2 (proj2 (radio_never_up_stalls
                           (with_esp no_access_point two_failures)
                           (fun j => eq_refl)))
             "user" "password" PNone 3%nat world_init _
             (mkExn SerialLoginErrors
                "Serial login errors. Let's try something else!"));
      vm_compute; reflexivity.
Defined.











